(** * DawnOfWarDisBot: match ingestion, identity resolution and statistics

    A shallow embedding of the core of [Bot.py]: the match normalizer
    ([store_match_from_history]), the match store and its persistence,
    the identity validator ([validate_steamid]), the ELO filter, the
    statistics aggregators and the leaderboard views, followed by the
    properties of the specification that concern them.

    Conventions of the embedding.
    - A Python [str] is the list of its Unicode code points ([pystr]), so
      that [len] and [str.isdigit] mean what they mean in Python.
    - A Python [int] is a [Z].  A win rate is computed by Python's true
      division on ints; it is embedded as an exact rational ([Q]).
    - A Python [dict] is an association list in insertion order with unique
      keys ([dict]); a [set] is a duplicate-free list.
    - A JSON payload is a record whose fields are optional where the code
      reads them with [.get] (absent gives the default) or with [[...]]
      (absent raises [KeyError]); every present field has the type the
      upstream API documents for it.
    - The module-level globals [stored_matches], [processed_match_ids] and
      [player_aliases] form the record [Store], threaded explicitly; the
      calls of the two snapshot writers are recorded in its [io_log].
    - [print] writes to the standard output of the process and raises
      [UnicodeEncodeError] on a text its encoder rejects (with UTF-8, a
      text with a lone surrogate, which [json.loads] may yield).  Which
      characters beyond ASCII the encoder accepts is part of the state
      ([stdout_encodes]); ASCII text is always written.  Only the prints
      of text that comes from a payload or a file can therefore raise. *)

From Stdlib Require Import ZArith NArith List Bool Ascii String Lia.
From Stdlib Require Import QArith.
From Stdlib Require Import DecimalString.
From Stdlib Require Import Sorted Permutation.
Import ListNotations.

Local Open Scope Z_scope.
Local Open Scope bool_scope.

(* ------------------------------------------------------------------ *)
(** ** Python strings *)

Definition pystr := list N.

(** The [str] written as an ASCII literal in the source. *)
Definition str (s : string) : pystr :=
  map N_of_ascii (list_ascii_of_string s).

Fixpoint pystr_eqb (a b : pystr) : bool :=
  match a, b with
  | [], [] => true
  | x :: a', y :: b' => N.eqb x y && pystr_eqb a' b'
  | _, _ => false
  end.

(** [s.startswith(p)] *)
Fixpoint startswith (s p : pystr) : bool :=
  match p, s with
  | [], _ => true
  | y :: p', x :: s' => N.eqb x y && startswith s' p'
  | _ :: _, [] => false
  end.

(** [s.replace(p, '')] for a non-empty [p]: every non-overlapping
    occurrence of [p], found from the left, is removed.  [skip] counts the
    characters of the current occurrence still to drop. *)
Fixpoint remove_all_from (p : pystr) (skip : nat) (s : pystr) : pystr :=
  match s with
  | [] => []
  | c :: s' =>
      match skip with
      | S k => remove_all_from p k s'
      | O => if startswith s p
             then remove_all_from p (Nat.pred (List.length p)) s'
             else c :: remove_all_from p O s'
      end
  end.

Definition remove_all (p s : pystr) : pystr := remove_all_from p O s.

(** Python's comparison of two [str]: lexicographic on code points. *)
Fixpoint pystr_ltb (a b : pystr) : bool :=
  match a, b with
  | _, [] => false
  | [], _ :: _ => true
  | x :: a', y :: b' =>
      if N.ltb x y then true
      else if N.eqb x y then pystr_ltb a' b' else false
  end.

(** [str(n)] for an int. *)
Definition str_of_int (n : Z) : pystr :=
  str (NilZero.string_of_int (Z.to_int n)).

(** The code points on which [str.isdigit] holds (Numeric_Type Digit or
    Decimal in the Unicode database of CPython 3.11), as inclusive ranges.
    The first range is the ASCII digits; no other range meets the ASCII
    block. *)
Definition digit_ranges : list (N * N) :=
  [ (48, 57); (178, 179); (185, 185); (1632, 1641); (1776, 1785);
    (1984, 1993); (2406, 2415); (2534, 2543); (2662, 2671); (2790, 2799);
    (2918, 2927); (3046, 3055); (3174, 3183); (3302, 3311); (3430, 3439);
    (3558, 3567); (3664, 3673); (3792, 3801); (3872, 3881); (4160, 4169);
    (4240, 4249); (4969, 4977); (6112, 6121); (6160, 6169); (6470, 6479);
    (6608, 6618); (6784, 6793); (6800, 6809); (6992, 7001); (7088, 7097);
    (7232, 7241); (7248, 7257); (8304, 8304); (8308, 8313); (8320, 8329);
    (9312, 9320); (9332, 9340); (9352, 9360); (9450, 9450); (9461, 9469);
    (9471, 9471); (10102, 10110); (10112, 10120); (10122, 10130);
    (42528, 42537); (43216, 43225); (43264, 43273); (43472, 43481);
    (43504, 43513); (43600, 43609); (44016, 44025); (65296, 65305);
    (66720, 66729); (68160, 68163); (68912, 68921); (69216, 69224);
    (69714, 69722); (69734, 69743); (69872, 69881); (69942, 69951);
    (70096, 70105); (70384, 70393); (70736, 70745); (70864, 70873);
    (71248, 71257); (71360, 71369); (71472, 71481); (71904, 71913);
    (72016, 72025); (72784, 72793); (73040, 73049); (73120, 73129);
    (92768, 92777); (92864, 92873); (93008, 93017); (120782, 120831);
    (123200, 123209); (123632, 123641); (125264, 125273);
    (127232, 127242); (130032, 130041) ]%N.

Definition in_range (c : N) (r : N * N) : bool :=
  (N.leb (fst r) c && N.leb c (snd r))%bool.

Definition char_isdigit (c : N) : bool := existsb (in_range c) digit_ranges.

(** [s.isdigit()]: a non-empty string of digit characters. *)
Definition isdigit (s : pystr) : bool :=
  match s with
  | [] => false
  | _ :: _ => forallb char_isdigit s
  end.

(** ['0' <= c <= '9'] *)
Definition is_ascii_digit (c : N) : Prop := (48 <= c <= 57)%N.

(** A code point of the ASCII block. *)
Definition is_ascii (c : N) : Prop := (c < 128)%N.

(* ------------------------------------------------------------------ *)
(** ** Python dicts and sets *)

(** Hashable keys: all that the embedding needs of them is their [==]. *)
Class Key (K : Type) := { keqb : K -> K -> bool }.
Arguments keqb : simpl never.

#[export] Instance Key_pystr : Key pystr := {| keqb := pystr_eqb |}.
#[export] Instance Key_Z : Key Z := {| keqb := Z.eqb |}.

Definition dict (K V : Type) := list (K * V).

Section Dict.
Context {K V : Type} `{Key K}.

(** [d.get(k)] *)
Fixpoint dict_get (d : dict K V) (k : K) : option V :=
  match d with
  | [] => None
  | (k', v) :: d' => if keqb k' k then Some v else dict_get d' k
  end.

(** [k in d] *)
Definition dict_mem (d : dict K V) (k : K) : bool :=
  match dict_get d k with Some _ => true | None => false end.

(** [d[k] = v]: an existing key keeps its place, a new one goes last. *)
Fixpoint dict_set (d : dict K V) (k : K) (v : V) : dict K V :=
  match d with
  | [] => [(k, v)]
  | (k', v') :: d' =>
      if keqb k' k then (k', v) :: d' else (k', v') :: dict_set d' k v
  end.

(** [d[k] = f(d[k])] on a key that may be absent: the in-place updates
    [d[k]['field'] += 1] of the aggregators, all of them guarded by
    [k in d]. *)
Fixpoint dict_update (d : dict K V) (k : K) (f : V -> V) : dict K V :=
  match d with
  | [] => []
  | (k', v') :: d' =>
      if keqb k' k then (k', f v') :: d' else (k', v') :: dict_update d' k f
  end.

Definition dict_keys (d : dict K V) : list K := map fst d.
Definition dict_values (d : dict K V) : list V := map snd d.
Definition dict_len (d : dict K V) : Z := Z.of_nat (List.length d).
End Dict.

(** [x in s] and [s.add(x)] on a set. *)
Definition set_mem {K} `{Key K} (s : list K) (x : K) : bool :=
  existsb (keqb x) s.

Definition set_add {K} `{Key K} (s : list K) (x : K) : list K :=
  if set_mem s x then s else s ++ [x].

(* ------------------------------------------------------------------ *)
(** ** Identity validation *)

(** [validate_steamid]; the [lru_cache] around it memoizes a pure function
    and does not change its value. *)
Definition validate_steamid (steam_id : pystr) : bool :=
  isdigit steam_id && Nat.eqb (List.length steam_id) 17.

(* ------------------------------------------------------------------ *)
(** ** Control flow of a function body wrapped in [try ... except] *)

(** The outcome of a straight-line piece of a function body: a value to
    go on with, an early [return] ([return False] in
    [store_match_from_history], a bare [return] in [extract_elos]), or an
    exception on its way to the enclosing handler. *)
Inductive flow (A : Type) : Type :=
| Next (a : A)
| EarlyReturn
| Raised.
Arguments Next {A} a.
Arguments EarlyReturn {A}.
Arguments Raised {A}.

Definition flow_bind {A B} (m : flow A) (k : A -> flow B) : flow B :=
  match m with
  | Next a => k a
  | EarlyReturn => EarlyReturn
  | Raised => Raised
  end.

Notation "x <- m ;; k" := (flow_bind m (fun x => k))
  (at level 61, m at next level, right associativity).

(** [d[key]] on a payload field: [KeyError] when the key is absent. *)
Definition subscript {A} (field : option A) : flow A :=
  match field with Some a => Next a | None => Raised end.

(** [d.get(key, default)] on a payload field. *)
Definition get_or {A} (field : option A) (default : A) : A :=
  match field with Some a => a | None => default end.

(** [if c: return ...] *)
Definition return_if (c : bool) : flow unit :=
  if c then EarlyReturn else Next tt.

Fixpoint flow_map {A B} (f : A -> flow B) (l : list A) : flow (list B) :=
  match l with
  | [] => Next []
  | x :: l' => y <- f x ;; ys <- flow_map f l' ;; Next (y :: ys)
  end.

(* ------------------------------------------------------------------ *)
(** ** Data model *)

Definition FACTIONS : dict Z pystr :=
  [ (1, str "Chaos"); (2, str "Dark Eldar"); (3, str "Eldar");
    (4, str "Imperial Guard"); (5, str "Necrons"); (6, str "Orks");
    (7, str "Sisters of Battle"); (8, str "Space Marines");
    (9, str "Tau Empire") ].

Definition RACE_MAP : dict Z pystr :=
  [ (0, str "Chaos"); (1, str "Dark Eldar"); (2, str "Eldar");
    (3, str "Imperial Guard"); (4, str "Necrons"); (5, str "Orks");
    (6, str "Sisters of Battle"); (7, str "Space Marines");
    (8, str "Tau Empire") ].

Record MatchData := {
  match_id : pystr;
  map_name : pystr;
  start_time : Z;
  completion_time : Z;
  player1_steamid : pystr;
  player1_alias : pystr;
  player1_race : pystr;
  player1_old_elo : Z;
  player1_new_elo : Z;
  player2_steamid : pystr;
  player2_alias : pystr;
  player2_race : pystr;
  player2_old_elo : Z;
  player2_new_elo : Z;
  winner_steamid : pystr;
  winner_race : pystr
}.

(** The calls of the two snapshot writers. *)
Inductive IoEvent := SaveMatchData | SaveAliases.

(** The module-level state of the bot. *)
Record Store := {
  stored_matches : dict pystr MatchData;
  processed_match_ids : list pystr;
  player_aliases : dict pystr pystr;
  io_log : list IoEvent;
  stdout_encodes : N -> bool
}.

(** The encoder of a UTF-8 standard output with strict error handling:
    every code point but the surrogates. *)
Definition utf8_encodes (c : N) : bool :=
  negb (N.leb 55296 c && N.leb c 57343).

Definition empty_store : Store :=
  {| stored_matches := []; processed_match_ids := [];
     player_aliases := []; io_log := []; stdout_encodes := utf8_encodes |}.

Definition with_matches (st : Store) (m : dict pystr MatchData) : Store :=
  {| stored_matches := m; processed_match_ids := processed_match_ids st;
     player_aliases := player_aliases st; io_log := io_log st;
     stdout_encodes := stdout_encodes st |}.

Definition with_processed (st : Store) (p : list pystr) : Store :=
  {| stored_matches := stored_matches st; processed_match_ids := p;
     player_aliases := player_aliases st; io_log := io_log st;
     stdout_encodes := stdout_encodes st |}.

Definition with_aliases (st : Store) (a : dict pystr pystr) : Store :=
  {| stored_matches := stored_matches st;
     processed_match_ids := processed_match_ids st;
     player_aliases := a; io_log := io_log st;
     stdout_encodes := stdout_encodes st |}.

Definition log_io (e : IoEvent) (st : Store) : Store :=
  {| stored_matches := stored_matches st;
     processed_match_ids := processed_match_ids st;
     player_aliases := player_aliases st; io_log := io_log st ++ [e];
     stdout_encodes := stdout_encodes st |}.

(** [print(text)] returns: every character of the text is ASCII or
    accepted by the encoder of the standard output. *)
Definition printable (st : Store) (text : pystr) : bool :=
  forallb (fun c => N.ltb c 128 || stdout_encodes st c) text.

(** [save_match_data_to_file] and [save_aliases_to_file]: each writes a
    whole snapshot, or prints the error of a failed write; neither changes
    the in-memory state. *)
Definition save_match_data_to_file (st : Store) : Store := log_io SaveMatchData st.
Definition save_aliases_to_file (st : Store) : Store := log_io SaveAliases st.

Definition get_stored_match_count (st : Store) : Z := dict_len (stored_matches st).

(* ------------------------------------------------------------------ *)
(** ** Identity resolver: the alias directory *)

Definition store_player_alias (steam_id alias : pystr) (save_immediately : bool)
    (st : Store) : bool * Store :=
  if negb (validate_steamid steam_id)
     || match alias with [] => true | _ => false end
     || keqb alias (str "Unknown Player")
  then (false, st)
  else
    if match dict_get (player_aliases st) steam_id with
       | None => true
       | Some old => negb (keqb old alias)
       end
    then
      let st1 := with_aliases st (dict_set (player_aliases st) steam_id alias) in
      let st2 := if save_immediately then save_aliases_to_file st1 else st1 in
      (true, st2)
    else (false, st).

(* ------------------------------------------------------------------ *)
(** ** Upstream payloads *)

(** An entry of [matchhistorymember]. *)
Record Member := {
  member_profile_id : option Z;
  member_race_id : option Z;
  member_oldrating : option Z;
  member_newrating : option Z
}.

(** An entry of [matchhistoryreportresults]. *)
Record ReportResult := {
  result_profile_id : option Z;
  result_resulttype : option Z
}.

(** An entry of [profiles]. *)
Record Profile := {
  profile_profile_id : option Z;
  profile_name : option pystr;
  profile_alias : option pystr
}.

(** An entry of [matchHistoryStats]. *)
Record RawMatch := {
  raw_id : option Z;
  raw_matchtype_id : option Z;
  raw_mapname : option pystr;
  raw_startgametime : option Z;
  raw_completiontime : option Z;
  raw_matchhistorymember : option (list Member);
  raw_matchhistoryreportresults : option (list ReportResult)
}.

(* ------------------------------------------------------------------ *)
(** ** Match normalizer *)

Record PlayerData := {
  pd_steam_id : pystr;
  pd_alias : pystr;
  pd_race_name : pystr;
  pd_old_elo : Z;
  pd_new_elo : Z;
  pd_is_winner : bool
}.

(** The dict comprehension [{r['profile_id']: r['resulttype'] for r in ...}]. *)
Fixpoint build_results_map (results : list ReportResult) (acc : dict Z Z)
  : flow (dict Z Z) :=
  match results with
  | [] => Next acc
  | r :: rest =>
      pid <- subscript (result_profile_id r) ;;
      rt <- subscript (result_resulttype r) ;;
      build_results_map rest (dict_set acc pid rt)
  end.

Definition steam_prefix : pystr := str "/steam/".

(** The inner [for profile in profiles] loop: the pair [(steam_id, alias)]
    it leaves behind, [steam_id] being [None] when no profile of that id
    carries a [/steam/] name. *)
Fixpoint lookup_profile (profiles : list Profile) (profile_id : Z)
  : flow (option pystr * pystr) :=
  match profiles with
  | [] => Next (None, str "Unknown Player")
  | profile :: rest =>
      pid <- subscript (profile_profile_id profile) ;;
      if Z.eqb pid profile_id then
        let profile_name := get_or (profile_name profile) [] in
        if startswith profile_name steam_prefix
        then Next (Some (remove_all steam_prefix profile_name),
                   get_or (profile_alias profile) (str "Unknown Player"))
        else lookup_profile rest profile_id
      else lookup_profile rest profile_id
  end.

(** [RACE_MAP.get(race_id, f"Race {race_id}")] *)
Definition race_name_of (race_id : Z) : pystr :=
  get_or (dict_get RACE_MAP race_id) (str "Race " ++ str_of_int race_id).

(** One round of the [for member in members] loop. *)
Definition player_of_member (results_map : dict Z Z) (profiles : list Profile)
    (member : Member) : flow PlayerData :=
  profile_id <- subscript (member_profile_id member) ;;
  found <- lookup_profile profiles profile_id ;;
  let '(steam_id, alias) := found in
  match steam_id with
  | None => EarlyReturn
  | Some steam_id =>
      _ <- return_if
             (match steam_id with [] => true | _ => false end
              || negb (validate_steamid steam_id)) ;;
      race_id <- subscript (member_race_id member) ;;
      let race_name := race_name_of race_id in
      let result_type := get_or (dict_get results_map profile_id) (-1) in
      let is_winner := Z.eqb result_type 1 in
      old_elo <- subscript (member_oldrating member) ;;
      new_elo <- subscript (member_newrating member) ;;
      Next {| pd_steam_id := steam_id; pd_alias := alias;
              pd_race_name := race_name; pd_old_elo := old_elo;
              pd_new_elo := new_elo; pd_is_winner := is_winner |}
  end.

(** The body of [store_match_from_history] up to the construction of the
    [MatchData]: nothing of the state is written before it. *)
Definition normalize (m : RawMatch) (profiles : list Profile)
    (processed : list pystr) : flow (MatchData * list PlayerData) :=
  id <- subscript (raw_id m) ;;
  let match_id := str_of_int id in
  _ <- return_if (set_mem processed match_id) ;;
  _ <- return_if
         (match raw_matchtype_id m with
          | Some t => negb (Z.eqb t 1)
          | None => true
          end) ;;
  let members := get_or (raw_matchhistorymember m) [] in
  _ <- return_if (negb (Nat.eqb (List.length members) 2)) ;;
  results_map <- build_results_map (get_or (raw_matchhistoryreportresults m) []) [] ;;
  players_data <- flow_map (player_of_member results_map profiles) members ;;
  match find pd_is_winner players_data with
  | None => EarlyReturn
  | Some winner_data =>
      match players_data with
      | p1 :: p2 :: _ =>
          Next ({| match_id := match_id;
                   map_name := get_or (raw_mapname m) (str "Unknown Map");
                   start_time := get_or (raw_startgametime m) 0;
                   completion_time := get_or (raw_completiontime m) 0;
                   player1_steamid := pd_steam_id p1;
                   player1_alias := pd_alias p1;
                   player1_race := pd_race_name p1;
                   player1_old_elo := pd_old_elo p1;
                   player1_new_elo := pd_new_elo p1;
                   player2_steamid := pd_steam_id p2;
                   player2_alias := pd_alias p2;
                   player2_race := pd_race_name p2;
                   player2_old_elo := pd_old_elo p2;
                   player2_new_elo := pd_new_elo p2;
                   winner_steamid := pd_steam_id winner_data;
                   winner_race := pd_race_name winner_data |},
                players_data)
      | _ => Raised
      end
  end.

(** The text of the closing [print] of [store_match_from_history]. *)
Definition stored_announcement (match_data : MatchData) : pystr :=
  str "Stored new match: " ++ match_id match_data ++ str " - "
  ++ player1_alias match_data ++ str " vs " ++ player2_alias match_data.

(** [store_match_from_history]: the boolean it returns and the state it
    leaves.  Both an early [return False] and a caught exception give
    [False]; the handler only prints.  Outside batch mode the closing
    [print] is inside the [try]: when it raises, the match has been stored
    and both writers called, and the handler answers [False]. *)
Definition store_match_from_history (m : RawMatch) (profiles : list Profile)
    (batch_mode : bool) (st : Store) : bool * Store :=
  match normalize m profiles (processed_match_ids st) with
  | Next (match_data, players_data) =>
      let st1 :=
        fold_left
          (fun s player =>
             snd (store_player_alias (pd_steam_id player) (pd_alias player) false s))
          players_data st in
      let st2 :=
        with_matches st1
          (dict_set (stored_matches st1) (match_id match_data) match_data) in
      let st3 :=
        with_processed st2 (set_add (processed_match_ids st2) (match_id match_data)) in
      if batch_mode then (true, st3)
      else
        let st4 := save_aliases_to_file (save_match_data_to_file st3) in
        if printable st4 (stored_announcement match_data)
        then (true, st4)
        else (false, st4)
  | EarlyReturn => (false, st)
  | Raised => (false, st)
  end.

(* ------------------------------------------------------------------ *)
(** ** Match store: loading the snapshot *)

(** One value of the ["stored_matches"] object of the snapshot file: the
    dict handed to [MatchData.from_dict]. *)
Record PersistedMatch := {
  f_match_id : option pystr;
  f_map_name : option pystr;
  f_start_time : option Z;
  f_completion_time : option Z;
  f_player1_steamid : option pystr;
  f_player1_alias : option pystr;
  f_player1_race : option pystr;
  f_player1_old_elo : option Z;
  f_player1_new_elo : option Z;
  f_player2_steamid : option pystr;
  f_player2_alias : option pystr;
  f_player2_race : option pystr;
  f_player2_old_elo : option Z;
  f_player2_new_elo : option Z;
  f_winner_steamid : option pystr;
  f_winner_race : option pystr
}.

(** [MatchData.from_dict]: every field is read with [data[...]]. *)
Definition from_dict (data : PersistedMatch) : flow MatchData :=
  a1 <- subscript (f_match_id data) ;;
  a2 <- subscript (f_map_name data) ;;
  a3 <- subscript (f_start_time data) ;;
  a4 <- subscript (f_completion_time data) ;;
  a5 <- subscript (f_player1_steamid data) ;;
  a6 <- subscript (f_player1_alias data) ;;
  a7 <- subscript (f_player1_race data) ;;
  a8 <- subscript (f_player1_old_elo data) ;;
  a9 <- subscript (f_player1_new_elo data) ;;
  a10 <- subscript (f_player2_steamid data) ;;
  a11 <- subscript (f_player2_alias data) ;;
  a12 <- subscript (f_player2_race data) ;;
  a13 <- subscript (f_player2_old_elo data) ;;
  a14 <- subscript (f_player2_new_elo data) ;;
  a15 <- subscript (f_winner_steamid data) ;;
  a16 <- subscript (f_winner_race data) ;;
  Next {| match_id := a1; map_name := a2; start_time := a3;
          completion_time := a4; player1_steamid := a5; player1_alias := a6;
          player1_race := a7; player1_old_elo := a8; player1_new_elo := a9;
          player2_steamid := a10; player2_alias := a11; player2_race := a12;
          player2_old_elo := a13; player2_new_elo := a14;
          winner_steamid := a15; winner_race := a16 |}.

(** [MatchData.to_dict] *)
Definition to_dict (m : MatchData) : PersistedMatch :=
  {| f_match_id := Some (match_id m); f_map_name := Some (map_name m);
     f_start_time := Some (start_time m);
     f_completion_time := Some (completion_time m);
     f_player1_steamid := Some (player1_steamid m);
     f_player1_alias := Some (player1_alias m);
     f_player1_race := Some (player1_race m);
     f_player1_old_elo := Some (player1_old_elo m);
     f_player1_new_elo := Some (player1_new_elo m);
     f_player2_steamid := Some (player2_steamid m);
     f_player2_alias := Some (player2_alias m);
     f_player2_race := Some (player2_race m);
     f_player2_old_elo := Some (player2_old_elo m);
     f_player2_new_elo := Some (player2_new_elo m);
     f_winner_steamid := Some (winner_steamid m);
     f_winner_race := Some (winner_race m) |}.

(** The value under ["stored_matches"]: an object, or something that has
    no [.items()]. *)
Inductive MatchesField :=
| MatchesNotDict
| MatchesDict (entries : list (pystr * PersistedMatch)).

(** The value under ["processed_match_ids"]: a list of strings, or
    something [set(...)] raises on. *)
Inductive IdsField :=
| IdsNotHashable
| IdsList (ids : list pystr).

(** What [load_match_data_from_file] finds at [filename]. *)
Inductive FileContent :=
| FileMissing
| FileUnparseable
| FileNotObject
| FileObject (stored : option MatchesField) (processed : option IdsField).

(** The loop [for match_id, match_data in loaded_matches.items()]: the
    collection it has built when it ends or when [from_dict] raises, and
    whether it ended. *)
Fixpoint load_entries (entries : list (pystr * PersistedMatch))
    (acc : dict pystr MatchData) : dict pystr MatchData * bool :=
  match entries with
  | [] => (acc, true)
  | (match_id, match_data) :: rest =>
      match from_dict match_data with
      | Next md => load_entries rest (dict_set acc match_id md)
      | _ => (acc, false)
      end
  end.

(** [load_match_data_from_file]: the handler of its [try] only prints. *)
Definition load_match_data_from_file (file : FileContent) (st : Store) : Store :=
  match file with
  | FileMissing => st
  | FileUnparseable => st
  | FileNotObject => st
  | FileObject stored processed =>
      let loaded_matches := get_or stored (MatchesDict []) in
      let st1 := with_matches st [] in
      match loaded_matches with
      | MatchesNotDict => st1
      | MatchesDict entries =>
          let '(loaded, finished) := load_entries entries [] in
          let st2 := with_matches st1 loaded in
          if finished then
            let st3 := with_processed st2 [] in
            match get_or processed (IdsList []) with
            | IdsNotHashable => st3
            | IdsList ids => with_processed st3 (fold_left set_add ids [])
            end
          else st2
      end
  end.

(** The snapshot [save_match_data_to_file] writes. *)
Definition snapshot_of (st : Store) : FileContent :=
  FileObject
    (Some (MatchesDict (map (fun kv => (fst kv, to_dict (snd kv))) (stored_matches st))))
    (Some (IdsList (processed_match_ids st))).

(* ------------------------------------------------------------------ *)
(** ** Match store: the ELO filter *)

Definition elo_in_range (min_elo max_elo : option Z) (elo : Z) : bool :=
  let in_range := true in
  let in_range :=
    match min_elo with
    | Some lo => in_range && Z.geb elo lo
    | None => in_range
    end in
  match max_elo with
  | Some hi => in_range && Z.leb elo hi
  | None => in_range
  end.

Definition filter_matches_by_elo_range (min_elo max_elo : option Z)
    (st : Store) : list MatchData :=
  match min_elo, max_elo with
  | None, None => dict_values (stored_matches st)
  | _, _ =>
      filter
        (fun m =>
           elo_in_range min_elo max_elo (player1_old_elo m)
           && elo_in_range min_elo max_elo (player2_old_elo m))
        (dict_values (stored_matches st))
  end.

(* ------------------------------------------------------------------ *)
(** ** Statistics aggregator *)

(** [(wins / total) * 100] *)
Definition percentage (wins total : Z) : Q :=
  (inject_Z wins / inject_Z total) * inject_Z 100.

(** [x or 'Any'] inside an f-string. *)
Definition elo_label (x : option Z) : pystr :=
  match x with
  | None => str "Any"
  | Some n => if Z.eqb n 0 then str "Any" else str_of_int n
  end.

Definition elo_range_label (min_elo max_elo : option Z) : pystr :=
  elo_label min_elo ++ str "-" ++ elo_label max_elo.

(** *** Per-map race statistics *)

Record RaceStat := {
  rs_wins : Z;
  rs_losses : Z;
  rs_total_games : Z;
  rs_winrate : Q
}.

Record MapStats := {
  ms_map_name : pystr;
  ms_total_matches : Z;
  ms_race_stats : dict pystr RaceStat;
  ms_elo_range : pystr
}.

Definition rs_zero : RaceStat :=
  {| rs_wins := 0; rs_losses := 0; rs_total_games := 0; rs_winrate := 0%Q |}.

Definition rs_add_win (s : RaceStat) : RaceStat :=
  {| rs_wins := rs_wins s + 1; rs_losses := rs_losses s;
     rs_total_games := rs_total_games s + 1; rs_winrate := rs_winrate s |}.

Definition rs_add_loss (s : RaceStat) : RaceStat :=
  {| rs_wins := rs_wins s; rs_losses := rs_losses s + 1;
     rs_total_games := rs_total_games s + 1; rs_winrate := rs_winrate s |}.

Definition rs_finish (s : RaceStat) : RaceStat :=
  if Z.ltb 0 (rs_total_games s)
  then {| rs_wins := rs_wins s; rs_losses := rs_losses s;
          rs_total_games := rs_total_games s;
          rs_winrate := percentage (rs_wins s) (rs_total_games s) |}
  else s.

(** The body of [for match in filtered_matches] in [get_map_race_statistics]. *)
Definition map_stats_step (target_map : pystr) (acc : Z * dict pystr RaceStat)
    (m : MatchData) : Z * dict pystr RaceStat :=
  let '(total, race_stats) := acc in
  if keqb (map_name m) target_map then
    let winner := winner_race m in
    let loser := if keqb (player1_race m) winner
                 then player2_race m else player1_race m in
    let race_stats := dict_update race_stats winner rs_add_win in
    let race_stats := dict_update race_stats loser rs_add_loss in
    (total + 1, race_stats)
  else acc.

Definition map_values {K A B} (f : A -> B) (d : dict K A) : dict K B :=
  map (fun kv => (fst kv, f (snd kv))) d.

Definition get_map_race_statistics (target_map : pystr)
    (min_elo max_elo : option Z) (st : Store) : MapStats :=
  let init :=
    fold_left (fun d race => dict_set d race rs_zero) (dict_values FACTIONS) [] in
  let filtered_matches := filter_matches_by_elo_range min_elo max_elo st in
  let '(total, race_stats) :=
    fold_left (map_stats_step target_map) filtered_matches (0, init) in
  {| ms_map_name := target_map;
     ms_total_matches := total;
     ms_race_stats := map_values rs_finish race_stats;
     ms_elo_range := elo_range_label min_elo max_elo |}.

(** *** Per-race matchup table *)

Record Matchup := {
  mu_opponent : pystr;
  mu_wins : Z;
  mu_losses : Z;
  mu_total : Z;
  mu_winrate : Q
}.

Record RaceMatchups := {
  rm_race : pystr;
  rm_total_matches : Z;
  rm_total_wins : Z;
  rm_total_losses : Z;
  rm_overall_winrate : Q;
  rm_matchups : dict pystr Matchup;
  rm_elo_range : pystr
}.

Definition mu_zero (race : pystr) : Matchup :=
  {| mu_opponent := race; mu_wins := 0; mu_losses := 0; mu_total := 0;
     mu_winrate := 0%Q |}.

Definition mu_add (target_won : bool) (s : Matchup) : Matchup :=
  {| mu_opponent := mu_opponent s;
     mu_wins := if target_won then mu_wins s + 1 else mu_wins s;
     mu_losses := if target_won then mu_losses s else mu_losses s + 1;
     mu_total := mu_total s + 1;
     mu_winrate := mu_winrate s |}.

Definition mu_finish (s : Matchup) : Matchup :=
  if Z.ltb 0 (mu_total s)
  then {| mu_opponent := mu_opponent s; mu_wins := mu_wins s;
          mu_losses := mu_losses s; mu_total := mu_total s;
          mu_winrate := percentage (mu_wins s) (mu_total s) |}
  else s.

(** The running counters of [get_race_specific_matchups]. *)
Record MatchupAcc := {
  acc_total_matches : Z;
  acc_total_wins : Z;
  acc_total_losses : Z;
  acc_matchups : dict pystr Matchup
}.

(** The table before any match is counted: [for race in FACTIONS.values():
    if race != target_race: ...]. *)
Definition matchups_init (target_race : pystr) : dict pystr Matchup :=
  fold_left
    (fun d race =>
       if negb (keqb race target_race) then dict_set d race (mu_zero race) else d)
    (dict_values FACTIONS) [].

(** The body of [for match in filtered_matches] in
    [get_race_specific_matchups]. *)
Definition matchups_step (target_race : pystr) (acc : MatchupAcc)
    (m : MatchData) : MatchupAcc :=
  if keqb target_race (player1_race m) || keqb target_race (player2_race m) then
    let opponent_race :=
      if keqb (player1_race m) target_race
      then player2_race m else player1_race m in
    let target_won := keqb (winner_race m) target_race in
    if dict_mem (acc_matchups acc) opponent_race then
      {| acc_total_matches := acc_total_matches acc + 1;
         acc_total_wins :=
           if target_won then acc_total_wins acc + 1 else acc_total_wins acc;
         acc_total_losses :=
           if target_won then acc_total_losses acc else acc_total_losses acc + 1;
         acc_matchups :=
           dict_update (acc_matchups acc) opponent_race (mu_add target_won) |}
    else
      {| acc_total_matches := acc_total_matches acc + 1;
         acc_total_wins := acc_total_wins acc;
         acc_total_losses := acc_total_losses acc;
         acc_matchups := acc_matchups acc |}
  else acc.

Definition get_race_specific_matchups (target_race : pystr)
    (min_elo max_elo : option Z) (st : Store) : RaceMatchups :=
  let init :=
    {| acc_total_matches := 0; acc_total_wins := 0; acc_total_losses := 0;
       acc_matchups := matchups_init target_race |} in
  let filtered_matches := filter_matches_by_elo_range min_elo max_elo st in
  let acc := fold_left (matchups_step target_race) filtered_matches init in
  {| rm_race := target_race;
     rm_total_matches := acc_total_matches acc;
     rm_total_wins := acc_total_wins acc;
     rm_total_losses := acc_total_losses acc;
     rm_overall_winrate :=
       if Z.ltb 0 (acc_total_matches acc)
       then percentage (acc_total_wins acc) (acc_total_matches acc)
       else 0%Q;
     rm_matchups := map_values mu_finish (acc_matchups acc);
     rm_elo_range := elo_range_label min_elo max_elo |}.

(** *** Global matchup matrix *)

Record PairStat := {
  ps_race1 : pystr;
  ps_race2 : pystr;
  ps_race1_wins : Z;
  ps_race2_wins : Z;
  ps_total_matches : Z;
  ps_race1_winrate : Q;
  ps_race2_winrate : Q;
  ps_elo_range : pystr
}.

(** [f"{race1} vs {race2}"] *)
Definition matchup_key (race1 race2 : pystr) : pystr :=
  race1 ++ str " vs " ++ race2.

Definition enumerate {A} (l : list A) : list (nat * A) :=
  combine (seq 0 (List.length l)) l.

Definition ps_zero (race1 race2 elo_range : pystr) : PairStat :=
  {| ps_race1 := race1; ps_race2 := race2; ps_race1_wins := 0;
     ps_race2_wins := 0; ps_total_matches := 0; ps_race1_winrate := 0%Q;
     ps_race2_winrate := 0%Q; ps_elo_range := elo_range |}.

(** The two nested [enumerate] loops that create the entries. *)
Definition all_matchups_init (elo_range : pystr) : dict pystr PairStat :=
  let races := dict_values FACTIONS in
  fold_left
    (fun d ir1 =>
       fold_left
         (fun d jr2 =>
            if Nat.leb (fst ir1) (fst jr2)
            then dict_set d (matchup_key (snd ir1) (snd jr2))
                          (ps_zero (snd ir1) (snd jr2) elo_range)
            else d)
         (enumerate races) d)
    (enumerate races) [].

(** [sorted([a, b])] *)
Definition sorted2 (a b : pystr) : pystr * pystr :=
  if pystr_ltb b a then (b, a) else (a, b).

(** The key under which a match is counted. *)
Definition key_of_match (m : MatchData) : pystr :=
  let race1 := player1_race m in
  let race2 := player2_race m in
  if keqb race1 race2 then matchup_key race1 race2
  else let '(lo, hi) := sorted2 race1 race2 in matchup_key lo hi.

Definition ps_bump (win1 win2 : bool) (s : PairStat) : PairStat :=
  {| ps_race1 := ps_race1 s; ps_race2 := ps_race2 s;
     ps_race1_wins := if win1 then ps_race1_wins s + 1 else ps_race1_wins s;
     ps_race2_wins := if win2 then ps_race2_wins s + 1 else ps_race2_wins s;
     ps_total_matches := ps_total_matches s + 1;
     ps_race1_winrate := ps_race1_winrate s;
     ps_race2_winrate := ps_race2_winrate s;
     ps_elo_range := ps_elo_range s |}.

(** What one match adds to the entry it is counted under. *)
Definition ps_count (m : MatchData) (s : PairStat) : PairStat :=
  let race1 := player1_race m in
  let race2 := player2_race m in
  let winner := winner_race m in
  if keqb winner race1 then
    if keqb race1 (ps_race1 s) then ps_bump true false s else ps_bump false true s
  else if keqb winner race2 then
    if keqb race2 (ps_race1 s) then ps_bump true false s else ps_bump false true s
  else ps_bump false false s.

Definition ps_finish (s : PairStat) : PairStat :=
  let total := ps_total_matches s in
  if Z.ltb 0 total
  then {| ps_race1 := ps_race1 s; ps_race2 := ps_race2 s;
          ps_race1_wins := ps_race1_wins s; ps_race2_wins := ps_race2_wins s;
          ps_total_matches := total;
          ps_race1_winrate := percentage (ps_race1_wins s) total;
          ps_race2_winrate := percentage (ps_race2_wins s) total;
          ps_elo_range := ps_elo_range s |}
  else s.

(** The body of [for match in filtered_matches] in [get_all_race_matchups]. *)
Definition all_matchups_step (d : dict pystr PairStat) (m : MatchData)
  : dict pystr PairStat :=
  dict_update d (key_of_match m) (ps_count m).

Definition get_all_race_matchups (min_elo max_elo : option Z) (st : Store)
  : dict pystr PairStat :=
  let init := all_matchups_init (elo_range_label min_elo max_elo) in
  let filtered_matches := filter_matches_by_elo_range min_elo max_elo st in
  map_values ps_finish (fold_left all_matchups_step filtered_matches init).

(* ------------------------------------------------------------------ *)
(** ** Leaderboard views *)

(** An entry of [leaderboardStats]. *)
Record LbStat := {
  stat_leaderboard_id : option Z;
  stat_statgroup_id : option Z;
  stat_rank : option Z;
  stat_rating : option Z;
  stat_wins : option Z;
  stat_losses : option Z;
  stat_drops : option Z;
  stat_streak : option Z
}.

Record FactionEntry := {
  fe_faction_name : pystr;
  fe_wins : Z;
  fe_losses : Z;
  fe_total_games : Z;
  fe_winrate : Q;
  fe_rank : option Z;
  fe_rating : Z
}.

(** The body of [for stat in leaderboard_stats] in
    [process_leaderboard_stats]. *)
Definition leaderboard_step (faction_data : dict Z FactionEntry) (stat : LbStat)
  : dict Z FactionEntry :=
  match stat_leaderboard_id stat with
  | None => faction_data
  | Some leaderboard_id =>
      match dict_get FACTIONS leaderboard_id with
      | None => faction_data
      | Some faction_name =>
          let wins := get_or (stat_wins stat) 0 in
          let losses := get_or (stat_losses stat) 0 in
          let drops := get_or (stat_drops stat) 0 in
          let rank := get_or (stat_rank stat) (-1) in
          let rating := get_or (stat_rating stat) 0 in
          let actual_losses := Z.max (losses - drops) 0 in
          let total_games := wins + actual_losses in
          let winrate :=
            if Z.ltb 0 total_games then percentage wins total_games else 0%Q in
          let rank_display := if Z.ltb 0 rank then Some rank else None in
          dict_set faction_data leaderboard_id
            {| fe_faction_name := faction_name; fe_wins := wins;
               fe_losses := actual_losses; fe_total_games := total_games;
               fe_winrate := winrate; fe_rank := rank_display;
               fe_rating := rating |}
      end
  end.

Definition process_leaderboard_stats (leaderboard_stats : list LbStat)
  : dict Z FactionEntry :=
  fold_left leaderboard_step leaderboard_stats [].

(** *** Upstream *)

(** An entry of a stat group's [members]. *)
Record GroupMember := {
  gm_name : option pystr;
  gm_alias : option pystr
}.

(** An entry of [statGroups]. *)
Record StatGroup := {
  sg_id : option Z;
  sg_members : option (list GroupMember)
}.

(** A non-empty answer of [getleaderboard2]. *)
Record LbData := {
  lb_statGroups : option (list StatGroup);
  lb_leaderboardStats : option (list LbStat)
}.

(** A non-empty answer of [getRecentMatchHistory]. *)
Record History := {
  h_profiles : option (list Profile);
  h_matchHistoryStats : option (list RawMatch)
}.

(** The remote API as the client sees it.  Each answer may depend on the
    request and on how many requests came before it; [None] is the empty
    dict the client returns on any failure ([fetch_json]) or on a result
    code other than 0 ([fetch_match_history]). *)
Record Upstream := {
  fetch_leaderboard_data : nat -> Z -> Z -> Z -> option LbData;
  fetch_match_history : nat -> pystr -> option History
}.

(** Truth value of an optional int: [None] and [0] are false. *)
Definition truthy (x : option Z) : option Z :=
  match x with
  | Some n => if Z.eqb n 0 then None else Some n
  | None => None
  end.

(** [l.sort(key=key, reverse=True)] and [sorted(l, key=key, reverse=True)]:
    descending and stable. *)
Fixpoint insert_desc {A} (key : A -> Z) (x : A) (l : list A) : list A :=
  match l with
  | [] => [x]
  | y :: l' =>
      if Z.leb (key y) (key x) then x :: y :: l'
      else y :: insert_desc key x l'
  end.

Definition sort_desc {A} (key : A -> Z) (l : list A) : list A :=
  fold_right (insert_desc key) [] l.

(** [l[:limit]] *)
Definition slice_to {A} (l : list A) (limit : Z) : list A :=
  if Z.leb 0 limit then firstn (Z.to_nat limit) l
  else firstn (Z.to_nat (Z.of_nat (List.length l) + limit)) l.

(** *** Top-ELO view *)

Record RankInfo := {
  ri_rank : option Z;
  ri_rating : Z;
  ri_wins : Z;
  ri_losses : Z;
  ri_drops : Z;
  ri_streak : Z
}.

Record PlayerInfo := {
  pi_steamid : pystr;
  pi_alias : pystr
}.

Record TopPlayer := {
  tp_steam_id : pystr;
  tp_alias : pystr;
  tp_rating : Z;
  tp_faction : pystr;
  tp_faction_id : Z;
  tp_wins : Z;
  tp_losses : Z;
  tp_total_games : Z;
  tp_winrate : Q;
  tp_rank : option Z;
  tp_leader_symbols : pystr;
  tp_is_faction_leader : bool
}.

Definition FACTION_SYMBOLS : dict Z pystr :=
  [ (1, [128520%N]); (2, [128481%N; 65039%N]); (3, [10024%N]);
    (4, [128737%N; 65039%N]); (5, [129302%N]); (6, [128170%N]);
    (7, [128293%N]); (8, [11088%N]); (9, [127919%N]) ].

Definition crown : pystr := [128081%N].

Definition known_leaderboards : list (Z * pystr) :=
  [ (1, str "Chaos 1v1"); (2, str "Dark Eldar 1v1"); (3, str "Eldar 1v1");
    (4, str "Guard 1v1"); (5, str "Necron 1v1"); (6, str "Orc 1v1");
    (7, str "Sisters 1v1"); (8, str "Space Marine 1v1"); (9, str "Tau 1v1") ].

(** [FACTIONS.get(lb_id, f"Faction {lb_id}")] *)
Definition faction_name_of (lb_id : Z) : pystr :=
  get_or (dict_get FACTIONS lb_id) (str "Faction " ++ str_of_int lb_id).

Definition rank_lookup_step (lb_id : Z) (rank_lookup : dict Z RankInfo)
    (stat : LbStat) : dict Z RankInfo :=
  match stat_leaderboard_id stat with
  | Some id =>
      if Z.eqb id lb_id then
        match truthy (stat_statgroup_id stat) with
        | Some statgroup_id =>
            dict_set rank_lookup statgroup_id
              {| ri_rank := stat_rank stat;
                 ri_rating := get_or (stat_rating stat) 0;
                 ri_wins := get_or (stat_wins stat) 0;
                 ri_losses := get_or (stat_losses stat) 0;
                 ri_drops := get_or (stat_drops stat) 0;
                 ri_streak := get_or (stat_streak stat) 0 |}
        | None => rank_lookup
        end
      else rank_lookup
  | None => rank_lookup
  end.

Definition player_lookup_step (player_lookup : dict Z PlayerInfo)
    (stat_group : StatGroup) : dict Z PlayerInfo :=
  match truthy (sg_id stat_group), get_or (sg_members stat_group) [] with
  | Some group_id, member :: _ =>
      let member_name := get_or (gm_name member) [] in
      if startswith member_name steam_prefix then
        let steam_id := remove_all steam_prefix member_name in
        if validate_steamid steam_id then
          dict_set player_lookup group_id
            {| pi_steamid := steam_id;
               pi_alias := get_or (gm_alias member) (str "Unknown Player") |}
        else player_lookup
      else player_lookup
  | _, _ => player_lookup
  end.

(** The two accumulators of [topelo]. *)
Record TopAcc := {
  all_players : dict pystr TopPlayer;
  faction_leaders : dict pystr (list Z)
}.

(** The body of [for statgroup_id, rank_info in rank_lookup.items()]. *)
Definition topelo_step (lb_id : Z) (faction_name : pystr) (min_games : Z)
    (player_lookup : dict Z PlayerInfo) (acc : TopAcc)
    (item : Z * RankInfo) : TopAcc :=
  let '(statgroup_id, rank_info) := item in
  match dict_get player_lookup statgroup_id with
  | None => acc
  | Some player_info =>
      let actual_losses := Z.max (ri_losses rank_info - ri_drops rank_info) 0 in
      let total_games := ri_wins rank_info + actual_losses in
      match ri_rank rank_info with
      | None => acc
      | Some rank =>
          if Z.leb rank 0 || Z.ltb 100 rank then acc
          else if Z.ltb total_games min_games then acc
          else
            let winrate :=
              if Z.ltb 0 total_games
              then percentage (ri_wins rank_info) total_games else 0%Q in
            let rating := ri_rating rank_info in
            let steam_id := pi_steamid player_info in
            let leaders :=
              if Z.eqb rank 1
              then dict_set (faction_leaders acc) steam_id
                     (get_or (dict_get (faction_leaders acc) steam_id) [] ++ [lb_id])
              else faction_leaders acc in
            let player_data :=
              {| tp_steam_id := steam_id; tp_alias := pi_alias player_info;
                 tp_rating := rating; tp_faction := faction_name;
                 tp_faction_id := lb_id; tp_wins := ri_wins rank_info;
                 tp_losses := actual_losses; tp_total_games := total_games;
                 tp_winrate := winrate;
                 tp_rank := if Z.ltb 0 rank then Some rank else None;
                 tp_leader_symbols := []; tp_is_faction_leader := false |} in
            let players :=
              match dict_get (all_players acc) steam_id with
              | None => dict_set (all_players acc) steam_id player_data
              | Some old =>
                  if Z.ltb (tp_rating old) rating
                  then dict_set (all_players acc) steam_id player_data
                  else all_players acc
              end in
            {| all_players := players; faction_leaders := leaders |}
      end
  end.

(** One round of [for leaderboard in known_leaderboards]; [tick] is the
    number of requests sent before this one. *)
Definition topelo_leaderboard (up : Upstream) (min_games : Z)
    (acc : TopAcc) (tick_lb : nat * (Z * pystr)) : TopAcc :=
  let '(tick, (lb_id, _)) := tick_lb in
  let faction_name := faction_name_of lb_id in
  match fetch_leaderboard_data up tick lb_id 1 100 with
  | None => acc
  | Some lb_data =>
      let leaderboard_stats := get_or (lb_leaderboardStats lb_data) [] in
      let stat_groups := get_or (lb_statGroups lb_data) [] in
      match leaderboard_stats, stat_groups with
      | [], _ => acc
      | _, [] => acc
      | _, _ =>
          let rank_lookup :=
            fold_left (rank_lookup_step lb_id) leaderboard_stats [] in
          let player_lookup := fold_left player_lookup_step stat_groups [] in
          fold_left (topelo_step lb_id faction_name min_games player_lookup)
                    rank_lookup acc
      end
  end.

(** The marking of the faction leaders. *)
Definition mark_leader (leaders : dict pystr (list Z)) (p : TopPlayer)
  : TopPlayer :=
  let '(symbols, is_leader) :=
    match dict_get leaders (tp_steam_id p) with
    | Some led_factions =>
        (List.concat (map (fun faction_id =>
                        get_or (dict_get FACTION_SYMBOLS faction_id) crown)
                     led_factions),
         true)
    | None => ([], false)
    end in
  {| tp_steam_id := tp_steam_id p; tp_alias := tp_alias p;
     tp_rating := tp_rating p; tp_faction := tp_faction p;
     tp_faction_id := tp_faction_id p; tp_wins := tp_wins p;
     tp_losses := tp_losses p; tp_total_games := tp_total_games p;
     tp_winrate := tp_winrate p; tp_rank := tp_rank p;
     tp_leader_symbols := symbols; tp_is_faction_leader := is_leader |}.

Definition topelo (up : Upstream) (limit min_games : Z) : list TopPlayer :=
  let acc :=
    fold_left (topelo_leaderboard up min_games)
      (enumerate known_leaderboards)
      {| all_players := []; faction_leaders := [] |} in
  let top_players :=
    map (mark_leader (faction_leaders acc)) (dict_values (all_players acc)) in
  slice_to (sort_desc tp_rating top_players) limit.

(* ------------------------------------------------------------------ *)
(** ** Bulk scanner *)

(** How a call ends: it returns, or an exception leaves it. *)
Inductive completion := Returned | Threw.

(** [batch_store_aliases_from_profiles] *)
Definition batch_store_aliases_from_profiles (profiles : list Profile)
    (save_after : bool) (st : Store) : Z * Store :=
  let '(stored_count, st1) :=
    fold_left
      (fun (acc : Z * Store) profile =>
         let '(n, s) := acc in
         let profile_name := get_or (profile_name profile) [] in
         if startswith profile_name steam_prefix then
           let steam_id := remove_all steam_prefix profile_name in
           let alias := get_or (profile_alias profile) (str "Unknown Player") in
           let '(changed, s') := store_player_alias steam_id alias false s in
           (if changed then n + 1 else n, s')
         else acc)
      profiles (0, st) in
  (stored_count,
   if Z.ltb 0 stored_count && save_after then save_aliases_to_file st1 else st1).

(** [filter_1v1_matches]: the sort key [m['completiontime']] is read on
    every match that passed the filter. *)
Definition filter_1v1_matches (matches : list RawMatch) : flow (list RawMatch) :=
  let filtered :=
    filter (fun m => match raw_matchtype_id m with
                     | Some t => Z.eqb t 1
                     | None => false
                     end) matches in
  keyed <- flow_map (fun m => k <- subscript (raw_completiontime m) ;; Next (k, m))
                    filtered ;;
  Next (map snd (sort_desc fst keyed)).

(** The first loop of [extract_elos]: the profile id and alias of the
    profile named [/steam/<steam_id>]. *)
Fixpoint find_own_profile (profiles : list Profile) (steam_id : pystr)
  : flow (option Z * pystr) :=
  match profiles with
  | [] => Next (None, str "Unknown Player")
  | profile :: rest =>
      if match profile_name profile with
         | Some name => keqb name (steam_prefix ++ steam_id)
         | None => false
         end
      then
        pid <- subscript (profile_profile_id profile) ;;
        Next (Some pid, get_or (profile_alias profile) (str "Unknown Player"))
      else find_own_profile rest steam_id
  end.

(** [extract_elos]; [tick] is the number of requests sent before its own.
    It has no [try]: an exception of one of its subscripts, or of its
    closing [print], leaves it. *)
Definition extract_elos (up : Upstream) (steam_id : pystr) (batch_mode : bool)
    (tick : nat) (st : Store) : completion * Store :=
  match fetch_match_history up tick steam_id with
  | None => (Returned, st)
  | Some match_data =>
      let profiles := get_or (h_profiles match_data) [] in
      match find_own_profile profiles steam_id with
      | Raised => (Threw, st)
      | EarlyReturn => (Returned, st)
      | Next (player_profile_id, player_alias) =>
          match truthy player_profile_id with
          | None => (Returned, st)
          | Some _ =>
              let st1 := snd (store_player_alias steam_id player_alias false st) in
              match filter_1v1_matches (get_or (h_matchHistoryStats match_data) []) with
              | Raised => (Threw, st1)
              | EarlyReturn => (Returned, st1)
              | Next [] => (Returned, st1)
              | Next matches =>
                  let '(matches_stored, st2) :=
                    fold_left
                      (fun (acc : Z * Store) m =>
                         let '(n, s) := acc in
                         let '(stored, s') :=
                           store_match_from_history m profiles true s in
                         (if stored then n + 1 else n, s'))
                      matches (0, st1) in
                  let st3 :=
                    snd (batch_store_aliases_from_profiles profiles
                           (negb batch_mode) st2) in
                  if negb batch_mode && Z.ltb 0 matches_stored
                  then
                    let st4 := save_match_data_to_file st3 in
                    if printable st4
                         (str "Stored " ++ str_of_int matches_stored
                          ++ str " new matches for " ++ player_alias)
                    then (Returned, st4)
                    else (Threw, st4)
                  else (Returned, st3)
              end
          end
      end
  end.

(** The summary a scan returns. *)
Record Results := {
  total_players_processed : Z;
  new_players_found : Z;
  total_matches_added : Z;
  errors : Z;
  leaderboard_results : dict pystr Z
}.

(** The caller's [update_progress]: whether its n-th call returns. *)
Definition Callback := nat -> bool.

(** What a running scan holds: the globals, the summary so far, and the
    numbers of requests sent and of progress reports made. *)
Record Scan := {
  sc_store : Store;
  sc_results : Results;
  sc_requests : nat;
  sc_reports : nat
}.

Definition add_error (r : Results) : Results :=
  {| total_players_processed := total_players_processed r;
     new_players_found := new_players_found r;
     total_matches_added := total_matches_added r;
     errors := errors r + 1;
     leaderboard_results := leaderboard_results r |}.

Definition set_leaderboard_result (r : Results) (faction_name : pystr) (n : Z)
  : Results :=
  {| total_players_processed := total_players_processed r;
     new_players_found := new_players_found r;
     total_matches_added := total_matches_added r;
     errors := errors r;
     leaderboard_results := dict_set (leaderboard_results r) faction_name n |}.

(** [await update_progress(...)]: the scan after the report, and whether
    the report returned. *)
Definition report (cb : Callback) (sc : Scan) : bool * Scan :=
  (cb (sc_reports sc),
   {| sc_store := sc_store sc; sc_results := sc_results sc;
      sc_requests := sc_requests sc; sc_reports := S (sc_reports sc) |}).

(** The body of [for stat_group in stat_groups], with the running
    [lb_players_processed]. *)
Definition scan_stat_group (up : Upstream) (acc : Scan * Z)
    (stat_group : StatGroup) : Scan * Z :=
  let '(sc, lb_players_processed) := acc in
  match get_or (sg_members stat_group) [] with
  | [] => acc
  | member :: _ =>
      let member_name := get_or (gm_name member) [] in
      if negb (startswith member_name steam_prefix) then acc
      else
        let steam_id := remove_all steam_prefix member_name in
        if negb (validate_steamid steam_id) then acc
        else
          let alias := get_or (gm_alias member) (str "Unknown Player") in
          let st := sc_store sc in
          let r := sc_results sc in
          let is_new_player := negb (dict_mem (player_aliases st) steam_id) in
          let found := if is_new_player then new_players_found r + 1
                       else new_players_found r in
          let st := with_aliases st (dict_set (player_aliases st) steam_id alias) in
          let pre_match_count := get_stored_match_count st in
          let '(done, st') := extract_elos up steam_id true (sc_requests sc) st in
          let post_match_count := get_stored_match_count st' in
          match done with
          | Returned =>
              ({| sc_store := st';
                  sc_results :=
                    {| total_players_processed := total_players_processed r + 1;
                       new_players_found := found;
                       total_matches_added :=
                         total_matches_added r + (post_match_count - pre_match_count);
                       errors := errors r;
                       leaderboard_results := leaderboard_results r |};
                  sc_requests := S (sc_requests sc);
                  sc_reports := sc_reports sc |},
               lb_players_processed + 1)
          | Threw =>
              ({| sc_store := st';
                  sc_results :=
                    {| total_players_processed := total_players_processed r;
                       new_players_found := found;
                       total_matches_added := total_matches_added r;
                       errors := errors r + 1;
                       leaderboard_results := leaderboard_results r |};
                  sc_requests := S (sc_requests sc);
                  sc_reports := sc_reports sc |},
               lb_players_processed)
          end
  end.

(** The [while True] loop over the pages of one leaderboard.  [fuel]
    bounds the number of rounds; [None] is a loop cut short by it. *)
Fixpoint scan_pages (fuel : nat) (up : Upstream) (cb : Callback) (lb_id : Z)
    (start : Z) (acc : Scan * Z) : option (Scan * Z) :=
  match fuel with
  | O => None
  | S fuel' =>
      let '(sc, lb_players_processed) := acc in
      let count := 200 in
      let lb_data := fetch_leaderboard_data up (sc_requests sc) lb_id start count in
      let sc :=
        {| sc_store := sc_store sc; sc_results := sc_results sc;
           sc_requests := S (sc_requests sc); sc_reports := sc_reports sc |} in
      let stat_groups :=
        match lb_data with
        | Some d => get_or (lb_statGroups d) []
        | None => []
        end in
      match stat_groups with
      | [] => Some (sc, lb_players_processed)
      | _ :: _ =>
          let '(sc, lb_players_processed) :=
            fold_left (scan_stat_group up) stat_groups (sc, lb_players_processed) in
          let '(reported, sc) := report cb sc in
          if negb reported then
            Some ({| sc_store := sc_store sc;
                     sc_results := add_error (sc_results sc);
                     sc_requests := sc_requests sc;
                     sc_reports := sc_reports sc |},
                  lb_players_processed)
          else if Z.ltb (Z.of_nat (List.length stat_groups)) count then
            Some (sc, lb_players_processed)
          else
            let start := start + count in
            if Z.ltb 1000 start then Some (sc, lb_players_processed)
            else scan_pages fuel' up cb lb_id start (sc, lb_players_processed)
      end
  end.

(** Five pages of 200 reach the cap of 1000 entries. *)
Definition page_fuel : nat := 5.

(** The [for leaderboard in known_leaderboards] loop: how it ends and the
    scan it leaves; [None] only if a page loop ran out of fuel. *)
Fixpoint scan_leaderboards (up : Upstream) (cb : Callback)
    (leaderboards : list (Z * pystr)) (sc : Scan) : option (completion * Scan) :=
  match leaderboards with
  | [] => Some (Returned, sc)
  | (lb_id, _) :: rest =>
      let '(reported, sc) := report cb sc in
      if negb reported then Some (Threw, sc)
      else
        let faction_name := faction_name_of lb_id in
        let sc :=
          {| sc_store := sc_store sc;
             sc_results := set_leaderboard_result (sc_results sc) faction_name 0;
             sc_requests := sc_requests sc; sc_reports := sc_reports sc |} in
        match scan_pages page_fuel up cb lb_id 1 (sc, 0) with
        | None => None
        | Some (sc, lb_players_processed) =>
            let sc :=
              {| sc_store := sc_store sc;
                 sc_results :=
                   set_leaderboard_result (sc_results sc) faction_name
                                          lb_players_processed;
                 sc_requests := sc_requests sc; sc_reports := sc_reports sc |} in
            scan_leaderboards up cb rest sc
        end
  end.

(** The statements of the outer [try] of [bulk_scan_for_matches], as the
    module defines it last (the definition in effect). *)
Definition bulk_scan_body (up : Upstream) (cb : Callback) (sc : Scan)
  : option (completion * Scan) :=
  let '(reported, sc) := report cb sc in
  if negb reported then Some (Threw, sc)
  else
    match scan_leaderboards up cb known_leaderboards sc with
    | None => None
    | Some (Threw, sc) => Some (Threw, sc)
    | Some (Returned, sc) =>
        let '(reported, sc) := report cb sc in
        if negb reported then Some (Threw, sc)
        else
          Some (Returned,
                {| sc_store := save_match_data_to_file (sc_store sc);
                   sc_results := sc_results sc;
                   sc_requests := sc_requests sc;
                   sc_reports := sc_reports sc |})
    end.

Definition results_init : Results :=
  {| total_players_processed := 0; new_players_found := 0;
     total_matches_added := 0; errors := 0; leaderboard_results := [] |}.

(** How a call of [bulk_scan_for_matches] went. *)
Inductive ScanPath :=
| Completed          (* the [try] body ran to its end *)
| CriticalError      (* the outer handler ran and returned the summary *)
| Propagated.        (* the report inside the handler raised as well *)

(** [bulk_scan_for_matches], the definition in effect. *)
Definition bulk_scan_for_matches (up : Upstream) (cb : Callback) (st : Store)
  : option (ScanPath * Results * Store) :=
  let sc0 := {| sc_store := st; sc_results := results_init;
                sc_requests := O; sc_reports := O |} in
  match bulk_scan_body up cb sc0 with
  | None => None
  | Some (Returned, sc) => Some (Completed, sc_results sc, sc_store sc)
  | Some (Threw, sc) =>
      let '(reported, sc) := report cb sc in
      if reported
      then Some (CriticalError, add_error (sc_results sc), sc_store sc)
      else Some (Propagated, sc_results sc, sc_store sc)
  end.

(** The number of calls of a snapshot writer that a log records. *)
Definition saves_of (e : IoEvent) (log : list IoEvent) : nat :=
  List.length
    (filter (fun e' => match e, e' with
                       | SaveMatchData, SaveMatchData => true
                       | SaveAliases, SaveAliases => true
                       | _, _ => false
                       end) log).

(* ------------------------------------------------------------------ *)
(** ** Notions of the specification and example data *)

(** The laws of [==] on keys. *)
Class KeyLaws (K : Type) `{Key K} := {
  keqb_eq : forall a b : K, keqb a b = true <-> a = b
}.

(** The result code reported for a profile id: the [resulttype] of the
    last report result that names it. *)
Definition report_step (profile_id : Z) (acc : option Z) (r : ReportResult)
  : option Z :=
  match result_profile_id r with
  | Some pid => if Z.eqb pid profile_id then result_resulttype r else acc
  | None => acc
  end.

Definition reported_result (results : list ReportResult) (profile_id : Z)
  : option Z :=
  fold_left (report_step profile_id) results None.

(** The participant's result code indicates a win. *)
Definition indicates_win (m : RawMatch) (member : Member) : bool :=
  match member_profile_id member with
  | Some pid =>
      match reported_result (get_or (raw_matchhistoryreportresults m) []) pid with
      | Some code => Z.eqb code 1
      | None => false
      end
  | None => false
  end.

(** The number of participants whose result code indicates a win. *)
Definition winners (m : RawMatch) : nat :=
  List.length (filter (indicates_win m) (get_or (raw_matchhistorymember m) [])).

(** The profiles and the two participants of the examples. *)
Definition example_profiles : list Profile :=
  [ {| profile_profile_id := Some 10;
       profile_name := Some (str "/steam/76561198356992755");
       profile_alias := Some (str "Alpha") |};
    {| profile_profile_id := Some 20;
       profile_name := Some (str "/steam/76561198000000001");
       profile_alias := Some (str "Beta") |} ].

Definition example_members : list Member :=
  [ {| member_profile_id := Some 10; member_race_id := Some 0;
       member_oldrating := Some 1500; member_newrating := Some 1516 |};
    {| member_profile_id := Some 20; member_race_id := Some 5;
       member_oldrating := Some 1500; member_newrating := Some 1484 |} ].

(** A ranked 1v1 match between them with the given result codes. *)
Definition example_match (code1 code2 : Z) : RawMatch :=
  {| raw_id := Some 4242; raw_matchtype_id := Some 1;
     raw_mapname := Some (str "2p_battle_marshes");
     raw_startgametime := Some 1700000000;
     raw_completiontime := Some 1700000900;
     raw_matchhistorymember := Some example_members;
     raw_matchhistoryreportresults :=
       Some [ {| result_profile_id := Some 10; result_resulttype := Some code1 |};
              {| result_profile_id := Some 20; result_resulttype := Some code2 |} ] |}.


(** The names of the nine factions. *)
Definition faction_names : list pystr := dict_values FACTIONS.

(** A rating lies in an inclusive ELO range; an absent bound does not
    constrain its side. *)
Definition in_elo_range (min_elo max_elo : option Z) (elo : Z) : Prop :=
  (forall lo, min_elo = Some lo -> lo <= elo) /\
  (forall hi, max_elo = Some hi -> elo <= hi).

(** The range [min1..max1] is contained in the range [min2..max2]. *)
Definition range_within (min1 max1 min2 max2 : option Z) : Prop :=
  forall elo, in_elo_range min1 max1 elo -> in_elo_range min2 max2 elo.

(** The match is one between the races [a] and [b], in either slot order. *)
Definition between (a b : pystr) (m : MatchData) : bool :=
  (keqb (player1_race m) a && keqb (player2_race m) b)
  || (keqb (player1_race m) b && keqb (player2_race m) a).

(** A store holding one match between the two example players. *)
Definition example_store : Store :=
  snd (store_match_from_history (example_match 1 0) example_profiles true empty_store).

(** A snapshot file whose second entry lacks every field. *)
Definition broken_entry : PersistedMatch :=
  {| f_match_id := None; f_map_name := None; f_start_time := None;
     f_completion_time := None; f_player1_steamid := None;
     f_player1_alias := None; f_player1_race := None;
     f_player1_old_elo := None; f_player1_new_elo := None;
     f_player2_steamid := None; f_player2_alias := None;
     f_player2_race := None; f_player2_old_elo := None;
     f_player2_new_elo := None; f_winner_steamid := None;
     f_winner_race := None |}.

Definition partly_malformed_file : FileContent :=
  FileObject
    (Some (MatchesDict
             (map (fun kv => (fst kv, to_dict (snd kv))) (stored_matches example_store)
              ++ [(str "4243", broken_entry)])))
    (Some (IdsList [str "4242"; str "4243"])).

(** An upstream whose Chaos leaderboard lists one player, with one ranked
    match in that player's history, and that answers nothing else. *)
Definition example_upstream : Upstream :=
  {| fetch_leaderboard_data := fun _ lb_id start _ =>
       if Z.eqb lb_id 1 && Z.eqb start 1 then
         Some {| lb_statGroups :=
                   Some [ {| sg_id := Some 7;
                             sg_members :=
                               Some [ {| gm_name := Some (str "/steam/76561198356992755");
                                         gm_alias := Some (str "Alpha") |} ] |} ];
                 lb_leaderboardStats := None |}
       else None;
     fetch_match_history := fun _ steam_id =>
       if keqb steam_id (str "76561198356992755") then
         Some {| h_profiles := Some example_profiles;
                 h_matchHistoryStats := Some [example_match 1 0] |}
       else None |}.

(** A progress callback that always returns. *)
Definition quiet_callback : Callback := fun _ => true.

(** What C10 asks of an entry of the top-ELO view: a rank from 1 to 100
    and at least [min_games] effective games, the losses being the
    reported ones less the drops, cut off at zero. *)
Definition topelo_entry_ok (min_games : Z) (e : TopPlayer) : Prop :=
  (exists rank, tp_rank e = Some rank /\ 1 <= rank <= 100) /\
  min_games <= tp_wins e + tp_losses e /\
  tp_total_games e = tp_wins e + tp_losses e /\
  0 <= tp_losses e.

(** The entry was made from a stat that the upstream reported on the
    entry's leaderboard: its rank, rating and wins are those of the stat,
    and its losses are the reported losses less the drops, cut off at
    zero. *)
Definition topelo_entry_from (up : Upstream) (e : TopPlayer) : Prop :=
  exists tick faction_name lb_data stat,
    In (tick, (tp_faction_id e, faction_name)) (enumerate known_leaderboards) /\
    fetch_leaderboard_data up tick (tp_faction_id e) 1 100 = Some lb_data /\
    In stat (get_or (lb_leaderboardStats lb_data) []) /\
    stat_leaderboard_id stat = Some (tp_faction_id e) /\
    tp_rank e = stat_rank stat /\
    tp_rating e = get_or (stat_rating stat) 0 /\
    tp_wins e = get_or (stat_wins stat) 0 /\
    tp_losses e
    = Z.max (get_or (stat_losses stat) 0 - get_or (stat_drops stat) 0) 0.

(** An upstream whose every leaderboard lists the same three players: rank
    1 with 30 games, rank 150 with 500 games, rank 7 with 3 games. *)
Definition example_stat (group rank rating wins losses drops : Z) : LbStat :=
  {| stat_leaderboard_id := None; stat_statgroup_id := Some group;
     stat_rank := Some rank; stat_rating := Some rating;
     stat_wins := Some wins; stat_losses := Some losses;
     stat_drops := Some drops; stat_streak := Some 0 |}.

Definition example_group (group : Z) (steam_id alias : string) : StatGroup :=
  {| sg_id := Some group;
     sg_members := Some [ {| gm_name := Some (str "/steam/" ++ str steam_id);
                             gm_alias := Some (str alias) |} ] |}.

Definition example_ladder : Upstream :=
  {| fetch_leaderboard_data := fun _ lb_id _ _ =>
       let on_board (s : LbStat) : LbStat :=
         {| stat_leaderboard_id := Some lb_id;
            stat_statgroup_id := stat_statgroup_id s;
            stat_rank := stat_rank s; stat_rating := stat_rating s;
            stat_wins := stat_wins s; stat_losses := stat_losses s;
            stat_drops := stat_drops s; stat_streak := stat_streak s |} in
       Some {| lb_statGroups :=
                 Some [ example_group 1 "76561198356992755" "Alpha";
                        example_group 2 "76561198000000001" "Beta";
                        example_group 3 "76561198000000002" "Gamma" ];
               lb_leaderboardStats :=
                 Some (map on_board
                         [ example_stat 1 1 (1800 + lb_id) 20 15 5;
                           example_stat 2 150 1400 300 200 0;
                           example_stat 3 7 1700 2 1 0 ]) |};
     fetch_match_history := fun _ _ => None |}.

(** What C7 asks of a win rate and the number of games it is taken over. *)
Definition winrate_ok (winrate : Q) (total_games : Z) : Prop :=
  (0 <= winrate)%Q /\ (winrate <= 100)%Q /\ (total_games = 0 -> winrate = 0%Q).

(** A leaderboard stat of the Chaos ladder with the given counts. *)
Definition chaos_stat (wins losses drops : Z) : LbStat :=
  {| stat_leaderboard_id := Some 1; stat_statgroup_id := Some 1;
     stat_rank := Some 3; stat_rating := Some 1650;
     stat_wins := Some wins; stat_losses := Some losses;
     stat_drops := Some drops; stat_streak := Some 0 |}.

(** The counters of an aggregator before its closing pass: wins within the
    games counted, win rates still at their initial 0.0. *)
Definition rs_counted (s : RaceStat) : Prop :=
  0 <= rs_wins s <= rs_total_games s /\ rs_winrate s = 0%Q.

Definition mu_counted (s : Matchup) : Prop :=
  0 <= mu_wins s <= mu_total s /\ mu_winrate s = 0%Q.

Definition acc_counted (acc : MatchupAcc) : Prop :=
  0 <= acc_total_wins acc <= acc_total_matches acc /\
  Forall mu_counted (dict_values (acc_matchups acc)).

Definition ps_counted (s : PairStat) : Prop :=
  0 <= ps_race1_wins s <= ps_total_matches s /\
  0 <= ps_race2_wins s <= ps_total_matches s /\
  ps_race1_winrate s = 0%Q /\ ps_race2_winrate s = 0%Q.


(** The number of matches of a list that satisfy [p]. *)
Definition count_matches (p : MatchData -> bool) (ms : list MatchData) : Z :=
  Z.of_nat (List.length (filter p ms)).

(** What the matches counted under the key [k] make of its entry. *)
Definition ps_count_under (k : pystr) (s : PairStat) (m : MatchData) : PairStat :=
  if keqb (key_of_match m) k then ps_count m s else s.

(** A store with two matches between Chaos and Orks, the races in swapped
    slots, both won by the Ork player. *)
Definition swapped_members : list Member :=
  [ {| member_profile_id := Some 20; member_race_id := Some 5;
       member_oldrating := Some 1484; member_newrating := Some 1500 |};
    {| member_profile_id := Some 10; member_race_id := Some 0;
       member_oldrating := Some 1516; member_newrating := Some 1500 |} ].

Definition swapped_match : RawMatch :=
  {| raw_id := Some 4243; raw_matchtype_id := Some 1;
     raw_mapname := Some (str "2p_battle_marshes");
     raw_startgametime := Some 1700001000;
     raw_completiontime := Some 1700001900;
     raw_matchhistorymember := Some swapped_members;
     raw_matchhistoryreportresults :=
       Some [ {| result_profile_id := Some 10; result_resulttype := Some 0 |};
              {| result_profile_id := Some 20; result_resulttype := Some 1 |} ] |}.

Definition two_match_store : Store :=
  snd (store_match_from_history swapped_match example_profiles true
         (snd (store_match_from_history (example_match 0 1) example_profiles true
                 empty_store))).

(* ------------------------------------------------------------------ *)
(** ** Further notions for the properties of the store *)

(** A stored match is well formed: both participants carry a valid
    platform id, and the recorded winner is one of the two, with that
    participant's race. *)
Definition match_wellformed (md : MatchData) : Prop :=
  validate_steamid (player1_steamid md) = true /\
  validate_steamid (player2_steamid md) = true /\
  ((winner_steamid md = player1_steamid md /\ winner_race md = player1_race md) \/
   (winner_steamid md = player2_steamid md /\ winner_race md = player2_race md)).

(** The Match collection and the Processed-ID Set hold the same ids. *)
Definition lockstep (st : Store) : Prop :=
  forall k, In k (dict_keys (stored_matches st)) <-> In k (processed_match_ids st).

(** [get_player_alias] *)
Definition get_player_alias (steam_id : pystr) (st : Store) : pystr :=
  get_or (dict_get (player_aliases st) steam_id) (str "Unknown Player").

(** The state [st'] holds all that [st] holds: no alias, no match and no
    processed id is gone, and the match count has not gone down. *)
Definition store_grows (st st' : Store) : Prop :=
  incl (dict_keys (player_aliases st)) (dict_keys (player_aliases st')) /\
  incl (dict_keys (stored_matches st)) (dict_keys (stored_matches st')) /\
  incl (processed_match_ids st) (processed_match_ids st') /\
  get_stored_match_count st <= get_stored_match_count st'.

(** An element of a JSON array found under ["player_aliases"], as
    [dict.update] takes it.  A sequence of two items gives a key and its
    alias: a two-element array, a two-character string, the two keys of
    an object.  An element that is no sequence, a sequence of another
    length, or one whose first item cannot be a key makes [dict.update]
    raise.  Keys and aliases are strings, as the directory is typed
    ([Dict[str, str]]) and as the bot writes them. *)
Inductive AliasItem :=
| ItemPair (key alias : pystr)
| ItemNotPair.

(** What [load_aliases_from_file] finds under ["player_aliases"]: an
    object (of strings); an array (or a string, whose items are its
    characters, none of them a pair); or a number, [true], [false] or
    [null], which [dict.update] cannot iterate. *)
Inductive AliasesField :=
| AliasesDict (entries : list (pystr * pystr))
| AliasesSequence (items : list AliasItem)
| AliasesNotIterable.

(** What [load_aliases_from_file] finds at [filename]: no file; a file
    that cannot be read as JSON; a JSON value without [.get]; or an
    object, with what it has under ["player_aliases"] and
    ["last_updated"]. *)
Inductive AliasFile :=
| AliasFileMissing
| AliasFileUnparseable
| AliasFileNotObject
| AliasFileObject (aliases : option AliasesField) (last_updated : option pystr).

(** [d.update(items)] for a sequence: [None] when an element raises. *)
Fixpoint update_from_items (items : list AliasItem) (d : dict pystr pystr)
  : option (dict pystr pystr) :=
  match items with
  | [] => Some d
  | ItemPair key alias :: rest => update_from_items rest (dict_set d key alias)
  | ItemNotPair :: _ => None
  end.

(** [player_aliases.update(loaded_aliases)] on the cleared directory. *)
Definition update_aliases (loaded_aliases : AliasesField)
  : option (dict pystr pystr) :=
  match loaded_aliases with
  | AliasesDict entries =>
      Some (fold_left (fun d kv => dict_set d (fst kv) (snd kv)) entries [])
  | AliasesSequence items => update_from_items items []
  | AliasesNotIterable => None
  end.

(** The text [load_aliases_from_file] prints after loading (for the
    default [filename]). *)
Definition loaded_announcement (total_count : Z) (last_updated : pystr) : pystr :=
  str "Player aliases loaded from player_aliases.json - "
  ++ str_of_int total_count ++ str " aliases (last updated: "
  ++ last_updated ++ str ")".

(** [load_aliases_from_file]: unlike the loader of the match data, its
    handler clears the directory; the handler is also reached from the
    [print] that follows the loading. *)
Definition load_aliases_from_file (file : AliasFile) (st : Store) : Store :=
  match file with
  | AliasFileMissing => st
  | AliasFileUnparseable => with_aliases st []
  | AliasFileNotObject => with_aliases st []
  | AliasFileObject aliases last_updated =>
      match update_aliases (get_or aliases (AliasesDict [])) with
      | None => with_aliases st []
      | Some loaded =>
          let st1 := with_aliases st loaded in
          let last_updated := get_or last_updated (str "Unknown") in
          let total_count := dict_len (player_aliases st1) in
          if printable st1 (loaded_announcement total_count last_updated)
          then st1
          else with_aliases st1 []
      end
  end.

(** The document [save_aliases_to_file] writes at the time [now]
    ([datetime.now().isoformat()], an ASCII text). *)
Definition alias_snapshot_of (now : pystr) (st : Store) : AliasFile :=
  AliasFileObject (Some (AliasesDict (player_aliases st))) (Some now).

(** The array of two-element arrays that lists the entries of a
    directory. *)
Definition pairs_of (entries : list (pystr * pystr)) : list AliasItem :=
  map (fun kv => ItemPair (fst kv) (snd kv)) entries.

(** The guard of [store_player_alias]: a valid id, an alias that is
    neither empty nor the placeholder, and no such alias stored yet. *)
Definition alias_storable (steam_id alias : pystr) (st : Store) : bool :=
  validate_steamid steam_id
  && negb (match alias with [] => true | _ => false end)
  && negb (keqb alias (str "Unknown Player"))
  && match dict_get (player_aliases st) steam_id with
     | None => true
     | Some old => negb (keqb old alias)
     end.

(** What holds of a running scan started from the state [st0]: nothing
    has been deleted, the counters are not negative, and the matches
    reported as added are matches the store has gained. *)
Definition scan_sound (st0 : Store) (sc : Scan) : Prop :=
  store_grows st0 (sc_store sc) /\
  0 <= total_players_processed (sc_results sc) /\
  0 <= new_players_found (sc_results sc) /\
  0 <= errors (sc_results sc) /\
  0 <= total_matches_added (sc_results sc) /\
  get_stored_match_count st0 + total_matches_added (sc_results sc)
  <= get_stored_match_count (sc_store sc).

(* ------------------------------------------------------------------ *)
(** ** Queries on the store *)

(** The match features the player, in either slot. *)
Definition features (steam_id : pystr) (m : MatchData) : bool :=
  keqb (player1_steamid m) steam_id || keqb (player2_steamid m) steam_id.

(** [get_matches_by_player] *)
Definition get_matches_by_player (steam_id : pystr) (limit : Z) (st : Store)
  : list MatchData :=
  let player_matches := filter (features steam_id) (dict_values (stored_matches st)) in
  slice_to (sort_desc completion_time player_matches) limit.

(** A list is in descending order of [key]. *)
Definition descending {A} (key : A -> Z) (l : list A) : Prop :=
  StronglySorted (fun a b => key b <= key a) l.

(** A raw match is of the ranked-1v1 type. *)
Definition is_ranked_1v1 (m : RawMatch) : bool :=
  match raw_matchtype_id m with
  | Some t => Z.eqb t 1
  | None => false
  end.

(** The entries of [all_players] are filed under their own platform id,
    one entry per id. *)
Definition players_keyed (d : dict pystr TopPlayer) : Prop :=
  NoDup (dict_keys d) /\ Forall (fun kv => tp_steam_id (snd kv) = fst kv) d.

(* ------------------------------------------------------------------ *)
(** ** What the aggregators count *)

(** The race of the losing side as [get_map_race_statistics] takes it. *)
Definition loser_race (m : MatchData) : pystr :=
  if keqb (player1_race m) (winner_race m) then player2_race m else player1_race m.

(** What one match makes of the per-map entry of [race]. *)
Definition rs_count_under (target_map race : pystr) (s : RaceStat) (m : MatchData)
  : RaceStat :=
  if keqb (map_name m) target_map then
    let s1 := if keqb (winner_race m) race then rs_add_win s else s in
    if keqb (loser_race m) race then rs_add_loss s1 else s1
  else s.

(** The match was played on the map. *)
Definition on_map (target_map : pystr) (m : MatchData) : bool :=
  keqb (map_name m) target_map.

(** The match has the race in one of its slots. *)
Definition involves (race : pystr) (m : MatchData) : bool :=
  keqb race (player1_race m) || keqb race (player2_race m).

(** What one match makes of the entry of [race] in the matchup table of
    [target]. *)
Definition mu_count_under (target race : pystr) (s : Matchup) (m : MatchData)
  : Matchup :=
  if between target race m then mu_add (keqb (winner_race m) target) s else s.

(* ------------------------------------------------------------------ *)
(** ** Overall win rate of a player *)

Record WinrateStats := {
  ws_wins : Z;
  ws_losses : Z;
  ws_games : Z;
  ws_winrate : Q;
  ws_stats : list LbStat
}.

(** [x in range(start, stop)] for an optional int. *)
Definition in_py_range (x : option Z) (lb_ids : Z * Z) : bool :=
  match x with
  | Some n => Z.leb (fst lb_ids) n && Z.ltb n (snd lb_ids)
  | None => false
  end.

(** The body of [for entry in stats] in [calculate_winrate_stats]: the
    running [total_wins], [total_losses] and [filtered_stats]. *)
Definition winrate_step (lb_ids : Z * Z) (acc : Z * Z * list LbStat) (entry : LbStat)
  : Z * Z * list LbStat :=
  let '(total_wins, total_losses, filtered_stats) := acc in
  if in_py_range (stat_leaderboard_id entry) lb_ids then
    let wins := get_or (stat_wins entry) 0 in
    let losses :=
      Z.max (get_or (stat_losses entry) 0 - get_or (stat_drops entry) 0) 0 in
    (total_wins + wins, total_losses + losses, filtered_stats ++ [entry])
  else acc.

(** [calculate_winrate_stats]; its default [lb_ids] is [range(1, 10)]. *)
Definition calculate_winrate_stats (stats : list LbStat) (lb_ids : Z * Z)
  : WinrateStats :=
  let '(total_wins, total_losses, filtered_stats) :=
    fold_left (winrate_step lb_ids) stats (0, 0, []) in
  let total_games := total_wins + total_losses in
  {| ws_wins := total_wins;
     ws_losses := total_losses;
     ws_games := total_games;
     ws_winrate :=
       if Z.ltb 0 total_games then percentage total_wins total_games else 0%Q;
     ws_stats := filtered_stats |}.

(** What holds of an entry of [process_leaderboard_stats] filed under
    [id]. *)
Definition faction_entry_ok (stats : list LbStat) (kv : Z * FactionEntry) : Prop :=
  let '(id, e) := kv in
  1 <= id <= 9 /\
  dict_get FACTIONS id = Some (fe_faction_name e) /\
  fe_total_games e = fe_wins e + fe_losses e /\
  0 <= fe_losses e /\
  match fe_rank e with Some r => 0 < r | None => True end /\
  exists stat,
    In stat stats /\ stat_leaderboard_id stat = Some id /\
    fe_wins e = get_or (stat_wins stat) 0 /\
    fe_losses e
    = Z.max (get_or (stat_losses stat) 0 - get_or (stat_drops stat) 0) 0 /\
    fe_rating e = get_or (stat_rating stat) 0.

(* ------------------------------------------------------------------ *)
(** ** The leaderboard of one faction *)

Record FactionPlayer := {
  fp_steamid : pystr;
  fp_alias : pystr;
  fp_rank : option Z;
  fp_rating : Z;
  fp_wins : Z;
  fp_losses : Z;
  fp_total_games : Z;
  fp_winrate : Q;
  fp_streak : Z
}.

(** The sort key [x['rank'] if x['rank'] is not None else float('inf')],
    compared: [None] stands for infinity. *)
Definition rank_leb (a b : option Z) : bool :=
  match a, b with
  | _, None => true
  | None, Some _ => false
  | Some x, Some y => Z.leb x y
  end.

(** [l.sort(key=key)] with such keys: ascending and stable. *)
Fixpoint insert_by_rank {A} (key : A -> option Z) (x : A) (l : list A) : list A :=
  match l with
  | [] => [x]
  | y :: l' =>
      if rank_leb (key x) (key y) then x :: y :: l'
      else y :: insert_by_rank key x l'
  end.

Definition sort_by_rank {A} (key : A -> option Z) (l : list A) : list A :=
  fold_right (insert_by_rank key) [] l.

(** The body of [for statgroup_id, rank_info in rank_lookup.items()] in
    [get_faction_leaderboard]. *)
Definition faction_leaderboard_step (player_lookup : dict Z PlayerInfo)
    (faction_players : list FactionPlayer) (item : Z * RankInfo)
  : list FactionPlayer :=
  let '(statgroup_id, rank_info) := item in
  match dict_get player_lookup statgroup_id with
  | None => faction_players
  | Some player_info =>
      let actual_losses := Z.max (ri_losses rank_info - ri_drops rank_info) 0 in
      let total_games := ri_wins rank_info + actual_losses in
      let winrate :=
        if Z.ltb 0 total_games
        then percentage (ri_wins rank_info) total_games else 0%Q in
      faction_players ++
      [ {| fp_steamid := pi_steamid player_info;
           fp_alias := pi_alias player_info;
           fp_rank := ri_rank rank_info;
           fp_rating := ri_rating rank_info;
           fp_wins := ri_wins rank_info;
           fp_losses := actual_losses;
           fp_total_games := total_games;
           fp_winrate := winrate;
           fp_streak := ri_streak rank_info |} ]
  end.

(** [get_faction_leaderboard]; [tick] is the number of requests sent
    before its own.  With payload fields of their documented types nothing
    in its [try] raises. *)
Definition get_faction_leaderboard (up : Upstream) (tick : nat)
    (race_id start_rank count : Z) : list FactionPlayer :=
  match fetch_leaderboard_data up tick race_id start_rank count with
  | None => []
  | Some lb_data =>
      let leaderboard_stats := get_or (lb_leaderboardStats lb_data) [] in
      let stat_groups := get_or (lb_statGroups lb_data) [] in
      match leaderboard_stats, stat_groups with
      | [], _ => []
      | _, [] => []
      | _, _ =>
          let rank_lookup :=
            fold_left (rank_lookup_step race_id) leaderboard_stats [] in
          let player_lookup := fold_left player_lookup_step stat_groups [] in
          sort_by_rank fp_rank
            (fold_left (faction_leaderboard_step player_lookup) rank_lookup [])
      end
  end.

(** A list is in ascending order of rank, the unranked last. *)
Definition by_rank {A} (key : A -> option Z) (l : list A) : Prop :=
  StronglySorted (fun a b => rank_leb (key a) (key b) = true) l.

(** What holds of an entry of a faction's leaderboard. *)
Definition faction_player_ok (p : FactionPlayer) : Prop :=
  validate_steamid (fp_steamid p) = true /\
  fp_total_games p = fp_wins p + fp_losses p /\
  0 <= fp_losses p /\
  (fp_total_games p <= 0 -> fp_winrate p = 0%Q).

(* ------------------------------------------------------------------ *)
(** ** Reading a player out of personal stats *)

(** The inner [for member in members] loop of
    [extract_player_info_from_personal_stats]: the first member with a
    platform name. *)
Fixpoint first_steam_member (members : list GroupMember) : option (pystr * pystr) :=
  match members with
  | [] => None
  | member :: rest =>
      let member_name := get_or (gm_name member) [] in
      if startswith member_name steam_prefix
      then Some (remove_all steam_prefix member_name,
                 get_or (gm_alias member) (str "Unknown Player"))
      else first_steam_member rest
  end.

(** Truth value of an optional string: [None] and [''] are false. *)
Definition truthy_str (x : option pystr) : bool :=
  match x with
  | Some (_ :: _) => true
  | _ => false
  end.

(** The outer [for stat_group in stat_groups] loop, from the current
    [(steam_id, alias)]. *)
Fixpoint extract_player_loop (stat_groups : list StatGroup)
    (cur : option pystr * pystr) : option pystr * pystr :=
  match stat_groups with
  | [] => cur
  | stat_group :: rest =>
      let cur' :=
        match first_steam_member (get_or (sg_members stat_group) []) with
        | Some (steam_id, alias) => (Some steam_id, alias)
        | None => cur
        end in
      if truthy_str (fst cur') then cur' else extract_player_loop rest cur'
  end.

(** [extract_player_info_from_personal_stats]; [None] is the empty dict. *)
Definition extract_player_info_from_personal_stats (data : option LbData)
  : option pystr * pystr :=
  let stat_groups :=
    match data with
    | Some d => get_or (lb_statGroups d) []
    | None => []
    end in
  extract_player_loop stat_groups (None, str "Unknown Player").

(** Some member of some stat group has a platform name. *)
Definition has_steam_member (stat_groups : list StatGroup) : Prop :=
  exists sg member,
    In sg stat_groups /\ In member (get_or (sg_members sg) []) /\
    startswith (get_or (gm_name member) []) steam_prefix = true.

(* ------------------------------------------------------------------ *)
(** ** Resolving a player from an id or an alias *)

(** [needle in hay] on two [str]: [needle] occurs somewhere in [hay]. *)
Fixpoint contains (needle hay : pystr) : bool :=
  startswith hay needle ||
  match hay with
  | [] => false
  | _ :: hay' => contains needle hay'
  end.

Section Resolve.

(** [str.lower]; its Unicode case table is left open, nothing below
    depends on it. *)
Variable lower : pystr -> pystr.

(** The first loop of [find_steamid_by_alias]: the id of the first stored
    alias equal to the wanted one, case aside. *)
Fixpoint find_exact_alias (alias_lower : pystr) (items : list (pystr * pystr))
  : option pystr :=
  match items with
  | [] => None
  | (steamid, stored_alias) :: rest =>
      if pystr_eqb (lower stored_alias) alias_lower
      then Some steamid
      else find_exact_alias alias_lower rest
  end.

(** Its second loop: the ids of the stored aliases that contain the wanted
    one, left as soon as 50 are found. *)
Fixpoint find_partial_aliases (alias_lower : pystr)
    (items : list (pystr * pystr)) (matches : list pystr) : list pystr :=
  match items with
  | [] => matches
  | (steamid, stored_alias) :: rest =>
      if contains alias_lower (lower stored_alias)
      then
        let matches := matches ++ [steamid] in
        if (50 <=? List.length matches)%nat
        then matches
        else find_partial_aliases alias_lower rest matches
      else find_partial_aliases alias_lower rest matches
  end.

Definition find_steamid_by_alias (alias : pystr) (st : Store) : option pystr :=
  let alias_lower := lower alias in
  match find_exact_alias alias_lower (player_aliases st) with
  | Some steamid => Some steamid
  | None =>
      let matches := find_partial_aliases alias_lower (player_aliases st) [] in
      match matches with
      | [steamid] => Some steamid
      | _ => None
      end
  end.

(** The loop of [resolve_player_identifier] over the stored aliases: those
    that contain the identifier, left as soon as 5 are found. *)
Fixpoint similar_aliases (identifier_lower : pystr) (aliases : list pystr)
    (similar_matches : list pystr) : list pystr :=
  match aliases with
  | [] => similar_matches
  | stored_alias :: rest =>
      if contains identifier_lower (lower stored_alias)
      then
        let similar_matches := similar_matches ++ [stored_alias] in
        if (5 <=? List.length similar_matches)%nat
        then similar_matches
        else similar_aliases identifier_lower rest similar_matches
      else similar_aliases identifier_lower rest similar_matches
  end.

(** [resolve_player_identifier]: the id, the name to show and the
    suggestions.  [if steamid:] is false for [None] and for ['']. *)
Definition resolve_player_identifier (identifier : pystr) (st : Store)
  : option pystr * pystr * list pystr :=
  if validate_steamid identifier
  then (Some identifier,
        get_or (dict_get (player_aliases st) identifier) (str "Unknown Player"),
        [])
  else
    match find_steamid_by_alias identifier st with
    | Some ((_ :: _) as steamid) =>
        (Some steamid,
         get_or (dict_get (player_aliases st) steamid) (str "Unknown Player"),
         [])
    | _ =>
        (None, identifier,
         similar_aliases (lower identifier) (dict_values (player_aliases st)) [])
    end.

End Resolve.

(** [str.lower] on ASCII text, for the examples. *)
Definition ascii_lower (s : pystr) : pystr :=
  map (fun c => if (N.leb 65 c && N.leb c 90)%bool then (c + 32)%N else c) s.

(* ------------------------------------------------------------------ *)
(** ** Completing a map name *)

(** [app_commands.Choice(name=.., value=..)] *)
Record Choice := {
  choice_name : pystr;
  choice_value : pystr
}.

(** [map_counts[match.map_name] += 1] on a [defaultdict(int)] *)
Definition count_map (map_counts : dict pystr Z) (m : MatchData) : dict pystr Z :=
  dict_set map_counts (map_name m)
           (get_or (dict_get map_counts (map_name m)) 0 + 1).

(** [map_name if len(map_name) <= 90 else map_name[:87] + '...'] *)
Definition display_name_of (name : pystr) : pystr :=
  if (List.length name <=? 90)%nat then name else firstn 87 name ++ str "...".

Section Autocomplete.

Variable lower : pystr -> pystr.

(** [map_name_autocomplete]; the interaction is not looked at. *)
Definition map_name_autocomplete (current : pystr) (st : Store) : list Choice :=
  let map_counts := fold_left count_map (dict_values (stored_matches st)) [] in
  let valid_maps := filter (fun mc => Z.leb 3 (snd mc)) map_counts in
  let valid_maps :=
    match current with
    | [] => valid_maps
    | _ :: _ =>
        filter (fun mc => contains (lower current) (lower (fst mc))) valid_maps
    end in
  let valid_maps := sort_desc snd valid_maps in
  map (fun mc =>
         {| choice_name :=
              display_name_of (fst mc) ++ str " (" ++ str_of_int (snd mc)
                ++ str " matches)";
            choice_value := fst mc |})
      (firstn 25 valid_maps).

End Autocomplete.

(** What is asked of a choice: a map of at least 3 stored matches whose
    name contains what was typed, if anything was. *)
Definition choice_ok (lower : pystr -> pystr) (current : pystr) (st : Store)
    (c : Choice) : Prop :=
  3 <= count_matches (on_map (choice_value c)) (dict_values (stored_matches st)) /\
  (current = [] \/ contains (lower current) (lower (choice_value c)) = true).

(** A store of eight matches on three maps, for the examples. *)
Definition match_on (id map : string) : pystr * MatchData :=
  (str id,
   {| match_id := str id; map_name := str map;
      start_time := 0; completion_time := 0;
      player1_steamid := str "76561198000000001"; player1_alias := str "Alpha";
      player1_race := str "Chaos"; player1_old_elo := 1500; player1_new_elo := 1510;
      player2_steamid := str "76561198000000002"; player2_alias := str "Beta";
      player2_race := str "Eldar"; player2_old_elo := 1500; player2_new_elo := 1490;
      winner_steamid := str "76561198000000001"; winner_race := str "Chaos" |}).

Definition maps_store : Store :=
  with_matches empty_store
    [ match_on "1" "Blood River"; match_on "2" "Outer Reaches";
      match_on "3" "Blood River"; match_on "4" "Blood River";
      match_on "5" "Outer Reaches"; match_on "6" "Outer Reaches";
      match_on "7" "Outer Reaches"; match_on "8" "Fallen City" ].
(* ================================================================== *)

(** The raw match with other report results. *)
Definition with_results (m : RawMatch) (results : list ReportResult) : RawMatch :=
  {| raw_id := raw_id m; raw_matchtype_id := raw_matchtype_id m;
     raw_mapname := raw_mapname m; raw_startgametime := raw_startgametime m;
     raw_completiontime := raw_completiontime m;
     raw_matchhistorymember := raw_matchhistorymember m;
     raw_matchhistoryreportresults := Some results |}.

(** A report result has both of its fields. *)
Definition result_complete (r : ReportResult) : Prop :=
  result_profile_id r <> None /\ result_resulttype r <> None.

(** The winner recorded in a stored match is its first participant, or
    its second. *)
Definition winner_is_player1 (md : MatchData) : Prop :=
  winner_steamid md = player1_steamid md /\ winner_race md = player1_race md.

Definition winner_is_player2 (md : MatchData) : Prop :=
  winner_steamid md = player2_steamid md /\ winner_race md = player2_race md.

(** An entry of [rank_lookup] was made from a stat of the leaderboard. *)
Definition rank_info_from (lb_id : Z) (stats : list LbStat) (info : RankInfo)
  : Prop :=
  exists stat,
    In stat stats /\
    stat_leaderboard_id stat = Some lb_id /\
    ri_rank info = stat_rank stat /\
    ri_rating info = get_or (stat_rating stat) 0 /\
    ri_wins info = get_or (stat_wins stat) 0 /\
    ri_losses info = get_or (stat_losses stat) 0 /\
    ri_drops info = get_or (stat_drops stat) 0.
(** * Properties *)

(** ** Keys, dicts and sets *)

Lemma pystr_eqb_eq (a b : pystr) : pystr_eqb a b = true <-> a = b.
Proof.
  revert b; induction a as [|x a IH]; intros [|y b]; simpl;
    try (split; [discriminate | congruence]); try tauto.
  rewrite andb_true_iff, N.eqb_eq, IH. split.
  - intros [-> ->]; reflexivity.
  - intros E; inversion E; auto.
Qed.

#[export] Instance KeyLaws_pystr : @KeyLaws pystr Key_pystr.
Proof. constructor. exact pystr_eqb_eq. Qed.

#[export] Instance KeyLaws_Z : @KeyLaws Z Key_Z.
Proof. constructor. exact Z.eqb_eq. Qed.

Section KeyFacts.
Context {K : Type} `{KeyLaws K}.

Lemma keqb_refl (k : K) : keqb k k = true.
Proof. apply keqb_eq; reflexivity. Qed.

Lemma keqb_neq (a b : K) : keqb a b = false <-> a <> b.
Proof.
  destruct (keqb a b) eqn:E.
  - apply keqb_eq in E. split; [discriminate | contradiction].
  - split; [|reflexivity]. intros _ ->. rewrite keqb_refl in E. discriminate.
Qed.

Lemma keqb_sym (a b : K) : keqb a b = keqb b a.
Proof.
  destruct (keqb a b) eqn:E.
  - apply keqb_eq in E. subst. symmetry; apply keqb_refl.
  - apply keqb_neq in E. symmetry. apply keqb_neq. congruence.
Qed.

Lemma set_mem_In (s : list K) (x : K) : set_mem s x = true <-> In x s.
Proof.
  unfold set_mem. rewrite existsb_exists. split.
  - intros (y & Hy & E). apply keqb_eq in E. subst; assumption.
  - intros Hx. exists x. split; [assumption | apply keqb_refl].
Qed.

Lemma set_mem_add (s : list K) (x : K) : set_mem (set_add s x) x = true.
Proof.
  unfold set_add. destruct (set_mem s x) eqn:E; [assumption|].
  apply set_mem_In, in_or_app. right; left; reflexivity.
Qed.

Variable V : Type.

Lemma dict_get_set_same (d : dict K V) k v : dict_get (dict_set d k v) k = Some v.
Proof.
  induction d as [|[k' v'] d IH]; simpl.
  - rewrite keqb_refl; reflexivity.
  - destruct (keqb k' k) eqn:E; simpl; rewrite E; [reflexivity | exact IH].
Qed.

Lemma dict_get_set_other (d : dict K V) k k' v :
  k <> k' -> dict_get (dict_set d k v) k' = dict_get d k'.
Proof.
  intros Hne. induction d as [|[k0 v0] d IH]; simpl.
  - assert (E : keqb k k' = false) by (apply keqb_neq; assumption).
    rewrite E; reflexivity.
  - destruct (keqb k0 k) eqn:E; simpl.
    + apply keqb_eq in E; subst k0.
      assert (E : keqb k k' = false) by (apply keqb_neq; assumption).
      rewrite E; reflexivity.
    + destruct (keqb k0 k'); [reflexivity | exact IH].
Qed.

Lemma dict_keys_update (d : dict K V) k f :
  dict_keys (dict_update d k f) = dict_keys d.
Proof.
  induction d as [|[k' v'] d IH]; simpl; [reflexivity|].
  destruct (keqb k' k); simpl; [reflexivity | f_equal; exact IH].
Qed.

Lemma dict_get_update_same (d : dict K V) k f :
  dict_get (dict_update d k f) k = option_map f (dict_get d k).
Proof.
  induction d as [|[k' v'] d IH]; simpl; [reflexivity|].
  destruct (keqb k' k) eqn:E; simpl; rewrite E; [reflexivity | exact IH].
Qed.

Lemma dict_get_update_other (d : dict K V) k k' f :
  k <> k' -> dict_get (dict_update d k f) k' = dict_get d k'.
Proof.
  intros Hne. induction d as [|[k0 v0] d IH]; simpl; [reflexivity|].
  destruct (keqb k0 k) eqn:E; simpl.
  - apply keqb_eq in E; subst k0.
    assert (E : keqb k k' = false) by (apply keqb_neq; assumption).
    rewrite E; reflexivity.
  - destruct (keqb k0 k'); [reflexivity | exact IH].
Qed.

End KeyFacts.

Lemma dict_get_map_values {K A B} `{Key K} (f : A -> B) (d : dict K A) k :
  dict_get (map_values f d) k = option_map f (dict_get d k).
Proof.
  induction d as [|[k' v'] d IH]; simpl; [reflexivity|].
  destruct (keqb k' k); [reflexivity | exact IH].
Qed.

Lemma dict_keys_map_values {K A B} (f : A -> B) (d : dict K A) :
  dict_keys (map_values f d) = dict_keys d.
Proof.
  unfold dict_keys, map_values. rewrite map_map. reflexivity.
Qed.

(* ------------------------------------------------------------------ *)
(** ** Identity validation *)

Lemma forallb_Forall {A} (p : A -> bool) (l : list A) :
  forallb p l = true <-> Forall (fun x => p x = true) l.
Proof.
  rewrite forallb_forall, Forall_forall. reflexivity.
Qed.

(** [validate_steamid] accepts exactly the strings of 17 characters on
    which [str.isdigit] holds. *)
Lemma validate_steamid_iff (s : pystr) :
  validate_steamid s = true <->
  List.length s = 17%nat /\ Forall (fun c => char_isdigit c = true) s.
Proof.
  unfold validate_steamid, isdigit. rewrite andb_true_iff, Nat.eqb_eq.
  destruct s as [|c s].
  - simpl. split; [intros [? _]; discriminate | intros [? _]; discriminate].
  - rewrite forallb_Forall. tauto.
Qed.

Lemma nonascii_ranges :
  forallb (fun r => N.leb 128 (fst r)) (tl digit_ranges) = true.
Proof. vm_compute. reflexivity. Qed.

(** Among the code points of the ASCII block, the digits of [str.isdigit]
    are ['0'] to ['9']. *)
Lemma char_isdigit_ascii (c : N) :
  is_ascii c -> (char_isdigit c = true <-> is_ascii_digit c).
Proof.
  unfold is_ascii, is_ascii_digit, char_isdigit. intros Hc.
  change (existsb (in_range c) digit_ranges)
    with (in_range c (48, 57)%N || existsb (in_range c) (tl digit_ranges)).
  rewrite orb_true_iff.
  assert (Hrest : existsb (in_range c) (tl digit_ranges) = false).
  { pose proof nonascii_ranges as Hr. rewrite forallb_forall in Hr.
    apply not_true_is_false. rewrite existsb_exists. intros (r & Hin & Hr').
    specialize (Hr r Hin). unfold in_range in Hr'.
    apply andb_true_iff in Hr'. destruct Hr' as [H1 _].
    apply N.leb_le in Hr, H1. lia. }
  rewrite Hrest. unfold in_range; simpl fst; simpl snd.
  rewrite andb_true_iff, !N.leb_le. intuition discriminate.
Qed.

(** C3, as the code has it: on a string of ASCII characters,
    [validate_steamid] returns true if and only if the string consists of
    exactly 17 ASCII digits. *)
Theorem validate_steamid_ascii (s : pystr) :
  Forall is_ascii s ->
  (validate_steamid s = true <->
   List.length s = 17%nat /\ Forall is_ascii_digit s).
Proof.
  intros Hs. rewrite validate_steamid_iff.
  assert (E : Forall (fun c => char_isdigit c = true) s <-> Forall is_ascii_digit s).
  { rewrite !Forall_forall. rewrite Forall_forall in Hs.
    split; intros Hd c Hc; apply (char_isdigit_ascii c (Hs c Hc)); auto. }
  rewrite E. reflexivity.
Qed.

Lemma validate_steamid_ascii_witness :
  Forall is_ascii (str "76561198356992755") /\
  (validate_steamid (str "76561198356992755") = true <->
   List.length (str "76561198356992755") = 17%nat /\
   Forall is_ascii_digit (str "76561198356992755")).
Proof.
  assert (H : Forall is_ascii (str "76561198356992755")).
  { unfold is_ascii. repeat constructor. }
  split; [exact H | exact (validate_steamid_ascii _ H)].
Defined.

(** The examples of the specification. *)
Example validate_steamid_examples :
  validate_steamid (str "76561198356992755") = true /\
  validate_steamid (str "12345") = false /\
  validate_steamid (str "abc12345678901234") = false.
Proof. repeat split. Qed.

(** C3 as stated fails: seventeen superscript twos (U+00B2) are no ASCII
    digits, yet [str.isdigit] holds on them and [validate_steamid]
    accepts the string. *)
Lemma validate_steamid_not_ascii_only :
  ~ (forall s : pystr,
       validate_steamid s = true <->
       List.length s = 17%nat /\ Forall is_ascii_digit s).
Proof.
  intros H. destruct (H (repeat 178%N 17)) as [Hacc _].
  destruct (Hacc eq_refl) as [_ Hd].
  inversion Hd as [|c l Hc _]. unfold is_ascii_digit in Hc. lia.
Qed.

(* ------------------------------------------------------------------ *)
(** ** Match normalizer and store *)

(** A step of a body that went on had a first part that went on. *)
Lemma flow_bind_Next {A B} (m : flow A) (k : A -> flow B) (b : B) :
  flow_bind m k = Next b -> exists a, m = Next a /\ k a = Next b.
Proof.
  destruct m as [a| |]; simpl; try discriminate. intros Hk. exists a. auto.
Qed.

Lemma return_if_Next (c : bool) (u : unit) : return_if c = Next u -> c = false.
Proof. destruct c; simpl; [discriminate | reflexivity]. Qed.

Lemma subscript_Next {A} (o : option A) (a : A) : subscript o = Next a -> o = Some a.
Proof. destruct o; simpl; [intros [= ->]; reflexivity | discriminate]. Qed.

Ltac flow_inv H :=
  let a := fresh "a" in
  let Ha := fresh "Ha" in
  apply flow_bind_Next in H; destruct H as (a & Ha & H).

(** What a successful normalization tells about its input. *)
Lemma normalize_Next (m : RawMatch) (profiles : list Profile)
    (processed : list pystr) (md : MatchData) (pds : list PlayerData) :
  normalize m profiles processed = Next (md, pds) ->
  exists id results_map,
    raw_id m = Some id /\
    match_id md = str_of_int id /\
    set_mem processed (str_of_int id) = false /\
    build_results_map (get_or (raw_matchhistoryreportresults m) []) [] = Next results_map /\
    flow_map (player_of_member results_map profiles)
             (get_or (raw_matchhistorymember m) []) = Next pds /\
    exists w, find pd_is_winner pds = Some w.
Proof.
  unfold normalize. intros H.
  flow_inv H. apply subscript_Next in Ha.
  flow_inv H. apply return_if_Next in Ha0.
  flow_inv H. flow_inv H. flow_inv H. flow_inv H.
  destruct (find pd_is_winner a4) as [w|] eqn:Hw; [|discriminate].
  destruct a4 as [|p1 [|p2 rest]]; try discriminate.
  injection H as <- <-. exists a, a3. simpl. eauto 10.
Qed.

(** A raw match whose id is in the Processed-ID Set is turned away at the
    first check. *)
Lemma store_match_known_id (m : RawMatch) (profiles : list Profile)
    (batch_mode : bool) (st : Store) (id : Z) :
  raw_id m = Some id ->
  In (str_of_int id) (processed_match_ids st) ->
  store_match_from_history m profiles batch_mode st = (false, st).
Proof.
  intros Hid Hin. unfold store_match_from_history.
  destruct (normalize m profiles (processed_match_ids st)) as [[md pds]| |] eqn:Hn;
    try reflexivity.
  apply normalize_Next in Hn. destruct Hn as (id' & rm & Hid' & _ & Hmem & _).
  rewrite Hid in Hid'. injection Hid' as <-.
  apply set_mem_In in Hin. congruence.
Qed.

(** C1: a raw match whose upstream id is already in the Processed-ID Set is
    answered with [False], and the stored-match count, the Match collection
    and the Processed-ID Set (indeed the whole state) are left as they
    were. *)
Theorem store_match_already_processed (m : RawMatch) (profiles : list Profile)
    (batch_mode : bool) (st : Store) (id : Z) :
  raw_id m = Some id ->
  In (str_of_int id) (processed_match_ids st) ->
  let '(stored, st') := store_match_from_history m profiles batch_mode st in
  stored = false /\
  get_stored_match_count st' = get_stored_match_count st /\
  stored_matches st' = stored_matches st /\
  processed_match_ids st' = processed_match_ids st /\
  st' = st.
Proof.
  intros Hid Hin.
  rewrite (store_match_known_id m profiles batch_mode st id Hid Hin).
  repeat split.
Qed.

Lemma store_match_already_processed_witness :
  raw_id (example_match 1 0) = Some 4242 /\
  In (str_of_int 4242) (processed_match_ids example_store) /\
  let '(stored, st') :=
    store_match_from_history (example_match 1 0) example_profiles false
                             example_store in
  stored = false /\
  get_stored_match_count st' = get_stored_match_count example_store /\
  stored_matches st' = stored_matches example_store /\
  processed_match_ids st' = processed_match_ids example_store /\
  st' = example_store.
Proof.
  assert (Hin : In (str_of_int 4242) (processed_match_ids example_store)).
  { left. reflexivity. }
  split; [reflexivity|]. split; [exact Hin|].
  exact (store_match_already_processed (example_match 1 0) example_profiles
           false example_store 4242 eq_refl Hin).
Defined.

(** A match that was stored is in the Processed-ID Set afterwards. *)
Lemma store_match_marks_processed (m : RawMatch) (profiles : list Profile)
    (batch_mode : bool) (st st' : Store) :
  store_match_from_history m profiles batch_mode st = (true, st') ->
  exists id, raw_id m = Some id /\ In (str_of_int id) (processed_match_ids st').
Proof.
  unfold store_match_from_history.
  destruct (normalize m profiles (processed_match_ids st)) as [[md pds]| |] eqn:Hn;
    try discriminate.
  apply normalize_Next in Hn. destruct Hn as (id & rm & Hid & Hmd & _).
  intros H. exists id. split; [assumption|].
  apply set_mem_In. rewrite <- Hmd.
  destruct batch_mode; [|destruct (printable _ _); [|discriminate]];
    injection H as <-; simpl; apply set_mem_add.
Qed.

(** Storing the same raw match twice: the second call answers [False] and
    changes nothing. *)
Corollary store_match_twice (m : RawMatch) (profiles profiles' : list Profile)
    (b b' : bool) (st st' : Store) :
  store_match_from_history m profiles b st = (true, st') ->
  store_match_from_history m profiles' b' st' = (false, st').
Proof.
  intros H1. apply store_match_marks_processed in H1.
  destruct H1 as (id & Hid & Hin).
  exact (store_match_known_id m profiles' b' st' id Hid Hin).
Qed.

Lemma build_results_map_get (results : list ReportResult) (acc rm : dict Z Z)
    (pid : Z) :
  build_results_map results acc = Next rm ->
  dict_get rm pid = fold_left (report_step pid) results (dict_get acc pid).
Proof.
  revert acc. induction results as [|r results IH]; intros acc; simpl.
  - intros [= <-]. reflexivity.
  - intros H. flow_inv H. flow_inv H.
    apply subscript_Next in Ha, Ha0.
    rewrite (IH _ H). f_equal. unfold report_step. rewrite Ha, Ha0.
    destruct (Z.eqb a pid) eqn:E.
    + apply Z.eqb_eq in E. subst a. apply dict_get_set_same.
    + apply dict_get_set_other. intros ->. rewrite Z.eqb_refl in E. discriminate.
Qed.

(** The normalizer's [is_winner] is the participant's result code being a
    win. *)
Lemma player_of_member_winner (m : RawMatch) (profiles : list Profile)
    (rm : dict Z Z) (member : Member) (pd : PlayerData) :
  build_results_map (get_or (raw_matchhistoryreportresults m) []) [] = Next rm ->
  player_of_member rm profiles member = Next pd ->
  pd_is_winner pd = indicates_win m member.
Proof.
  intros Hrm H. unfold player_of_member in H.
  flow_inv H. apply subscript_Next in Ha.
  flow_inv H. destruct a0 as [[steam_id|] alias]; [|discriminate].
  flow_inv H. flow_inv H. flow_inv H. flow_inv H.
  injection H as <-. simpl.
  unfold indicates_win, reported_result. rewrite Ha.
  rewrite (build_results_map_get _ _ _ a Hrm). simpl.
  destruct (fold_left _ _ _); reflexivity.
Qed.

Lemma flow_map_winner (m : RawMatch) (profiles : list Profile) (rm : dict Z Z)
    (members : list Member) (pds : list PlayerData) :
  build_results_map (get_or (raw_matchhistoryreportresults m) []) [] = Next rm ->
  flow_map (player_of_member rm profiles) members = Next pds ->
  map pd_is_winner pds = map (indicates_win m) members.
Proof.
  intros Hrm. revert pds. induction members as [|mem members IH]; intros pds; simpl.
  - intros [= <-]. reflexivity.
  - intros H. flow_inv H. flow_inv H. injection H as <-. simpl.
    rewrite (player_of_member_winner m profiles rm mem a Hrm Ha).
    rewrite (IH a0 Ha0). reflexivity.
Qed.

Lemma find_some_filter {A B} (p : B -> bool) (q : A -> bool)
    (xs : list A) (ys : list B) (w : B) :
  map p ys = map q xs -> find p ys = Some w -> filter q xs <> [].
Proof.
  revert ys. induction xs as [|x xs IH]; intros [|y ys]; simpl; try discriminate.
  intros [= Hxy Hrest]. rewrite <- Hxy.
  destruct (p y); [discriminate | eauto].
Qed.

(** The examples of the specification: result codes 1 and 0 store the match
    with player 1 as the winner; codes 0 and 0 are rejected. *)
Example store_match_examples :
  (let '(stored, st') :=
     store_match_from_history (example_match 1 0) example_profiles true empty_store in
   stored = true /\ get_stored_match_count st' = 1 /\
   option_map winner_steamid (dict_get (stored_matches st') (str "4242"))
   = Some (str "76561198356992755")) /\
  fst (store_match_from_history (example_match 0 0) example_profiles true empty_store)
  = false.
Proof. vm_compute. repeat split. Qed.

(** C2 as stated fails for two winners: when both result codes are 1 the
    match is stored, with the first participant as its winner, and the
    match count grows. *)
Lemma store_match_two_winners :
  ~ (forall (m : RawMatch) (profiles : list Profile) (batch_mode : bool)
            (st : Store),
       winners m = 0%nat \/ winners m = 2%nat ->
       let '(stored, st') := store_match_from_history m profiles batch_mode st in
       stored = false /\
       get_stored_match_count st' = get_stored_match_count st).
Proof.
  intros H.
  specialize (H (example_match 1 1) example_profiles true empty_store
                (or_intror eq_refl)).
  vm_compute in H. destruct H as [H _]. discriminate.
Qed.

(* ------------------------------------------------------------------ *)
(** ** The ELO filter *)

Lemma elo_in_range_iff (min_elo max_elo : option Z) (elo : Z) :
  elo_in_range min_elo max_elo elo = true <-> in_elo_range min_elo max_elo elo.
Proof.
  unfold elo_in_range, in_elo_range.
  destruct min_elo as [lo|], max_elo as [hi|]; simpl;
    rewrite ?andb_true_iff, ?Z.geb_le, ?Z.leb_le; split.
  - intros [H1 H2]. split; intros ? [= <-]; assumption.
  - intros [H1 H2]. split; [apply H1 | apply H2]; reflexivity.
  - intros H1. split; [intros ? [= <-]; assumption | discriminate].
  - intros [H1 _]. apply H1; reflexivity.
  - intros H2. split; [discriminate | intros ? [= <-]; assumption].
  - intros [_ H2]. apply H2; reflexivity.
  - intros _. split; discriminate.
  - reflexivity.
Qed.

(** The matches the filter returns are the stored matches both of whose
    pre-match ratings lie in the range. *)
Lemma filter_matches_by_elo_range_In (min_elo max_elo : option Z) (st : Store)
    (m : MatchData) :
  In m (filter_matches_by_elo_range min_elo max_elo st) <->
  In m (dict_values (stored_matches st)) /\
  in_elo_range min_elo max_elo (player1_old_elo m) /\
  in_elo_range min_elo max_elo (player2_old_elo m).
Proof.
  rewrite <- !elo_in_range_iff. unfold filter_matches_by_elo_range.
  destruct min_elo as [lo|], max_elo as [hi|];
    try (rewrite filter_In, andb_true_iff; reflexivity).
  simpl. tauto.
Qed.

(** C9: the filter is monotonic in the range, and without bounds it
    returns the whole collection. *)
Theorem filter_matches_by_elo_range_monotonic (st : Store)
    (min1 max1 min2 max2 : option Z) :
  range_within min1 max1 min2 max2 ->
  incl (filter_matches_by_elo_range min1 max1 st)
       (filter_matches_by_elo_range min2 max2 st) /\
  filter_matches_by_elo_range None None st = dict_values (stored_matches st).
Proof.
  intros Hsub. split; [|reflexivity].
  intros m. rewrite !filter_matches_by_elo_range_In.
  intros (Hin & H1 & H2). auto.
Qed.

Lemma filter_matches_by_elo_range_monotonic_witness :
  range_within (Some 1500) (Some 1600) (Some 1000) None /\
  incl (filter_matches_by_elo_range (Some 1500) (Some 1600) example_store)
       (filter_matches_by_elo_range (Some 1000) None example_store) /\
  filter_matches_by_elo_range None None example_store
  = dict_values (stored_matches example_store).
Proof.
  assert (H : range_within (Some 1500) (Some 1600) (Some 1000) None).
  { intros elo [Hlo _]. split; [|discriminate].
    intros lo [= <-]. specialize (Hlo 1500 eq_refl). lia. }
  split; [exact H|].
  exact (filter_matches_by_elo_range_monotonic example_store _ _ _ _ H).
Defined.

(** The filter returns a sub-list of the collection, in its order. *)
Lemma filter_matches_by_elo_range_incl (min_elo max_elo : option Z) (st : Store) :
  incl (filter_matches_by_elo_range min_elo max_elo st)
       (dict_values (stored_matches st)).
Proof.
  intros m Hm. apply filter_matches_by_elo_range_In in Hm. tauto.
Qed.

(* ------------------------------------------------------------------ *)
(** ** The per-race matchup table *)

Lemma matchups_init_get (target race : pystr) (races : list pystr)
    (d0 : dict pystr Matchup) :
  dict_get
    (fold_left
       (fun d r => if negb (keqb r target) then dict_set d r (mu_zero r) else d)
       races d0) race
  = if existsb (keqb race) races && negb (keqb race target)
    then Some (mu_zero race) else dict_get d0 race.
Proof.
  revert d0. induction races as [|a races IH]; intros d0; [reflexivity|].
  cbn [fold_left existsb]. rewrite IH. clear IH.
  destruct (keqb race a) eqn:Era.
  - apply keqb_eq in Era. subst a. rewrite orb_true_l.
    destruct (keqb race target) eqn:Ert; cbn [negb].
    + rewrite !andb_false_r. reflexivity.
    + rewrite !andb_true_r, dict_get_set_same.
      destruct (existsb (keqb race) races); reflexivity.
  - rewrite orb_false_l. apply keqb_neq in Era.
    destruct (existsb (keqb race) races && negb (keqb race target)); [reflexivity|].
    destruct (negb (keqb a target)); [|reflexivity].
    apply dict_get_set_other. congruence.
Qed.

Lemma matchups_step_keys (target : pystr) (acc : MatchupAcc) (m : MatchData) :
  dict_keys (acc_matchups (matchups_step target acc m)) = dict_keys (acc_matchups acc).
Proof.
  unfold matchups_step.
  destruct (keqb target (player1_race m) || keqb target (player2_race m));
    [|reflexivity].
  destruct (dict_mem _ _); simpl; [apply dict_keys_update | reflexivity].
Qed.

Lemma matchups_fold_keys (target : pystr) (ms : list MatchData) (acc : MatchupAcc) :
  dict_keys (acc_matchups (fold_left (matchups_step target) ms acc))
  = dict_keys (acc_matchups acc).
Proof.
  revert acc. induction ms as [|m ms IH]; intros acc; simpl; [reflexivity|].
  rewrite IH. apply matchups_step_keys.
Qed.

(** A match that is not one between the target and [race] leaves the
    entry of [race] alone. *)
Lemma matchups_step_other (target race : pystr) (acc : MatchupAcc) (m : MatchData) :
  between target race m = false ->
  dict_get (acc_matchups (matchups_step target acc m)) race
  = dict_get (acc_matchups acc) race.
Proof.
  unfold between, matchups_step. intros Hb.
  destruct (keqb target (player1_race m)) eqn:E1; simpl.
  - apply keqb_eq in E1. rewrite <- E1 in *. rewrite keqb_refl in *. simpl in Hb.
    apply orb_false_iff in Hb. destruct Hb as [Hb _].
    destruct (dict_mem _ _); simpl; [|reflexivity].
    apply dict_get_update_other. apply keqb_neq. assumption.
  - destruct (keqb target (player2_race m)) eqn:E2; [|reflexivity].
    apply keqb_eq in E2. rewrite <- E2 in *. rewrite keqb_refl in *.
    rewrite (keqb_sym (player1_race m) target), E1 in *. simpl in Hb.
    rewrite andb_true_r in Hb.
    destruct (dict_mem _ _); simpl; [|reflexivity].
    apply dict_get_update_other. apply keqb_neq. assumption.
Qed.

Lemma matchups_fold_other (target race : pystr) (ms : list MatchData)
    (acc : MatchupAcc) :
  forallb (fun m => negb (between target race m)) ms = true ->
  dict_get (acc_matchups (fold_left (matchups_step target) ms acc)) race
  = dict_get (acc_matchups acc) race.
Proof.
  revert acc. induction ms as [|m ms IH]; intros acc; simpl; [reflexivity|].
  rewrite andb_true_iff, negb_true_iff. intros [Hm Hms].
  rewrite (IH _ Hms). apply matchups_step_other. assumption.
Qed.

Lemma dict_get_keys_eq {A B} (d : dict pystr A) (d' : dict pystr B) (k : pystr) :
  dict_keys d = dict_keys d' ->
  dict_get d k = None <-> dict_get d' k = None.
Proof.
  revert d'. induction d as [|[k0 v0] d IH]; intros [|[k1 v1] d']; simpl;
    try discriminate; [tauto|].
  intros [= <- Hk]. destruct (keqb k0 k); [split; discriminate | auto].
Qed.

Lemma faction_names_cases (P : pystr -> Prop) :
  P (str "Chaos") -> P (str "Dark Eldar") -> P (str "Eldar") ->
  P (str "Imperial Guard") -> P (str "Necrons") -> P (str "Orks") ->
  P (str "Sisters of Battle") -> P (str "Space Marines") -> P (str "Tau Empire") ->
  forall race, In race faction_names -> P race.
Proof.
  intros H1 H2 H3 H4 H5 H6 H7 H8 H9 race Hin.
  unfold faction_names, dict_values, FACTIONS in Hin. simpl in Hin.
  repeat (destruct Hin as [<-|Hin]; [assumption|]). contradiction.
Qed.

(** C4, as the code has it: for a target race among the nine factions the
    matchup table has an entry for each of the eight other races, with
    zero counts when the target has no game against that race, and none
    for the target itself. *)
Theorem race_matchups_table (target race : pystr) (min_elo max_elo : option Z)
    (st : Store) :
  In target faction_names ->
  In race faction_names ->
  let table := rm_matchups (get_race_specific_matchups target min_elo max_elo st) in
  (race <> target ->
   exists mu,
     dict_get table race = Some mu /\
     (forallb (fun m => negb (between target race m))
              (filter_matches_by_elo_range min_elo max_elo st) = true ->
      mu = mu_zero race)) /\
  dict_get table target = None /\
  List.length table = 8%nat.
Proof.
  intros Ht Hr. simpl.
  set (ms := filter_matches_by_elo_range min_elo max_elo st).
  set (init := {| acc_total_matches := 0; acc_total_wins := 0;
                  acc_total_losses := 0; acc_matchups := matchups_init target |}).
  assert (Hkeys : dict_keys (map_values mu_finish
                    (acc_matchups (fold_left (matchups_step target) ms init)))
                  = dict_keys (matchups_init target)).
  { rewrite dict_keys_map_values. apply matchups_fold_keys. }
  assert (Hinit : forall r, dict_get (matchups_init target) r
                    = if existsb (keqb r) faction_names && negb (keqb r target)
                      then Some (mu_zero r) else None).
  { intros r. unfold matchups_init. rewrite matchups_init_get. reflexivity. }
  split; [|split].
  - intros Hne.
    assert (Hr' : existsb (keqb race) faction_names = true).
    { apply existsb_exists. exists race. split; [assumption | apply keqb_refl]. }
    assert (Hrt : keqb race target = false) by (apply keqb_neq; assumption).
    destruct (dict_get (map_values mu_finish
                (acc_matchups (fold_left (matchups_step target) ms init))) race)
      as [mu|] eqn:Hget.
    + exists mu. split; [reflexivity|]. intros Hnone.
      rewrite dict_get_map_values in Hget.
      rewrite (matchups_fold_other target race ms init Hnone) in Hget.
      simpl in Hget. rewrite Hinit, Hr', Hrt in Hget. simpl in Hget.
      injection Hget as <-. reflexivity.
    + exfalso. apply (dict_get_keys_eq _ _ race Hkeys) in Hget.
      rewrite Hinit, Hr', Hrt in Hget. discriminate.
  - apply (dict_get_keys_eq _ _ target Hkeys).
    rewrite Hinit, keqb_refl, andb_false_r. reflexivity.
  - transitivity (List.length (dict_keys (matchups_init target))).
    + rewrite <- Hkeys. unfold dict_keys. rewrite length_map. reflexivity.
    + refine (faction_names_cases
                (fun t => List.length (dict_keys (matchups_init t)) = 8%nat)
                _ _ _ _ _ _ _ _ _ target Ht); reflexivity.
Qed.

Lemma race_matchups_table_witness :
  In (str "Chaos") faction_names /\
  In (str "Orks") faction_names /\
  let table :=
    rm_matchups (get_race_specific_matchups (str "Chaos") None None example_store) in
  (str "Orks" <> str "Chaos" ->
   exists mu,
     dict_get table (str "Orks") = Some mu /\
     (forallb (fun m => negb (between (str "Chaos") (str "Orks") m))
              (filter_matches_by_elo_range None None example_store) = true ->
      mu = mu_zero (str "Orks"))) /\
  dict_get table (str "Chaos") = None /\
  List.length table = 8%nat.
Proof.
  assert (H1 : In (str "Chaos") faction_names) by (left; reflexivity).
  assert (H2 : In (str "Orks") faction_names).
  { do 5 right. left. reflexivity. }
  split; [exact H1|]. split; [exact H2|].
  exact (race_matchups_table (str "Chaos") (str "Orks") None None example_store H1 H2).
Defined.

(** C4 as stated fails: the target race has no entry of its own in the
    table, whatever the store holds. *)
Lemma race_matchups_no_mirror_entry :
  ~ (forall (target race : pystr) (min_elo max_elo : option Z) (st : Store),
       In target faction_names ->
       In race faction_names ->
       dict_mem (rm_matchups (get_race_specific_matchups target min_elo max_elo st))
                race = true).
Proof.
  intros H.
  assert (Hc : In (str "Chaos") faction_names) by (left; reflexivity).
  specialize (H (str "Chaos") (str "Chaos") None None empty_store Hc Hc).
  vm_compute in H. discriminate.
Qed.

(* ------------------------------------------------------------------ *)
(** ** Loading the snapshot *)

(** A missing file, unparseable content and a document that is not an
    object all leave the store as it was: empty, at startup. *)
Lemma load_match_data_unreadable (st : Store) :
  load_match_data_from_file FileMissing st = st /\
  load_match_data_from_file FileUnparseable st = st /\
  load_match_data_from_file FileNotObject st = st.
Proof. repeat split. Qed.

Lemma from_dict_to_dict (m : MatchData) : from_dict (to_dict m) = Next m.
Proof. destruct m. reflexivity. Qed.

Lemma dict_set_fresh {V} (d : dict pystr V) (k : pystr) (v : V) :
  ~ In k (dict_keys d) -> dict_set d k v = d ++ [(k, v)].
Proof.
  induction d as [|[k' v'] d IH]; simpl; [reflexivity|].
  intros Hk. destruct (keqb k' k) eqn:E.
  - apply keqb_eq in E. subst. exfalso. apply Hk. left; reflexivity.
  - rewrite IH; [reflexivity|]. intros Hin. apply Hk. right; assumption.
Qed.

Lemma load_entries_all (d acc : dict pystr MatchData) :
  NoDup (dict_keys acc ++ dict_keys d) ->
  load_entries (map (fun kv => (fst kv, to_dict (snd kv))) d) acc = (acc ++ d, true).
Proof.
  revert acc. induction d as [|[k m] d IH]; intros acc Hnd;
    cbn [map load_entries fst snd].
  - rewrite app_nil_r. reflexivity.
  - rewrite from_dict_to_dict. simpl in Hnd.
    rewrite dict_set_fresh.
    + rewrite IH; [rewrite <- app_assoc; reflexivity|].
      unfold dict_keys in *. rewrite map_app, <- app_assoc. exact Hnd.
    + apply NoDup_remove_2 in Hnd. intros Hin. apply Hnd.
      apply in_or_app. left; assumption.
Qed.

Lemma set_add_all (ids acc : list pystr) :
  NoDup (acc ++ ids) -> fold_left set_add ids acc = acc ++ ids.
Proof.
  revert acc. induction ids as [|x ids IH]; intros acc Hnd; simpl.
  - rewrite app_nil_r. reflexivity.
  - unfold set_add at 2. destruct (set_mem acc x) eqn:E.
    + apply set_mem_In in E. apply NoDup_remove_2 in Hnd.
      exfalso. apply Hnd. apply in_or_app. left; assumption.
    + rewrite IH; rewrite <- app_assoc; [reflexivity | exact Hnd].
Qed.

(** The snapshot that [save_match_data_to_file] writes of a store loads
    back in full: the Match collection and the Processed-ID Set of the
    saved store replace the current ones. *)
Lemma load_match_data_snapshot (saved st : Store) :
  NoDup (dict_keys (stored_matches saved)) ->
  NoDup (processed_match_ids saved) ->
  let st' := load_match_data_from_file (snapshot_of saved) st in
  stored_matches st' = stored_matches saved /\
  processed_match_ids st' = processed_match_ids saved.
Proof.
  intros Hm Hp. unfold load_match_data_from_file, snapshot_of. simpl.
  rewrite (load_entries_all (stored_matches saved) []) by exact Hm.
  simpl. rewrite (set_add_all (processed_match_ids saved) []) by exact Hp.
  split; reflexivity.
Qed.

(** C6 fails on a partly malformed snapshot: of a file with one sound and
    one malformed entry, loaded into the empty store, the sound entry
    stays in the Match collection, which is then neither the full snapshot
    nor empty, and the Processed-ID Set stays empty. *)
Theorem load_match_data_partial :
  let st' := load_match_data_from_file partly_malformed_file empty_store in
  get_stored_match_count st' = 1 /\
  dict_keys (stored_matches st') = [str "4242"] /\
  processed_match_ids st' = [].
Proof. vm_compute. repeat split. Qed.

(* ------------------------------------------------------------------ *)
(** ** The bulk scanner *)

Lemma store_player_alias_io (steam_id alias : pystr) (st : Store) :
  io_log (snd (store_player_alias steam_id alias false st)) = io_log st.
Proof.
  unfold store_player_alias.
  destruct (_ || _ || _); [reflexivity|].
  destruct (match dict_get _ _ with Some _ => _ | None => _ end); reflexivity.
Qed.

Lemma fold_left_io {A} (f : Store -> A -> Store) (l : list A) (st : Store) :
  (forall s a, io_log (f s a) = io_log s) ->
  io_log (fold_left f l st) = io_log st.
Proof.
  intros Hf. revert st. induction l as [|a l IH]; intros st; simpl; [reflexivity|].
  rewrite IH. apply Hf.
Qed.

(** In batch mode [store_match_from_history] writes no snapshot. *)
Lemma store_match_batch_io (m : RawMatch) (profiles : list Profile) (st : Store) :
  io_log (snd (store_match_from_history m profiles true st)) = io_log st.
Proof.
  unfold store_match_from_history.
  destruct (normalize _ _ _) as [[md pds]| |]; try reflexivity.
  simpl. apply fold_left_io. intros s a. apply store_player_alias_io.
Qed.

Lemma fold_left_pair_io {A} (f : Z * Store -> A -> Z * Store) (l : list A)
    (acc : Z * Store) :
  (forall acc a, io_log (snd (f acc a)) = io_log (snd acc)) ->
  io_log (snd (fold_left f l acc)) = io_log (snd acc).
Proof.
  intros Hf. revert acc. induction l as [|a l IH]; intros acc; simpl; [reflexivity|].
  rewrite IH. apply Hf.
Qed.

Lemma batch_store_aliases_io (profiles : list Profile) (st : Store) :
  io_log (snd (batch_store_aliases_from_profiles profiles false st)) = io_log st.
Proof.
  unfold batch_store_aliases_from_profiles.
  match goal with
  | |- context [fold_left ?f profiles (0, st)] =>
      pose proof (fold_left_pair_io f profiles (0, st)) as H;
      destruct (fold_left f profiles (0, st)) as [n s]
  end.
  rewrite andb_false_r. simpl in *. apply H.
  intros [n' s'] p. simpl.
  destruct (startswith _ _); [|reflexivity].
  pose proof (store_player_alias_io
                (remove_all steam_prefix (get_or (profile_name p) []))
                (get_or (profile_alias p) (str "Unknown Player")) s') as Hs.
  destruct (store_player_alias _ _ false s') as [c s'']. exact Hs.
Qed.

(** In batch mode [extract_elos] writes no snapshot. *)
Lemma extract_elos_batch_io (up : Upstream) (steam_id : pystr) (tick : nat)
    (st : Store) :
  io_log (snd (extract_elos up steam_id true tick st)) = io_log st.
Proof.
  unfold extract_elos.
  destruct (fetch_match_history up tick steam_id) as [h|]; [|reflexivity].
  destruct (find_own_profile _ _) as [[pid alias]| |]; try reflexivity.
  destruct (truthy pid); [|reflexivity].
  pose proof (store_player_alias_io steam_id alias st) as H1.
  destruct (filter_1v1_matches _) as [[|m ms]| |]; try exact H1.
  match goal with
  | |- context [fold_left ?f (m :: ms) ?a] =>
      pose proof (fold_left_pair_io f (m :: ms) a) as H2;
      destruct (fold_left f (m :: ms) a) as [n s]
  end.
  simpl negb. simpl andb. cbv iota. simpl snd in *.
  rewrite batch_store_aliases_io, H2; [exact H1|].
  intros [n' s'] m'. simpl.
  pose proof (store_match_batch_io m' (get_or (h_profiles h) []) s') as H3.
  destruct (store_match_from_history m' _ true s') as [b s'']. exact H3.
Qed.

Lemma scan_stat_group_io (up : Upstream) (acc : Scan * Z) (sg : StatGroup) :
  io_log (sc_store (fst (scan_stat_group up acc sg))) = io_log (sc_store (fst acc)).
Proof.
  unfold scan_stat_group. destruct acc as [sc n].
  destruct (get_or (sg_members sg) []) as [|member rest]; [reflexivity|].
  destruct (negb (startswith _ _)); [reflexivity|].
  destruct (negb (validate_steamid _)); [reflexivity|].
  match goal with
  | |- context [extract_elos up ?id true ?t ?s] =>
      pose proof (extract_elos_batch_io up id t s) as H;
      destruct (extract_elos up id true t s) as [done st']
  end.
  destruct done; simpl in *; exact H.
Qed.

Lemma scan_stat_groups_io (up : Upstream) (sgs : list StatGroup) (acc : Scan * Z) :
  io_log (sc_store (fst (fold_left (scan_stat_group up) sgs acc)))
  = io_log (sc_store (fst acc)).
Proof.
  revert acc. induction sgs as [|sg sgs IH]; intros acc; simpl; [reflexivity|].
  rewrite IH. apply scan_stat_group_io.
Qed.

(** A page loop writes no snapshot. *)
Lemma scan_pages_io (fuel : nat) (up : Upstream) (cb : Callback) (lb_id start : Z)
    (acc acc' : Scan * Z) :
  scan_pages fuel up cb lb_id start acc = Some acc' ->
  io_log (sc_store (fst acc')) = io_log (sc_store (fst acc)).
Proof.
  revert start acc. induction fuel as [|fuel IH]; intros start [sc n]; simpl;
    [discriminate|].
  set (sc1 := {| sc_store := sc_store sc; sc_results := sc_results sc;
                 sc_requests := S (sc_requests sc); sc_reports := sc_reports sc |}).
  destruct (match fetch_leaderboard_data up (sc_requests sc) lb_id start 200 with
            | Some d => get_or (lb_statGroups d) []
            | None => []
            end) as [|sg sgs] eqn:Hsg.
  - intros [= <-]. reflexivity.
  - pose proof (scan_stat_groups_io up (sg :: sgs) (sc1, n)) as Hio.
    destruct (fold_left (scan_stat_group up) (sg :: sgs) (sc1, n)) as [sc2 n2].
    simpl in Hio. unfold report.
    destruct (negb (cb (sc_reports sc2))).
    + intros [= <-]. exact Hio.
    + destruct (Z.ltb _ 200).
      * intros [= <-]. exact Hio.
      * destruct (Z.ltb 1000 (start + 200)).
        -- intros [= <-]. exact Hio.
        -- intros H. apply IH in H. rewrite H. exact Hio.
Qed.

(** The page loop of a leaderboard ends within its fuel: five pages of 200
    reach the cap. *)
Lemma scan_pages_terminates (fuel : nat) (up : Upstream) (cb : Callback)
    (lb_id start : Z) (acc : Scan * Z) :
  1000 < start + 200 * Z.of_nat fuel ->
  start <= 1000 ->
  exists acc', scan_pages fuel up cb lb_id start acc = Some acc'.
Proof.
  revert start acc. induction fuel as [|fuel IH]; intros start [sc n] Hf Hs.
  - simpl in Hf. lia.
  - cbn [scan_pages].
    destruct (match fetch_leaderboard_data up (sc_requests sc) lb_id start 200 with
              | Some d => get_or (lb_statGroups d) []
              | None => []
              end) as [|sg sgs]; [eauto|].
    destruct (fold_left (scan_stat_group up) (sg :: sgs) _) as [sc2 n2].
    unfold report. destruct (negb (cb (sc_reports sc2))); [eauto|].
    destruct (Z.ltb _ 200); [eauto|].
    destruct (Z.ltb 1000 (start + 200)) eqn:E; [eauto|].
    apply Z.ltb_ge in E. apply IH; lia.
Qed.

Arguments scan_pages : simpl never.

Lemma scan_leaderboards_io (up : Upstream) (cb : Callback)
    (lbs : list (Z * pystr)) (sc : Scan) (c : completion) (sc' : Scan) :
  scan_leaderboards up cb lbs sc = Some (c, sc') ->
  io_log (sc_store sc') = io_log (sc_store sc).
Proof.
  revert sc. induction lbs as [|[lb_id name] lbs IH]; intros sc; simpl.
  - intros [= _ <-]. reflexivity.
  - unfold report. destruct (negb (cb (sc_reports sc))).
    + intros [= _ <-]. reflexivity.
    + match goal with
      | |- context [scan_pages page_fuel up cb lb_id 1 ?a] =>
          destruct (scan_pages page_fuel up cb lb_id 1 a) as [[sc2 n2]|] eqn:Hp;
            [|discriminate]
      end.
      apply scan_pages_io in Hp. simpl in Hp.
      intros H. apply IH in H. simpl in H. congruence.
Qed.

Lemma scan_leaderboards_terminates (up : Upstream) (cb : Callback)
    (lbs : list (Z * pystr)) (sc : Scan) :
  exists r, scan_leaderboards up cb lbs sc = Some r.
Proof.
  revert sc. induction lbs as [|[lb_id name] lbs IH]; intros sc; simpl; [eauto|].
  unfold report. destruct (negb (cb (sc_reports sc))); [eauto|].
  match goal with
  | |- context [scan_pages page_fuel up cb lb_id 1 ?a] =>
      destruct (scan_pages_terminates page_fuel up cb lb_id 1 a) as [[sc2 n2] ->];
        [unfold page_fuel; lia | lia |]
  end.
  apply IH.
Qed.

Arguments scan_leaderboards : simpl never.

(** Every call of [bulk_scan_for_matches] ends. *)
Lemma bulk_scan_terminates (up : Upstream) (cb : Callback) (st : Store) :
  exists r, bulk_scan_for_matches up cb st = Some r.
Proof.
  unfold bulk_scan_for_matches, bulk_scan_body, report. simpl.
  destruct (negb (cb O)); simpl.
  - destruct (cb 1%nat); eauto.
  - match goal with
    | |- context [scan_leaderboards up cb known_leaderboards ?s] =>
        destruct (scan_leaderboards_terminates up cb known_leaderboards s)
          as [[[|] sc] ->]
    end; simpl.
    + destruct (negb (cb (sc_reports sc))); simpl; [|eauto].
      destruct (cb (S (sc_reports sc))); eauto.
    + destruct (cb (sc_reports sc)); eauto.
Qed.

(** A scan that completes has called the match-data writer once, as its
    last action, and the alias writer not at all. *)
Lemma bulk_scan_completed_io (up : Upstream) (cb : Callback) (st st' : Store)
    (r : Results) :
  bulk_scan_for_matches up cb st = Some (Completed, r, st') ->
  io_log st' = io_log st ++ [SaveMatchData].
Proof.
  unfold bulk_scan_for_matches, bulk_scan_body, report. simpl.
  destruct (negb (cb O)); simpl.
  - destruct (cb 1%nat); discriminate.
  - match goal with
    | |- context [scan_leaderboards up cb known_leaderboards ?s] =>
        destruct (scan_leaderboards up cb known_leaderboards s)
          as [[[|] sc]|] eqn:Hs; simpl; try discriminate
    end.
    + apply scan_leaderboards_io in Hs. simpl in Hs.
      destruct (negb (cb (sc_reports sc))); simpl.
      * destruct (cb (S (sc_reports sc))); discriminate.
      * intros [= _ <-]. simpl. rewrite Hs. reflexivity.
    + destruct (cb (sc_reports sc)); discriminate.
Qed.

(** C5 fails for the alias directory: a scan that runs to its end over an
    upstream with one listed player changes the alias directory, calls the
    match-data writer once and never calls the alias writer. *)
Theorem bulk_scan_never_saves_aliases :
  exists (r : Results) (st' : Store),
    bulk_scan_for_matches example_upstream quiet_callback empty_store
    = Some (Completed, r, st') /\
    total_players_processed r = 1 /\
    total_matches_added r = 1 /\
    dict_keys (player_aliases st')
    = [str "76561198356992755"; str "76561198000000001"] /\
    io_log st' = [SaveMatchData] /\
    saves_of SaveMatchData (io_log st') = 1%nat /\
    saves_of SaveAliases (io_log st') = 0%nat.
Proof.
  eexists. eexists. split; [vm_compute; reflexivity|].
  vm_compute. repeat split.
Qed.

(* ------------------------------------------------------------------ *)
(** ** The top-ELO view *)

Lemma Forall_dict_set {K V} `{Key K} (P : V -> Prop) (d : dict K V) k v :
  Forall P (dict_values d) -> P v -> Forall P (dict_values (dict_set d k v)).
Proof.
  intros Hd Hv. induction d as [|[k' v'] d IH]; simpl.
  - constructor; [assumption | constructor].
  - inversion Hd as [|x l Hx Hl]; subst.
    destruct (keqb k' k); simpl; constructor; auto.
Qed.

Lemma rank_lookup_from (lb_id : Z) (stats0 stats : list LbStat)
    (d : dict Z RankInfo) :
  incl stats stats0 ->
  Forall (rank_info_from lb_id stats0) (dict_values d) ->
  Forall (rank_info_from lb_id stats0)
         (dict_values (fold_left (rank_lookup_step lb_id) stats d)).
Proof.
  revert d. induction stats as [|stat stats IH]; intros d Hincl Hd; simpl;
    [exact Hd|].
  apply IH; [intros x Hx; apply Hincl; right; exact Hx|].
  unfold rank_lookup_step.
  destruct (stat_leaderboard_id stat) as [id|] eqn:Hid; [|exact Hd].
  destruct (Z.eqb id lb_id) eqn:E; [|exact Hd].
  apply Z.eqb_eq in E. subst id.
  destruct (truthy (stat_statgroup_id stat)) as [statgroup_id|]; [|exact Hd].
  apply Forall_dict_set; [exact Hd|].
  exists stat. simpl. split; [apply Hincl; left; reflexivity|].
  repeat split; auto.
Qed.

Lemma topelo_step_ok (up : Upstream) (tick : nat) (lb_id : Z)
    (faction_name name : pystr) (lb_data : LbData) (min_games : Z)
    (player_lookup : dict Z PlayerInfo) (acc : TopAcc) (item : Z * RankInfo) :
  In (tick, (lb_id, name)) (enumerate known_leaderboards) ->
  fetch_leaderboard_data up tick lb_id 1 100 = Some lb_data ->
  rank_info_from lb_id (get_or (lb_leaderboardStats lb_data) []) (snd item) ->
  Forall (fun e => topelo_entry_ok min_games e /\ topelo_entry_from up e)
         (dict_values (all_players acc)) ->
  Forall (fun e => topelo_entry_ok min_games e /\ topelo_entry_from up e)
         (dict_values (all_players
            (topelo_step lb_id faction_name min_games player_lookup acc item))).
Proof.
  intros Hlb Hfetch Hfrom Hacc. unfold topelo_step.
  destruct item as [statgroup_id rank_info]. cbn [snd] in Hfrom.
  destruct (dict_get player_lookup statgroup_id) as [player_info|]; [|assumption].
  destruct (ri_rank rank_info) as [rank|] eqn:Hrk; [|assumption].
  destruct (Z.leb rank 0 || Z.ltb 100 rank) eqn:Hrank; [assumption|].
  destruct (Z.ltb _ min_games) eqn:Hgames; [assumption|].
  apply orb_false_iff in Hrank. destruct Hrank as [Hlo Hhi].
  apply Z.leb_gt in Hlo. apply Z.ltb_ge in Hhi, Hgames.
  match goal with
  | |- context [dict_set (all_players acc) ?k ?v] =>
      assert (Hnew : Forall (fun e => topelo_entry_ok min_games e /\
                                      topelo_entry_from up e)
                       (dict_values (dict_set (all_players acc) k v)))
  end.
  { apply Forall_dict_set; [assumption|].
    assert (Hpos : Z.ltb 0 rank = true) by (apply Z.ltb_lt; lia).
    split.
    - unfold topelo_entry_ok; simpl.
      rewrite Hpos. split; [exists rank; split; [reflexivity | lia]|].
      split; [assumption|]. split; [reflexivity | lia].
    - destruct Hfrom as (stat & Hin & Hid & Srk & Srt & Sw & Sl & Sd).
      unfold topelo_entry_from. cbn [tp_faction_id tp_rank tp_rating tp_wins tp_losses].
      exists tick, name, lb_data, stat. rewrite Hpos.
      split; [exact Hlb|]. split; [exact Hfetch|]. split; [exact Hin|].
      split; [exact Hid|]. split; [congruence|]. split; [exact Srt|].
      split; [exact Sw|]. rewrite Sl, Sd. reflexivity. }
  simpl. destruct (dict_get (all_players acc) (pi_steamid player_info)) as [old|];
    [destruct (Z.ltb (tp_rating old) (ri_rating rank_info))|]; assumption.
Qed.

Lemma topelo_leaderboard_ok (up : Upstream) (min_games : Z) (acc : TopAcc)
    (tick_lb : nat * (Z * pystr)) :
  In tick_lb (enumerate known_leaderboards) ->
  Forall (fun e => topelo_entry_ok min_games e /\ topelo_entry_from up e)
         (dict_values (all_players acc)) ->
  Forall (fun e => topelo_entry_ok min_games e /\ topelo_entry_from up e)
         (dict_values (all_players (topelo_leaderboard up min_games acc tick_lb))).
Proof.
  intros Hlb Hacc. unfold topelo_leaderboard. destruct tick_lb as [tick [lb_id name]].
  destruct (fetch_leaderboard_data up tick lb_id 1 100) as [lb_data|] eqn:Hfetch;
    [|assumption].
  destruct (get_or (lb_leaderboardStats lb_data) []) as [|s stats] eqn:Hstats;
    [assumption|].
  destruct (get_or (lb_statGroups lb_data) []) as [|g groups]; [assumption|].
  pose proof (rank_lookup_from lb_id (s :: stats) (s :: stats) []
                (incl_refl _) (Forall_nil _)) as Hrl.
  revert Hrl. generalize (fold_left (rank_lookup_step lb_id) (s :: stats) []).
  intros rank_lookup Hrl. revert acc Hacc.
  induction rank_lookup as [|item items IH]; intros acc Hacc; simpl; [assumption|].
  unfold dict_values in Hrl. simpl in Hrl.
  inversion Hrl as [|? ? Hitem Hitems]; subst.
  apply IH; [exact Hitems|].
  apply (topelo_step_ok up tick lb_id _ name lb_data); try assumption.
  rewrite Hstats. exact Hitem.
Qed.

Lemma mark_leader_ok (up : Upstream) (leaders : dict pystr (list Z))
    (min_games : Z) (p : TopPlayer) :
  topelo_entry_ok min_games p /\ topelo_entry_from up p ->
  topelo_entry_ok min_games (mark_leader leaders p) /\
  topelo_entry_from up (mark_leader leaders p).
Proof.
  unfold mark_leader, topelo_entry_ok, topelo_entry_from.
  destruct (dict_get leaders (tp_steam_id p)); simpl; tauto.
Qed.

Lemma Forall_insert_desc {A} (P : A -> Prop) (key : A -> Z) (x : A) (l : list A) :
  P x -> Forall P l -> Forall P (insert_desc key x l).
Proof.
  intros Hx Hl. induction Hl as [|y l Hy Hl IH]; simpl.
  - constructor; [assumption | constructor].
  - destruct (Z.leb (key y) (key x)); repeat constructor; assumption.
Qed.

Lemma Forall_sort_desc {A} (P : A -> Prop) (key : A -> Z) (l : list A) :
  Forall P l -> Forall P (sort_desc key l).
Proof.
  intros Hl. induction Hl as [|x l Hx Hl IH]; simpl; [constructor|].
  apply Forall_insert_desc; assumption.
Qed.

Lemma Forall_firstn {A} (P : A -> Prop) (n : nat) (l : list A) :
  Forall P l -> Forall P (firstn n l).
Proof.
  intros Hl. revert n. induction Hl as [|x l Hx Hl IH]; intros [|n]; simpl;
    constructor; auto.
Qed.

Lemma Forall_slice_to {A} (P : A -> Prop) (l : list A) (limit : Z) :
  Forall P l -> Forall P (slice_to l limit).
Proof.
  intros Hl. unfold slice_to. destruct (Z.leb 0 limit); apply Forall_firstn; assumption.
Qed.

(** C10: whatever the upstream answers and whatever [min_games] is, every
    entry [topelo] returns has a rank from 1 to 100 and at least
    [min_games] effective games; and it was made from a stat that the
    upstream reported on the entry's leaderboard, with that stat's rank,
    rating and wins, and with its losses less its drops, cut off at zero,
    as the entry's losses. *)
Theorem topelo_entries_ranked (up : Upstream) (limit min_games : Z) :
  Forall (fun e => topelo_entry_ok min_games e /\ topelo_entry_from up e)
         (topelo up limit min_games).
Proof.
  unfold topelo. apply Forall_slice_to, Forall_sort_desc.
  assert (H : forall lbs acc,
             incl lbs (enumerate known_leaderboards) ->
             Forall (fun e => topelo_entry_ok min_games e /\ topelo_entry_from up e)
                    (dict_values (all_players acc)) ->
             Forall (fun e => topelo_entry_ok min_games e /\ topelo_entry_from up e)
               (dict_values (all_players
                  (fold_left (topelo_leaderboard up min_games) lbs acc)))).
  { induction lbs as [|lb lbs IH]; intros acc Hincl Hacc; simpl; [assumption|].
    apply IH; [intros x Hx; apply Hincl; right; exact Hx|].
    apply topelo_leaderboard_ok; [apply Hincl; left; reflexivity | exact Hacc]. }
  specialize (H (enumerate known_leaderboards)
                {| all_players := []; faction_leaders := [] |}
                (incl_refl _) (Forall_nil _)).
  revert H. generalize (fold_left (topelo_leaderboard up min_games)
                          (enumerate known_leaderboards)
                          {| all_players := []; faction_leaders := [] |}).
  intros acc H. unfold dict_values in *.
  rewrite Forall_map in *. rewrite Forall_map.
  eapply Forall_impl; [|exact H]. intros [k p]. simpl. apply mark_leader_ok.
Qed.

(** On the example ladder the entry of the player of rank 1 shows 10
    losses: the 15 reported less the 5 drops. *)
Example topelo_losses_example :
  map (fun e => (tp_wins e, tp_losses e, tp_total_games e))
      (topelo example_ladder 50 10)
  = [(20, 10, 30)].
Proof. vm_compute. reflexivity. Qed.

(** On the example ladder, with [min_games = 10], the view keeps the player
    of rank 1 (once, under the faction of the highest rating) and drops the
    player of rank 150 and the player with three games. *)
Example topelo_example :
  map (fun e => (tp_alias e, tp_rank e, tp_total_games e, tp_faction_id e,
                 tp_is_faction_leader e))
      (topelo example_ladder 50 10)
  = [(str "Alpha", Some 1, 30, 9, true)].
Proof. vm_compute. reflexivity. Qed.

(* ------------------------------------------------------------------ *)
(** ** Win rates *)

Lemma percentage_bounds (wins total : Z) :
  0 <= wins <= total -> 0 < total ->
  (0 <= percentage wins total)%Q /\ (percentage wins total <= 100)%Q.
Proof.
  intros Hw Ht. unfold percentage.
  destruct total as [|p|p]; try lia.
  unfold Qle, Qdiv, Qmult, Qinv, inject_Z. simpl. split; nia.
Qed.

Lemma fold_left_preserves {A B} (I : A -> Prop) (f : A -> B -> A) (l : list B) (a : A) :
  (forall a b, I a -> I (f a b)) -> I a -> I (fold_left f l a).
Proof.
  intros Hf. revert a. induction l as [|b l IH]; intros a Ha; simpl; auto.
Qed.

Lemma Forall_dict_update {K V} `{Key K} (P : V -> Prop) (d : dict K V) k f :
  (forall v, P v -> P (f v)) ->
  Forall P (dict_values d) -> Forall P (dict_values (dict_update d k f)).
Proof.
  intros Hf Hd. induction d as [|[k' v'] d IH]; simpl; [constructor|].
  inversion Hd as [|x l Hx Hl]; subst.
  destruct (keqb k' k); simpl; constructor; auto.
Qed.

Lemma Forall_map_values {K A B} (P : A -> Prop) (R : B -> Prop) (f : A -> B)
    (d : dict K A) :
  (forall a, P a -> R (f a)) ->
  Forall P (dict_values d) -> Forall R (dict_values (map_values f d)).
Proof.
  intros Hf. unfold dict_values, map_values. rewrite map_map, !Forall_map. simpl.
  apply Forall_impl. intros [k a]. simpl. apply Hf.
Qed.

(** *** Per-map race statistics *)

Lemma rs_finish_ok (s : RaceStat) :
  rs_counted s -> winrate_ok (rs_winrate (rs_finish s)) (rs_total_games (rs_finish s)).
Proof.
  intros [Hw Hr]. unfold rs_finish, winrate_ok.
  destruct (Z.ltb 0 (rs_total_games s)) eqn:E; simpl.
  - apply Z.ltb_lt in E. destruct (percentage_bounds _ _ Hw E). repeat split; auto. lia.
  - rewrite Hr. repeat split; auto; unfold Qle; simpl; lia.
Qed.

Lemma map_race_stats_ok (target_map : pystr) (min_elo max_elo : option Z) (st : Store) :
  Forall (fun s => winrate_ok (rs_winrate s) (rs_total_games s))
    (dict_values (ms_race_stats (get_map_race_statistics target_map min_elo max_elo st))).
Proof.
  unfold get_map_race_statistics.
  set (init := fold_left (fun d race => dict_set d race rs_zero) (dict_values FACTIONS) []).
  assert (Hinit : Forall rs_counted (dict_values init)).
  { unfold init. apply fold_left_preserves; [|constructor].
    intros d race Hd. apply Forall_dict_set; [assumption|].
    unfold rs_counted; simpl. split; [lia | reflexivity]. }
  assert (Hfold : Forall rs_counted
            (dict_values (snd (fold_left (map_stats_step target_map)
                                 (filter_matches_by_elo_range min_elo max_elo st)
                                 (0, init))))).
  { apply (fold_left_preserves (fun acc => Forall rs_counted (dict_values (snd acc))));
      [|exact Hinit].
    intros [total d] m Hd. unfold map_stats_step. simpl in Hd.
    destruct (keqb (map_name m) target_map); [|exact Hd]. simpl.
    apply Forall_dict_update.
    { intros v [Hv Hr]. unfold rs_counted; simpl. split; [lia | assumption]. }
    apply Forall_dict_update; [|assumption].
    intros v [Hv Hr]. unfold rs_counted; simpl. split; [lia | assumption]. }
  destruct (fold_left (map_stats_step target_map) _ _) as [total d]. simpl in *.
  eapply Forall_map_values; [|exact Hfold]. apply rs_finish_ok.
Qed.

(** *** Per-race matchup table *)

Lemma mu_finish_ok (s : Matchup) :
  mu_counted s -> winrate_ok (mu_winrate (mu_finish s)) (mu_total (mu_finish s)).
Proof.
  intros [Hw Hr]. unfold mu_finish, winrate_ok.
  destruct (Z.ltb 0 (mu_total s)) eqn:E; simpl.
  - apply Z.ltb_lt in E. destruct (percentage_bounds _ _ Hw E). repeat split; auto. lia.
  - rewrite Hr. repeat split; auto; unfold Qle; simpl; lia.
Qed.

Lemma matchups_step_counted (target : pystr) (acc : MatchupAcc) (m : MatchData) :
  acc_counted acc -> acc_counted (matchups_step target acc m).
Proof.
  intros [Hw Hd]. unfold matchups_step.
  destruct (keqb target (player1_race m) || keqb target (player2_race m));
    [|split; assumption].
  destruct (dict_mem _ _); unfold acc_counted; simpl.
  - split; [destruct (keqb (winner_race m) target); lia|].
    apply Forall_dict_update; [|assumption].
    intros v [Hv Hr]. unfold mu_counted, mu_add; simpl.
    split; [destruct (keqb (winner_race m) target); lia | assumption].
  - split; [lia | assumption].
Qed.

Lemma race_matchups_ok (target : pystr) (min_elo max_elo : option Z) (st : Store) :
  let r := get_race_specific_matchups target min_elo max_elo st in
  winrate_ok (rm_overall_winrate r) (rm_total_matches r) /\
  Forall (fun s => winrate_ok (mu_winrate s) (mu_total s)) (dict_values (rm_matchups r)).
Proof.
  unfold get_race_specific_matchups.
  match goal with
  | |- context [fold_left (matchups_step target) ?ms ?init] =>
      assert (Hacc : acc_counted (fold_left (matchups_step target) ms init));
        [|destruct (fold_left (matchups_step target) ms init) as [tm tw tl d]]
  end.
  { apply fold_left_preserves; [intros; apply matchups_step_counted; assumption|].
    unfold acc_counted; simpl. split; [lia|].
    unfold matchups_init. apply fold_left_preserves; [|constructor].
    intros d race Hd. destruct (negb (keqb race target)); [|assumption].
    apply Forall_dict_set; [assumption|].
    unfold mu_counted; simpl. split; [lia | reflexivity]. }
  destruct Hacc as [Hw Hd]. simpl in *. split.
  - unfold winrate_ok. destruct (Z.ltb 0 tm) eqn:E.
    + apply Z.ltb_lt in E. destruct (percentage_bounds _ _ Hw E). repeat split; auto. lia.
    + repeat split; unfold Qle; simpl; lia.
  - eapply Forall_map_values; [|exact Hd]. apply mu_finish_ok.
Qed.

(** *** Global matchup matrix *)

Lemma ps_finish_ok (s : PairStat) :
  ps_counted s ->
  winrate_ok (ps_race1_winrate (ps_finish s)) (ps_total_matches (ps_finish s)) /\
  winrate_ok (ps_race2_winrate (ps_finish s)) (ps_total_matches (ps_finish s)).
Proof.
  intros (H1 & H2 & Hr1 & Hr2). unfold ps_finish, winrate_ok.
  destruct (Z.ltb 0 (ps_total_matches s)) eqn:E; simpl.
  - apply Z.ltb_lt in E.
    destruct (percentage_bounds _ _ H1 E). destruct (percentage_bounds _ _ H2 E).
    repeat split; auto; lia.
  - rewrite Hr1, Hr2. repeat split; auto; unfold Qle; simpl; lia.
Qed.

Lemma ps_count_counted (m : MatchData) (s : PairStat) :
  ps_counted s -> ps_counted (ps_count m s).
Proof.
  intros (H1 & H2 & Hr1 & Hr2). unfold ps_count.
  repeat match goal with |- context [if ?c then _ else _] => destruct c end;
    unfold ps_counted, ps_bump; simpl; repeat split; auto; lia.
Qed.

Lemma all_matchups_init_counted (elo_range : pystr) :
  Forall ps_counted (dict_values (all_matchups_init elo_range)).
Proof.
  unfold all_matchups_init.
  apply fold_left_preserves; [|constructor]. intros d ir1 Hd.
  apply fold_left_preserves; [|assumption]. intros d' jr2 Hd'.
  destruct (Nat.leb (fst ir1) (fst jr2)); [|assumption].
  apply Forall_dict_set; [assumption|].
  unfold ps_counted, ps_zero; simpl. repeat split; lia.
Qed.

Lemma all_matchups_ok (min_elo max_elo : option Z) (st : Store) :
  Forall (fun s => winrate_ok (ps_race1_winrate s) (ps_total_matches s) /\
                   winrate_ok (ps_race2_winrate s) (ps_total_matches s))
    (dict_values (get_all_race_matchups min_elo max_elo st)).
Proof.
  unfold get_all_race_matchups.
  eapply Forall_map_values; [apply ps_finish_ok|].
  apply fold_left_preserves; [|apply all_matchups_init_counted].
  intros d m Hd. unfold all_matchups_step.
  apply Forall_dict_update; [apply ps_count_counted | assumption].
Qed.

(** *** Leaderboard stat processing *)

Lemma leaderboard_stats_ok (stats : list LbStat) :
  Forall (fun s => 0 <= get_or (stat_wins s) 0) stats ->
  Forall (fun e => winrate_ok (fe_winrate e) (fe_total_games e))
    (dict_values (process_leaderboard_stats stats)).
Proof.
  intros Hs. unfold process_leaderboard_stats.
  assert (G : forall d,
             Forall (fun e => winrate_ok (fe_winrate e) (fe_total_games e))
                    (dict_values d) ->
             Forall (fun e => winrate_ok (fe_winrate e) (fe_total_games e))
                    (dict_values (fold_left leaderboard_step stats d))).
  { induction Hs as [|s stats Hw Hs IH]; intros d Hd; simpl; [assumption|].
    apply IH. unfold leaderboard_step.
    destruct (stat_leaderboard_id s) as [id|]; [|assumption].
    destruct (dict_get FACTIONS id) as [name|]; [|assumption].
    apply Forall_dict_set; [assumption|]. simpl. unfold winrate_ok.
    destruct (Z.ltb 0 _) eqn:E.
    - apply Z.ltb_lt in E.
      destruct (percentage_bounds (get_or (stat_wins s) 0)
                  (get_or (stat_wins s) 0
                   + Z.max (get_or (stat_losses s) 0 - get_or (stat_drops s) 0) 0));
        [lia | assumption |].
      repeat split; auto. lia.
    - repeat split; unfold Qle; simpl; lia. }
  apply G. constructor.
Qed.

(** C7, as the code has it: the win rates of the per-map race statistics,
    of the per-race matchup table (overall and per opponent) and of the
    global matchup matrix lie in [0, 100] and are exactly 0 over zero
    games, for every store and range; so do the win rates of
    [process_leaderboard_stats] when the reported win counts are not
    negative. *)
Theorem winrates_in_range (st : Store) (min_elo max_elo : option Z)
    (target_map target_race : pystr) (stats : list LbStat) :
  Forall (fun s => 0 <= get_or (stat_wins s) 0) stats ->
  Forall (fun s => winrate_ok (rs_winrate s) (rs_total_games s))
    (dict_values (ms_race_stats
       (get_map_race_statistics target_map min_elo max_elo st))) /\
  (let r := get_race_specific_matchups target_race min_elo max_elo st in
   winrate_ok (rm_overall_winrate r) (rm_total_matches r) /\
   Forall (fun s => winrate_ok (mu_winrate s) (mu_total s))
          (dict_values (rm_matchups r))) /\
  Forall (fun s => winrate_ok (ps_race1_winrate s) (ps_total_matches s) /\
                   winrate_ok (ps_race2_winrate s) (ps_total_matches s))
    (dict_values (get_all_race_matchups min_elo max_elo st)) /\
  Forall (fun e => winrate_ok (fe_winrate e) (fe_total_games e))
    (dict_values (process_leaderboard_stats stats)).
Proof.
  intros Hs. split; [apply map_race_stats_ok|].
  split; [apply race_matchups_ok|].
  split; [apply all_matchups_ok | apply leaderboard_stats_ok, Hs].
Qed.

Lemma winrates_in_range_witness :
  Forall (fun s => 0 <= get_or (stat_wins s) 0) [chaos_stat 20 15 5] /\
  Forall (fun s => winrate_ok (rs_winrate s) (rs_total_games s))
    (dict_values (ms_race_stats
       (get_map_race_statistics (str "2p_battle_marshes") None None example_store))) /\
  (let r := get_race_specific_matchups (str "Chaos") None None example_store in
   winrate_ok (rm_overall_winrate r) (rm_total_matches r) /\
   Forall (fun s => winrate_ok (mu_winrate s) (mu_total s))
          (dict_values (rm_matchups r))) /\
  Forall (fun s => winrate_ok (ps_race1_winrate s) (ps_total_matches s) /\
                   winrate_ok (ps_race2_winrate s) (ps_total_matches s))
    (dict_values (get_all_race_matchups None None example_store)) /\
  Forall (fun e => winrate_ok (fe_winrate e) (fe_total_games e))
    (dict_values (process_leaderboard_stats [chaos_stat 20 15 5])).
Proof.
  assert (H : Forall (fun s => 0 <= get_or (stat_wins s) 0) [chaos_stat 20 15 5]).
  { constructor; [simpl; lia | constructor]. }
  split; [exact H|].
  exact (winrates_in_range example_store None None (str "2p_battle_marshes")
           (str "Chaos") [chaos_stat 20 15 5] H).
Defined.

(** The win rates of the examples: Chaos won the one stored match, against
    Orks; 20 wins, 15 losses and 5 drops make 20 of 30 games. *)
Example winrate_examples :
  option_map rs_winrate
    (dict_get (ms_race_stats (get_map_race_statistics (str "2p_battle_marshes")
                                None None example_store)) (str "Chaos"))
  = Some (percentage 1 1) /\
  Qeq (percentage 1 1) 100 /\
  option_map (fun e => Qred (fe_winrate e))
    (dict_get (process_leaderboard_stats [chaos_stat 20 15 5]) 1)
  = Some (200 # 3)%Q.
Proof. vm_compute. repeat split. Qed.

(** C7 as stated fails for [process_leaderboard_stats]: a stat reporting
    -1 wins and 3 losses gives a win rate of -50. *)
Lemma leaderboard_winrate_negative :
  ~ (forall stats : list LbStat,
       Forall (fun e => winrate_ok (fe_winrate e) (fe_total_games e))
              (dict_values (process_leaderboard_stats stats))).
Proof.
  intros H. specialize (H [chaos_stat (-1) 3 0]).
  inversion H as [|e l [H0 _] _]; subst.
  vm_compute in H0. apply H0. reflexivity.
Qed.

(* ------------------------------------------------------------------ *)
(** ** The global matchup matrix *)

(** *** The order on strings *)

Lemma pystr_ltb_irrefl (a : pystr) : pystr_ltb a a = false.
Proof.
  induction a as [|x a IH]; simpl; [reflexivity|].
  rewrite N.ltb_irrefl, N.eqb_refl. exact IH.
Qed.

Lemma pystr_ltb_asym (a b : pystr) : pystr_ltb a b = true -> pystr_ltb b a = false.
Proof.
  revert b. induction a as [|x a IH]; intros [|y b]; simpl; try congruence.
  destruct (N.ltb x y) eqn:Hxy.
  - intros _. apply N.ltb_lt in Hxy.
    assert (E1 : N.ltb y x = false) by (apply N.ltb_ge; lia).
    assert (E2 : N.eqb y x = false) by (apply N.eqb_neq; lia).
    rewrite E1, E2. reflexivity.
  - destruct (N.eqb x y) eqn:Exy; [|discriminate].
    apply N.eqb_eq in Exy. subst y.
    rewrite N.ltb_irrefl, N.eqb_refl. apply IH.
Qed.

Lemma pystr_ltb_total (a b : pystr) :
  a <> b -> pystr_ltb a b = false -> pystr_ltb b a = true.
Proof.
  revert b. induction a as [|x a IH]; intros [|y b]; simpl; try congruence.
  intros Hne. destruct (N.ltb x y) eqn:Hxy; [discriminate|].
  apply N.ltb_ge in Hxy.
  destruct (N.eqb x y) eqn:Exy.
  - apply N.eqb_eq in Exy. subst y. rewrite N.ltb_irrefl, N.eqb_refl.
    apply IH. congruence.
  - intros _. apply N.eqb_neq in Exy.
    assert (E1 : N.ltb y x = true) by (apply N.ltb_lt; lia).
    rewrite E1. reflexivity.
Qed.

(** [sorted] puts two distinct strings in one order, whichever way round
    they come. *)
Lemma sorted2_swap (a b : pystr) : a <> b -> sorted2 a b = sorted2 b a.
Proof.
  intros Hne. unfold sorted2.
  destruct (pystr_ltb b a) eqn:Hba.
  - rewrite (pystr_ltb_asym _ _ Hba). reflexivity.
  - rewrite (pystr_ltb_total b a); [reflexivity | congruence | assumption].
Qed.

Lemma sorted2_cases (a b : pystr) :
  sorted2 a b = (a, b) \/ sorted2 a b = (b, a).
Proof. unfold sorted2. destruct (pystr_ltb b a); auto. Qed.

Lemma sorted2_same (a : pystr) : sorted2 a a = (a, a).
Proof. unfold sorted2. rewrite pystr_ltb_irrefl. reflexivity. Qed.

(** *** The keys *)

Lemma split_at_unique {A} (c : A) (x y lo hi : list A) :
  ~ In c lo -> ~ In c hi ->
  x ++ c :: y = lo ++ c :: hi -> x = lo /\ y = hi.
Proof.
  intros Hlo Hhi. revert lo Hlo. induction x as [|a x IH]; intros [|b lo] Hlo; simpl.
  - intros [= ->]. auto.
  - intros [= -> _]. exfalso. apply Hlo. left; reflexivity.
  - intros [= -> <-]. exfalso. apply Hhi. apply in_or_app. right; left; reflexivity.
  - intros [= -> E]. destruct (IH lo) as [-> ->]; auto.
    intros Hc. apply Hlo. right; assumption.
Qed.

(** No faction name has a [v] in it. *)
Lemma faction_names_no_v (race : pystr) :
  In race faction_names -> ~ In 118%N race.
Proof.
  intros Hin.
  assert (H : forallb (fun c => negb (N.eqb c 118)) race = true).
  { revert race Hin. apply faction_names_cases; reflexivity. }
  rewrite forallb_forall in H. intros Hc. specialize (H _ Hc).
  rewrite N.eqb_refl in H. discriminate.
Qed.

(** The key of a pair of faction names belongs to that pair alone. *)
Lemma matchup_key_inj (x y lo hi : pystr) :
  In lo faction_names -> In hi faction_names ->
  matchup_key x y = matchup_key lo hi -> x = lo /\ y = hi.
Proof.
  intros Hlo Hhi. unfold matchup_key.
  change (str " vs ") with ([32; 118; 115; 32]%N).
  change (x ++ [32; 118; 115; 32]%N ++ y)
    with (x ++ [32%N] ++ 118%N :: [115; 32]%N ++ y).
  change (lo ++ [32; 118; 115; 32]%N ++ hi)
    with (lo ++ [32%N] ++ 118%N :: [115; 32]%N ++ hi).
  rewrite !app_assoc. intros E.
  apply split_at_unique in E.
  - destruct E as [E1 E2]. apply app_inj_tail in E1. destruct E1 as [-> _].
    injection E2 as ->. auto.
  - intros Hc. apply in_app_or in Hc. destruct Hc as [Hc|[Hc|[]]].
    + exact (faction_names_no_v lo Hlo Hc).
    + discriminate.
  - intros [Hc|[Hc|Hc]]; try discriminate.
    exact (faction_names_no_v hi Hhi Hc).
Qed.

(** The matches counted under the key of the ordered pair of two faction
    names are the matches between the two, in either slot order. *)
Lemma key_of_match_between (a b : pystr) (m : MatchData) :
  In a faction_names -> In b faction_names ->
  keqb (key_of_match m) (matchup_key (fst (sorted2 a b)) (snd (sorted2 a b)))
  = between a b m.
Proof.
  intros Ha Hb.
  assert (Hlo : In (fst (sorted2 a b)) faction_names)
    by (destruct (sorted2_cases a b) as [-> | ->]; assumption).
  assert (Hhi : In (snd (sorted2 a b)) faction_names)
    by (destruct (sorted2_cases a b) as [-> | ->]; assumption).
  destruct (between a b m) eqn:Hbt.
  - apply keqb_eq. unfold between in Hbt. unfold key_of_match.
    apply orb_true_iff in Hbt.
    destruct Hbt as [Hbt|Hbt]; apply andb_true_iff in Hbt; destruct Hbt as [H1 H2];
      apply keqb_eq in H1, H2; rewrite H1, H2.
    + destruct (keqb a b) eqn:Eab.
      * apply keqb_eq in Eab. rewrite <- Eab, sorted2_same. reflexivity.
      * destruct (sorted2 a b); reflexivity.
    + destruct (keqb b a) eqn:Eba.
      * apply keqb_eq in Eba. rewrite Eba, sorted2_same. reflexivity.
      * apply keqb_neq in Eba. rewrite (sorted2_swap b a Eba).
        destruct (sorted2 a b); reflexivity.
  - apply keqb_neq. intros E. unfold key_of_match in E.
    assert (Hp : (player1_race m = fst (sorted2 a b) /\
                  player2_race m = snd (sorted2 a b)) \/
                 (player2_race m = fst (sorted2 a b) /\
                  player1_race m = snd (sorted2 a b))).
    { destruct (keqb (player1_race m) (player2_race m)).
      - left. apply (matchup_key_inj _ _ _ _ Hlo Hhi E).
      - destruct (sorted2_cases (player1_race m) (player2_race m)) as [Hs|Hs];
          rewrite Hs in E; apply (matchup_key_inj _ _ _ _ Hlo Hhi) in E; auto. }
    unfold between in Hbt. apply orb_false_iff in Hbt. destruct Hbt as [Hb1 Hb2].
    apply andb_false_iff in Hb1, Hb2.
    assert (Ra : keqb a a = true) by apply keqb_refl.
    assert (Rb : keqb b b = true) by apply keqb_refl.
    destruct (sorted2_cases a b) as [Hs|Hs]; rewrite Hs in Hp; simpl in Hp;
      destruct Hp as [[E1 E2]|[E1 E2]];
      rewrite E1, E2 in Hb1, Hb2; destruct Hb1, Hb2; congruence.
Qed.

(** *** The counters *)

Lemma ps_count_under_eq (k : pystr) (s : PairStat) (m : MatchData) :
  ps_count_under k s m = if keqb (key_of_match m) k then ps_count m s else s.
Proof. reflexivity. Qed.

Lemma all_matchups_fold_get (ms : list MatchData) (d : dict pystr PairStat)
    (k : pystr) :
  dict_get (fold_left all_matchups_step ms d) k
  = option_map (fun s => fold_left (ps_count_under k) ms s) (dict_get d k).
Proof.
  revert d. induction ms as [|m ms IH]; intros d; cbn [fold_left].
  - destruct (dict_get d k); reflexivity.
  - rewrite IH. unfold all_matchups_step.
    destruct (keqb (key_of_match m) k) eqn:E.
    + assert (E' : key_of_match m = k) by (apply keqb_eq; assumption).
      rewrite E', dict_get_update_same.
      destruct (dict_get d k) as [s|]; [|reflexivity].
      simpl. rewrite ps_count_under_eq, E' , keqb_refl. reflexivity.
    + assert (E' : key_of_match m <> k) by (apply keqb_neq; assumption).
      rewrite dict_get_update_other by assumption.
      destruct (dict_get d k) as [s|]; [|reflexivity].
      simpl. rewrite ps_count_under_eq, E. reflexivity.
Qed.

Lemma count_matches_cons (p : MatchData -> bool) (m : MatchData)
    (ms : list MatchData) :
  count_matches p (m :: ms) = (if p m then 1 else 0) + count_matches p ms.
Proof.
  unfold count_matches. cbn [filter]. destruct (p m); cbn [List.length]; lia.
Qed.

(** Case analysis on every comparison of keys in the goal. *)
Ltac keqb_cases :=
  repeat match goal with
  | |- context [keqb ?x ?y] =>
      let E := fresh "E" in
      destruct (keqb x y) eqn:E;
      [apply keqb_eq in E | apply keqb_neq in E]
  end.

(** One match between [lo] and [hi] adds a game to their entry, and a win
    to the side of the winner's race. *)
Lemma ps_count_between (lo hi : pystr) (m : MatchData) (s : PairStat) :
  ps_race1 s = lo ->
  (player1_race m = lo /\ player2_race m = hi) \/
  (player1_race m = hi /\ player2_race m = lo) ->
  ps_race1 (ps_count m s) = lo /\
  ps_race2 (ps_count m s) = ps_race2 s /\
  ps_total_matches (ps_count m s) = ps_total_matches s + 1 /\
  ps_race1_wins (ps_count m s)
  = ps_race1_wins s + (if keqb (winner_race m) lo then 1 else 0) /\
  ps_race2_wins (ps_count m s)
  = ps_race2_wins s
    + (if negb (keqb (winner_race m) lo) && keqb (winner_race m) hi then 1 else 0).
Proof.
  intros Hs Hp. unfold ps_count. rewrite Hs.
  destruct Hp as [[H1 H2]|[H1 H2]]; rewrite H1, H2;
    keqb_cases; simpl; try (exfalso; congruence); repeat split; auto; lia.
Qed.

Lemma between_slots (a b : pystr) (m : MatchData) :
  between a b m = true ->
  (player1_race m = fst (sorted2 a b) /\ player2_race m = snd (sorted2 a b)) \/
  (player1_race m = snd (sorted2 a b) /\ player2_race m = fst (sorted2 a b)).
Proof.
  unfold between. rewrite orb_true_iff, !andb_true_iff, !keqb_eq.
  destruct (sorted2_cases a b) as [-> | ->]; simpl; tauto.
Qed.

Lemma ps_count_under_fold (a b : pystr) (ms : list MatchData) (s : PairStat) :
  In a faction_names -> In b faction_names ->
  let lo := fst (sorted2 a b) in
  let hi := snd (sorted2 a b) in
  let s' := fold_left (ps_count_under (matchup_key lo hi)) ms s in
  ps_race1 s = lo ->
  ps_race1 s' = lo /\
  ps_race2 s' = ps_race2 s /\
  ps_total_matches s' = ps_total_matches s + count_matches (between a b) ms /\
  ps_race1_wins s'
  = ps_race1_wins s
    + count_matches (fun m => between a b m && keqb (winner_race m) lo) ms /\
  ps_race2_wins s'
  = ps_race2_wins s
    + count_matches (fun m => between a b m && negb (keqb (winner_race m) lo)
                              && keqb (winner_race m) hi) ms.
Proof.
  intros Ha Hb. cbv zeta. revert s.
  induction ms as [|m ms IH]; intros s Hs; cbn [fold_left].
  - unfold count_matches. simpl. repeat split; auto; lia.
  - rewrite !count_matches_cons, ps_count_under_eq,
      (key_of_match_between a b m Ha Hb).
    cbv beta. destruct (between a b m) eqn:Hbt; cbn [andb].
    + destruct (ps_count_between _ _ m s Hs (between_slots a b m Hbt))
        as (C1 & C2 & C3 & C4 & C5).
      destruct (IH (ps_count m s) C1) as (I1 & I2 & I3 & I4 & I5).
      rewrite I2, I3, I4, I5, C2, C3, C4, C5.
      repeat split; auto; lia.
    + destruct (IH s Hs) as (I1 & I2 & I3 & I4 & I5).
      rewrite I3, I4, I5. repeat split; auto; lia.
Qed.

Lemma ps_finish_counts (s : PairStat) :
  ps_race1 (ps_finish s) = ps_race1 s /\
  ps_race2 (ps_finish s) = ps_race2 s /\
  ps_total_matches (ps_finish s) = ps_total_matches s /\
  ps_race1_wins (ps_finish s) = ps_race1_wins s /\
  ps_race2_wins (ps_finish s) = ps_race2_wins s.
Proof.
  unfold ps_finish. destruct (Z.ltb 0 (ps_total_matches s)); simpl; auto.
Qed.

(** Every ordered pair of faction names has its entry from the start. *)
Lemma all_matchups_init_get (a b elo_range : pystr) :
  In a faction_names -> In b faction_names ->
  dict_get (all_matchups_init elo_range)
           (matchup_key (fst (sorted2 a b)) (snd (sorted2 a b)))
  = Some (ps_zero (fst (sorted2 a b)) (snd (sorted2 a b)) elo_range).
Proof.
  intros Ha Hb. revert b Hb. revert a Ha.
  apply (faction_names_cases
           (fun a => forall b, In b faction_names ->
              dict_get (all_matchups_init elo_range)
                (matchup_key (fst (sorted2 a b)) (snd (sorted2 a b)))
              = Some (ps_zero (fst (sorted2 a b)) (snd (sorted2 a b)) elo_range)));
    apply faction_names_cases; vm_compute; reflexivity.
Qed.

(** C8: for two faction names [a] and [b], given in either order, the
    matches between them, whichever slot holds which race, are counted in
    one entry of the matrix, the one under the key of the lexicographically
    ordered pair [(lo, hi)]; its [race1_wins] are the wins of [lo] and its
    [race2_wins] those of [hi]. *)
Theorem all_matchups_entry (a b : pystr) (min_elo max_elo : option Z) (st : Store) :
  In a faction_names ->
  In b faction_names ->
  let lo := fst (sorted2 a b) in
  let hi := snd (sorted2 a b) in
  let ms := filter_matches_by_elo_range min_elo max_elo st in
  matchup_key lo hi = matchup_key (fst (sorted2 b a)) (snd (sorted2 b a)) /\
  (forall m, between a b m = true <-> key_of_match m = matchup_key lo hi) /\
  exists s,
    dict_get (get_all_race_matchups min_elo max_elo st) (matchup_key lo hi) = Some s /\
    ps_race1 s = lo /\
    ps_race2 s = hi /\
    ps_total_matches s = count_matches (between a b) ms /\
    ps_race1_wins s
    = count_matches (fun m => between a b m && keqb (winner_race m) lo) ms /\
    ps_race2_wins s
    = count_matches (fun m => between a b m && negb (keqb (winner_race m) lo)
                              && keqb (winner_race m) hi) ms.
Proof.
  intros Ha Hb lo hi ms. split; [|split].
  - destruct (keqb a b) eqn:E.
    + apply keqb_eq in E. subst b. reflexivity.
    + apply keqb_neq in E. unfold lo, hi. rewrite (sorted2_swap a b E). reflexivity.
  - intros m. rewrite <- (key_of_match_between a b m Ha Hb). fold lo hi.
    apply keqb_eq.
  - unfold get_all_race_matchups. fold ms.
    rewrite dict_get_map_values, all_matchups_fold_get.
    unfold lo, hi. rewrite (all_matchups_init_get a b _ Ha Hb). simpl option_map.
    eexists. split; [reflexivity|].
    match goal with
    | |- context [fold_left ?f ms ?s0] =>
        destruct (ps_count_under_fold a b ms s0 Ha Hb eq_refl)
          as (F1 & F2 & F3 & F4 & F5);
        destruct (ps_finish_counts (fold_left f ms s0)) as (P1 & P2 & P3 & P4 & P5)
    end.
    rewrite P1, P2, P3, P4, P5, F1, F2, F3, F4, F5. simpl. repeat split.
Qed.

Lemma all_matchups_entry_witness :
  In (str "Orks") faction_names /\
  In (str "Chaos") faction_names /\
  let lo := fst (sorted2 (str "Orks") (str "Chaos")) in
  let hi := snd (sorted2 (str "Orks") (str "Chaos")) in
  let ms := filter_matches_by_elo_range None None two_match_store in
  matchup_key lo hi
  = matchup_key (fst (sorted2 (str "Chaos") (str "Orks")))
                (snd (sorted2 (str "Chaos") (str "Orks"))) /\
  (forall m, between (str "Orks") (str "Chaos") m = true <->
             key_of_match m = matchup_key lo hi) /\
  exists s,
    dict_get (get_all_race_matchups None None two_match_store) (matchup_key lo hi)
    = Some s /\
    ps_race1 s = lo /\
    ps_race2 s = hi /\
    ps_total_matches s = count_matches (between (str "Orks") (str "Chaos")) ms /\
    ps_race1_wins s
    = count_matches (fun m => between (str "Orks") (str "Chaos") m
                              && keqb (winner_race m) lo) ms /\
    ps_race2_wins s
    = count_matches (fun m => between (str "Orks") (str "Chaos") m
                              && negb (keqb (winner_race m) lo)
                              && keqb (winner_race m) hi) ms.
Proof.
  assert (H1 : In (str "Orks") faction_names).
  { do 5 right. left. reflexivity. }
  assert (H2 : In (str "Chaos") faction_names) by (left; reflexivity).
  split; [exact H1|]. split; [exact H2|].
  exact (all_matchups_entry (str "Orks") (str "Chaos") None None two_match_store H1 H2).
Defined.

(** Two matches between Chaos and Orks, the races in swapped slots and the
    Ork player winning both, make one entry, ["Chaos vs Orks"], with two
    games and two wins for [race2]. *)
Example all_matchups_example :
  option_map (fun s => (ps_race1 s, ps_race2 s, ps_total_matches s,
                        ps_race1_wins s, ps_race2_wins s))
    (dict_get (get_all_race_matchups None None two_match_store)
              (str "Chaos vs Orks"))
  = Some (str "Chaos", str "Orks", 2, 0, 2) /\
  dict_get (get_all_race_matchups None None two_match_store) (str "Orks vs Chaos")
  = None /\
  List.length (get_all_race_matchups None None two_match_store) = 45%nat.
Proof. vm_compute. repeat split. Qed.

(* ================================================================== *)
(** * Further properties of the code *)

(** ** The normalizer and the store *)

Lemma player_of_member_valid (rm : dict Z Z) (profiles : list Profile)
    (member : Member) (pd : PlayerData) :
  player_of_member rm profiles member = Next pd ->
  validate_steamid (pd_steam_id pd) = true.
Proof.
  unfold player_of_member. intros H.
  flow_inv H. flow_inv H. destruct a0 as [[steam_id|] alias]; [|discriminate].
  flow_inv H. apply return_if_Next in Ha1.
  flow_inv H. flow_inv H. flow_inv H. injection H as <-. simpl.
  apply orb_false_iff in Ha1. destruct Ha1 as [_ Hv].
  apply negb_false_iff in Hv. exact Hv.
Qed.

Lemma flow_map_Forall {A B} (f : A -> flow B) (P : B -> Prop) (l : list A)
    (l' : list B) :
  (forall a b, f a = Next b -> P b) ->
  flow_map f l = Next l' -> Forall P l'.
Proof.
  intros Hf. revert l'. induction l as [|a l IH]; intros l'; simpl.
  - intros [= <-]. constructor.
  - intros H. flow_inv H. flow_inv H. injection H as <-.
    constructor; [eapply Hf; eassumption | apply IH; assumption].
Qed.

Lemma flow_map_length {A B} (f : A -> flow B) (l : list A) (l' : list B) :
  flow_map f l = Next l' -> List.length l' = List.length l.
Proof.
  revert l'. induction l as [|a l IH]; intros l'; simpl.
  - intros [= <-]. reflexivity.
  - intros H. flow_inv H. flow_inv H. injection H as <-. simpl.
    f_equal. apply IH. assumption.
Qed.

(** All that a successful normalization tells: the match is a ranked 1v1
    with two resolvable participants, and the record is built from them. *)
Lemma normalize_Next_full (m : RawMatch) (profiles : list Profile)
    (processed : list pystr) (md : MatchData) (pds : list PlayerData) :
  normalize m profiles processed = Next (md, pds) ->
  raw_matchtype_id m = Some 1 /\
  List.length (get_or (raw_matchhistorymember m) []) = 2%nat /\
  exists p1 p2 w,
    pds = [p1; p2] /\
    find pd_is_winner pds = Some w /\
    validate_steamid (pd_steam_id p1) = true /\
    validate_steamid (pd_steam_id p2) = true /\
    player1_steamid md = pd_steam_id p1 /\ player1_race md = pd_race_name p1 /\
    player2_steamid md = pd_steam_id p2 /\ player2_race md = pd_race_name p2 /\
    winner_steamid md = pd_steam_id w /\ winner_race md = pd_race_name w.
Proof.
  unfold normalize. intros H.
  flow_inv H. flow_inv H. flow_inv H. apply return_if_Next in Ha1.
  flow_inv H. apply return_if_Next in Ha2. flow_inv H. flow_inv H.
  destruct (find pd_is_winner a4) as [w|] eqn:Hw; [|discriminate].
  pose proof (flow_map_length _ _ _ Ha4) as Hlen.
  pose proof (flow_map_Forall _ (fun pd => validate_steamid (pd_steam_id pd) = true)
                _ _ (player_of_member_valid a3 profiles) Ha4) as Hval.
  apply negb_false_iff, Nat.eqb_eq in Ha2.
  destruct a4 as [|p1 [|p2 [|p3 rest]]]; simpl in Hlen; try lia; try discriminate.
  injection H as <- <-.
  split.
  { destruct (raw_matchtype_id m) as [t|]; [|discriminate].
    apply negb_false_iff, Z.eqb_eq in Ha1. congruence. }
  split; [assumption|].
  inversion Hval as [|? ? V1 Hval']; subst. inversion Hval' as [|? ? V2 _]; subst.
  exists p1, p2, w. simpl. repeat split; auto.
Qed.

Lemma store_player_alias_keeps (steam_id alias : pystr) (save : bool) (st : Store) :
  stored_matches (snd (store_player_alias steam_id alias save st)) = stored_matches st /\
  processed_match_ids (snd (store_player_alias steam_id alias save st))
  = processed_match_ids st.
Proof.
  unfold store_player_alias.
  destruct (_ || _ || _); [split; reflexivity|].
  destruct (match dict_get _ _ with Some _ => _ | None => _ end);
    [|split; reflexivity].
  destruct save; split; reflexivity.
Qed.

Lemma alias_fold_keeps (pds : list PlayerData) (st : Store) :
  let st1 :=
    fold_left
      (fun s player =>
         snd (store_player_alias (pd_steam_id player) (pd_alias player) false s))
      pds st in
  stored_matches st1 = stored_matches st /\
  processed_match_ids st1 = processed_match_ids st.
Proof.
  revert st. induction pds as [|p pds IH]; intros st; simpl; [split; reflexivity|].
  destruct (IH (snd (store_player_alias (pd_steam_id p) (pd_alias p) false st)))
    as [H1 H2].
  destruct (store_player_alias_keeps (pd_steam_id p) (pd_alias p) false st)
    as [K1 K2].
  simpl in *. split; congruence.
Qed.

Lemma store_player_alias_stdout (steam_id alias : pystr) (save : bool)
    (st : Store) :
  stdout_encodes (snd (store_player_alias steam_id alias save st))
  = stdout_encodes st.
Proof.
  unfold store_player_alias.
  destruct (_ || _ || _); [reflexivity|].
  destruct (match dict_get _ _ with Some _ => _ | None => _ end); [|reflexivity].
  destruct save; reflexivity.
Qed.

Lemma alias_fold_stdout (pds : list PlayerData) (st : Store) :
  stdout_encodes
    (fold_left
       (fun s player =>
          snd (store_player_alias (pd_steam_id player) (pd_alias player) false s))
       pds st)
  = stdout_encodes st.
Proof.
  revert st. induction pds as [|p pds IH]; intros st; simpl; [reflexivity|].
  rewrite IH. apply store_player_alias_stdout.
Qed.

Lemma printable_same (st st' : Store) (text : pystr) :
  stdout_encodes st' = stdout_encodes st ->
  printable st' text = printable st text.
Proof. unfold printable. intros ->. reflexivity. Qed.

(** What a call that gets past the normalizer writes, and what it
    answers: [True] in batch mode, and outside it when the closing [print]
    can be written. *)
Lemma store_match_written (m : RawMatch) (profiles : list Profile)
    (batch_mode : bool) (st : Store) (md : MatchData) (pds : list PlayerData) :
  normalize m profiles (processed_match_ids st) = Next (md, pds) ->
  exists id st',
    store_match_from_history m profiles batch_mode st
    = (batch_mode || printable st (stored_announcement md), st') /\
    raw_id m = Some id /\
    match_id md = str_of_int id /\
    ~ In (str_of_int id) (processed_match_ids st) /\
    stored_matches st' = dict_set (stored_matches st) (str_of_int id) md /\
    processed_match_ids st' = processed_match_ids st ++ [str_of_int id] /\
    io_log st'
    = io_log st ++ (if batch_mode then [] else [SaveMatchData; SaveAliases]).
Proof.
  intros Hn. unfold store_match_from_history. rewrite Hn.
  apply normalize_Next in Hn.
  destruct Hn as (id & rm & Hid & Hmd & Hmem & _).
  destruct (alias_fold_keeps pds st) as [K1 K2]. simpl in K1, K2.
  pose proof (alias_fold_stdout pds st) as K3.
  assert (Hio : io_log
            (fold_left
               (fun s player =>
                  snd (store_player_alias (pd_steam_id player) (pd_alias player)
                                          false s)) pds st) = io_log st).
  { apply fold_left_io. intros s a. apply store_player_alias_io. }
  assert (Hadd : set_add (processed_match_ids st) (match_id md)
                 = processed_match_ids st ++ [str_of_int id]).
  { unfold set_add. rewrite Hmd, Hmem. reflexivity. }
  assert (Hnew : ~ In (str_of_int id) (processed_match_ids st)).
  { intros Hin. apply set_mem_In in Hin. congruence. }
  exists id. destruct batch_mode.
  - eexists. split; [reflexivity|]. simpl.
    rewrite K1, K2, Hadd, Hmd, Hio, app_nil_r. repeat split; assumption.
  - eexists. split.
    + cbn [orb].
      match goal with
      | |- (if printable ?s ?t then _ else _) = _ =>
          rewrite (printable_same st s t) by (simpl; exact K3)
      end.
      destruct (printable st (stored_announcement md)); reflexivity.
    + simpl. rewrite K1, K2, Hadd, Hmd, Hio, <- app_assoc.
      repeat split; assumption.
Qed.

(** *** The winner of a stored match *)

Lemma build_results_map_complete (results : list ReportResult) (acc : dict Z Z) :
  Forall result_complete results ->
  exists rm, build_results_map results acc = Next rm.
Proof.
  intros Hr. revert acc. induction Hr as [|r results [H1 H2] _ IH]; intros acc.
  - exists acc. reflexivity.
  - simpl. destruct (result_profile_id r) as [pid|]; [|contradiction].
    destruct (result_resulttype r) as [rt|]; [|contradiction].
    simpl. apply IH.
Qed.

(** Whether a participant passes the normalizer does not depend on the
    report results; only its winner flag does. *)
Lemma player_of_member_results (rm rm' : dict Z Z) (profiles : list Profile)
    (member : Member) (pd : PlayerData) :
  player_of_member rm profiles member = Next pd ->
  exists pd',
    player_of_member rm' profiles member = Next pd' /\
    pd_steam_id pd' = pd_steam_id pd /\ pd_alias pd' = pd_alias pd /\
    pd_race_name pd' = pd_race_name pd /\ pd_old_elo pd' = pd_old_elo pd /\
    pd_new_elo pd' = pd_new_elo pd.
Proof.
  unfold player_of_member.
  destruct (subscript (member_profile_id member)) as [pid| |]; simpl;
    try discriminate.
  destruct (lookup_profile profiles pid) as [[[steam_id|] alias]| |]; simpl;
    try discriminate.
  destruct (return_if _) as [u| |]; simpl; try discriminate.
  destruct (subscript (member_race_id member)) as [race_id| |]; simpl;
    try discriminate.
  destruct (subscript (member_oldrating member)) as [old_elo| |]; simpl;
    try discriminate.
  destruct (subscript (member_newrating member)) as [new_elo| |]; simpl;
    try discriminate.
  intros [= <-]. eexists. split; [reflexivity|]. simpl. repeat split.
Qed.

Lemma flow_map_results (rm rm' : dict Z Z) (profiles : list Profile)
    (members : list Member) (pds : list PlayerData) :
  flow_map (player_of_member rm profiles) members = Next pds ->
  exists pds',
    flow_map (player_of_member rm' profiles) members = Next pds' /\
    map pd_steam_id pds' = map pd_steam_id pds /\
    map pd_alias pds' = map pd_alias pds /\
    map pd_race_name pds' = map pd_race_name pds /\
    map pd_old_elo pds' = map pd_old_elo pds /\
    map pd_new_elo pds' = map pd_new_elo pds.
Proof.
  revert pds. induction members as [|mem members IH]; intros pds; simpl.
  - intros [= <-]. exists []. repeat split.
  - intros H. flow_inv H. flow_inv H. injection H as <-.
    destruct (player_of_member_results rm rm' profiles mem a Ha)
      as (pd' & E & E1 & E2 & E3 & E4 & E5).
    destruct (IH a0 Ha0) as (pds' & F & F1 & F2 & F3 & F4 & F5).
    exists (pd' :: pds'). rewrite E. simpl. rewrite F. simpl.
    repeat split; f_equal; assumption.
Qed.

Lemma find_winner_exists (pds : list PlayerData) :
  existsb pd_is_winner pds = true -> exists w, find pd_is_winner pds = Some w.
Proof.
  induction pds as [|p pds IH]; simpl; [discriminate|].
  destruct (pd_is_winner p); [eexists; reflexivity | exact IH].
Qed.

Lemma winners_existsb (m : RawMatch) (pds : list PlayerData) :
  map pd_is_winner pds = map (indicates_win m) (get_or (raw_matchhistorymember m) []) ->
  (1 <= winners m)%nat ->
  existsb pd_is_winner pds = true.
Proof.
  unfold winners. generalize (get_or (raw_matchhistorymember m) []).
  intros members. revert pds.
  induction members as [|mb members IH]; intros [|p pds]; simpl; try discriminate;
    try lia.
  intros [= E1 E2]. rewrite E1.
  destruct (indicates_win m mb); [reflexivity|]. simpl. apply IH, E2.
Qed.

(** What the normalizer answers for a match that passes its checks. *)
Lemma normalize_intro (m : RawMatch) (profiles : list Profile)
    (processed : list pystr) (id : Z) (rm : dict Z Z) (p1 p2 w : PlayerData) :
  raw_id m = Some id ->
  set_mem processed (str_of_int id) = false ->
  raw_matchtype_id m = Some 1 ->
  List.length (get_or (raw_matchhistorymember m) []) = 2%nat ->
  build_results_map (get_or (raw_matchhistoryreportresults m) []) [] = Next rm ->
  flow_map (player_of_member rm profiles) (get_or (raw_matchhistorymember m) [])
  = Next [p1; p2] ->
  find pd_is_winner [p1; p2] = Some w ->
  normalize m profiles processed
  = Next ({| match_id := str_of_int id;
             map_name := get_or (raw_mapname m) (str "Unknown Map");
             start_time := get_or (raw_startgametime m) 0;
             completion_time := get_or (raw_completiontime m) 0;
             player1_steamid := pd_steam_id p1;
             player1_alias := pd_alias p1;
             player1_race := pd_race_name p1;
             player1_old_elo := pd_old_elo p1;
             player1_new_elo := pd_new_elo p1;
             player2_steamid := pd_steam_id p2;
             player2_alias := pd_alias p2;
             player2_race := pd_race_name p2;
             player2_old_elo := pd_old_elo p2;
             player2_new_elo := pd_new_elo p2;
             winner_steamid := pd_steam_id w;
             winner_race := pd_race_name w |},
          [p1; p2]).
Proof.
  intros Hid Hmem Ht Hlen Hrm Hpds Hw. unfold normalize.
  rewrite Hid. cbn [subscript flow_bind]. rewrite Hmem. cbn [return_if flow_bind].
  rewrite Ht. cbn [Z.eqb Pos.eqb negb return_if flow_bind].
  rewrite Hlen. cbn [Nat.eqb negb return_if flow_bind].
  rewrite Hrm. cbn [flow_bind]. rewrite Hpds. cbn [flow_bind].
  rewrite Hw. reflexivity.
Qed.

(** The same, read off a successful run of the normalizer. *)
Lemma normalize_elim (m : RawMatch) (profiles : list Profile)
    (processed : list pystr) (md : MatchData) (pds : list PlayerData) :
  normalize m profiles processed = Next (md, pds) ->
  exists id rm p1 p2 w,
    raw_id m = Some id /\
    set_mem processed (str_of_int id) = false /\
    raw_matchtype_id m = Some 1 /\
    List.length (get_or (raw_matchhistorymember m) []) = 2%nat /\
    build_results_map (get_or (raw_matchhistoryreportresults m) []) [] = Next rm /\
    flow_map (player_of_member rm profiles) (get_or (raw_matchhistorymember m) [])
    = Next [p1; p2] /\
    find pd_is_winner [p1; p2] = Some w /\
    pds = [p1; p2] /\
    match_id md = str_of_int id /\
    player1_steamid md = pd_steam_id p1 /\ player1_alias md = pd_alias p1 /\
    player1_race md = pd_race_name p1 /\
    player2_steamid md = pd_steam_id p2 /\ player2_alias md = pd_alias p2 /\
    player2_race md = pd_race_name p2 /\
    winner_steamid md = pd_steam_id w /\ winner_race md = pd_race_name w.
Proof.
  unfold normalize. intros H.
  flow_inv H. apply subscript_Next in Ha.
  flow_inv H. apply return_if_Next in Ha0.
  flow_inv H. apply return_if_Next in Ha1.
  flow_inv H. apply return_if_Next in Ha2. flow_inv H. flow_inv H.
  destruct (find pd_is_winner a4) as [w|] eqn:Hw; [|discriminate].
  pose proof (flow_map_length _ _ _ Ha4) as Hlen.
  apply negb_false_iff, Nat.eqb_eq in Ha2.
  destruct a4 as [|p1 [|p2 [|p3 rest]]]; simpl in Hlen; try lia; try discriminate.
  injection H as <- <-.
  exists a, a3, p1, p2, w. simpl.
  assert (Ht : raw_matchtype_id m = Some 1).
  { destruct (raw_matchtype_id m) as [t|]; [|discriminate].
    apply negb_false_iff, Z.eqb_eq in Ha1. congruence. }
  repeat split; auto.
Qed.

(** C2, as the code has it.  A raw match in which no participant's result
    code indicates a win is rejected, and the state (the match count with
    it) is left as it was.  A match is not rejected for having two
    winning codes: whenever a call stores a match, the winner it records
    is the first participant, in member order, whose result code
    indicates a win; and a match that is stored is stored just as well
    with any other complete report results that hold at least one
    winning code, two included. *)
Theorem store_match_no_winner (m : RawMatch) (profiles : list Profile)
    (batch_mode : bool) (st : Store) :
  (winners m = 0%nat ->
   let '(stored, st') := store_match_from_history m profiles batch_mode st in
   stored = false /\
   get_stored_match_count st' = get_stored_match_count st /\
   st' = st) /\
  (forall id,
     let st' := snd (store_match_from_history m profiles batch_mode st) in
     raw_id m = Some id ->
     ~ In (str_of_int id) (processed_match_ids st) ->
     In (str_of_int id) (processed_match_ids st') ->
     exists mb1 mb2 md,
       get_or (raw_matchhistorymember m) [] = [mb1; mb2] /\
       dict_get (stored_matches st') (str_of_int id) = Some md /\
       if indicates_win m mb1 then winner_is_player1 md
       else indicates_win m mb2 = true /\ winner_is_player2 md) /\
  (forall results,
     Forall result_complete results ->
     (1 <= winners (with_results m results))%nat ->
     fst (store_match_from_history m profiles batch_mode st) = true ->
     fst (store_match_from_history (with_results m results) profiles batch_mode st)
     = true).
Proof.
  split; [|split].
  - intros Hw. unfold store_match_from_history.
    destruct (normalize m profiles (processed_match_ids st)) as [[md pds]| |] eqn:Hn;
      try (repeat split; reflexivity).
    exfalso. apply normalize_Next in Hn.
    destruct Hn as (id & rm & _ & _ & _ & Hrm & Hpds & w & Hfind).
    pose proof (flow_map_winner m profiles rm _ pds Hrm Hpds) as Hmap.
    pose proof (find_some_filter _ _ _ _ w Hmap Hfind) as Hne.
    unfold winners in Hw. apply length_zero_iff_nil in Hw. contradiction.
  - intros id st' Hid Hold Hnew. subst st'.
    destruct (normalize m profiles (processed_match_ids st)) as [[md pds]| |] eqn:Hn.
    + destruct (store_match_written m profiles batch_mode st md pds Hn)
        as (id' & st' & Hs & Hid' & _ & _ & Hm & _ & _).
      rewrite Hs in *. cbn [snd] in *.
      assert (id' = id) by congruence. subst id'.
      destruct (normalize_elim _ _ _ _ _ Hn)
        as (id' & rm & p1 & p2 & w & _ & _ & _ & Hlen & Hrm & Hpds & Hw & -> & _
            & S1 & _ & R1 & S2 & _ & R2 & SW & RW).
      pose proof (flow_map_winner m profiles rm _ _ Hrm Hpds) as Hmap.
      destruct (get_or (raw_matchhistorymember m) []) as [|mb1 [|mb2 [|mb3 rest]]];
        simpl in Hlen; try lia.
      simpl in Hmap. injection Hmap as W1 W2.
      exists mb1, mb2, md. split; [reflexivity|].
      split; [rewrite Hm; apply dict_get_set_same|].
      rewrite <- W1, <- W2. simpl in Hw.
      unfold winner_is_player1, winner_is_player2.
      destruct (pd_is_winner p1).
      * injection Hw as <-. split; congruence.
      * destruct (pd_is_winner p2); [|discriminate].
        injection Hw as <-. split; [reflexivity|]. split; congruence.
    + exfalso. unfold store_match_from_history in Hnew. rewrite Hn in Hnew.
      exact (Hold Hnew).
    + exfalso. unfold store_match_from_history in Hnew. rewrite Hn in Hnew.
      exact (Hold Hnew).
  - intros results Hcomplete Hwin Hstored.
    destruct (normalize m profiles (processed_match_ids st)) as [[md pds]| |] eqn:Hn;
      try (unfold store_match_from_history in Hstored; rewrite Hn in Hstored;
           discriminate).
    destruct (store_match_written m profiles batch_mode st md pds Hn)
      as (id0 & st0 & Hs & _). rewrite Hs in Hstored. cbn [fst] in Hstored.
    destruct (normalize_elim _ _ _ _ _ Hn)
      as (id & rm & p1 & p2 & w & Hid & Hmem & Ht & Hlen & Hrm & Hpds & Hw & -> & Imd
          & _ & A1 & _ & _ & A2 & _).
    destruct (build_results_map_complete results [] Hcomplete) as [rm' Hrm'].
    destruct (flow_map_results rm rm' profiles _ _ Hpds)
      as (pds' & Hpds' & _ & Halias & _).
    destruct pds' as [|p1' [|p2' [|p3' rest']]]; try discriminate.
    simpl in Halias. injection Halias as B1 B2.
    set (m' := with_results m results).
    assert (Hmap : map pd_is_winner [p1'; p2']
                   = map (indicates_win m') (get_or (raw_matchhistorymember m') [])).
    { apply (flow_map_winner m' profiles rm'); [exact Hrm' | exact Hpds']. }
    destruct (find_winner_exists [p1'; p2'] (winners_existsb m' _ Hmap Hwin))
      as [w' Hw'].
    pose proof (normalize_intro m' profiles (processed_match_ids st) id rm'
                  p1' p2' w' Hid Hmem Ht Hlen Hrm' Hpds' Hw') as Hn'.
    destruct (store_match_written m' profiles batch_mode st _ _ Hn')
      as (id1 & st1 & Hs' & _).
    rewrite Hs'. cbn [fst].
    destruct batch_mode; [reflexivity|]. cbn [orb] in *.
    rewrite <- Hstored. f_equal.
    unfold stored_announcement. cbn [match_id player1_alias player2_alias].
    rewrite Imd, A1, A2, B1, B2. reflexivity.
Qed.

Lemma store_match_no_winner_witness :
  (winners (example_match 0 0) = 0%nat /\
   let '(stored, st') :=
     store_match_from_history (example_match 0 0) example_profiles true empty_store in
   stored = false /\
   get_stored_match_count st' = get_stored_match_count empty_store /\
   st' = empty_store) /\
  (Forall result_complete
     [ {| result_profile_id := Some 10; result_resulttype := Some 1 |};
       {| result_profile_id := Some 20; result_resulttype := Some 1 |} ] /\
   winners (example_match 1 1) = 2%nat /\
   fst (store_match_from_history (example_match 1 0) example_profiles true
          empty_store) = true /\
   fst (store_match_from_history (example_match 1 1) example_profiles true
          empty_store) = true) /\
  exists md,
    dict_get (stored_matches
                (snd (store_match_from_history (example_match 1 1) example_profiles
                        true empty_store))) (str_of_int 4242) = Some md /\
    winner_is_player1 md /\ winner_steamid md = str "76561198356992755".
Proof.
  split; [|split].
  - split; [reflexivity|].
    apply (store_match_no_winner (example_match 0 0) example_profiles true
             empty_store).
    reflexivity.
  - assert (Hc : Forall result_complete
              [ {| result_profile_id := Some 10; result_resulttype := Some 1 |};
                {| result_profile_id := Some 20; result_resulttype := Some 1 |} ]).
    { repeat constructor; simpl; discriminate. }
    assert (Hs : fst (store_match_from_history (example_match 1 0) example_profiles
                        true empty_store) = true) by (vm_compute; reflexivity).
    split; [exact Hc|]. split; [reflexivity|]. split; [exact Hs|].
    apply (proj2 (proj2 (store_match_no_winner (example_match 1 0) example_profiles
                           true empty_store)) _ Hc);
      [vm_compute; lia | exact Hs].
  - destruct (proj1 (proj2 (store_match_no_winner (example_match 1 1)
                              example_profiles true empty_store)) 4242)
      as (mb1 & mb2 & md & Hmb & Hget & Hwin).
    + reflexivity.
    + simpl. tauto.
    + vm_compute. left. reflexivity.
    + exists md. split; [exact Hget|].
      injection Hmb as <- <-.
      change (indicates_win (example_match 1 1)
                {| member_profile_id := Some 10; member_race_id := Some 0;
                   member_oldrating := Some 1500; member_newrating := Some 1516 |})
        with true in Hwin.
      split; [exact Hwin|].
      destruct Hwin as [Hw _]. rewrite Hw.
      assert (E : option_map player1_steamid
                    (dict_get (stored_matches
                       (snd (store_match_from_history (example_match 1 1)
                               example_profiles true empty_store)))
                       (str_of_int 4242))
                  = Some (str "76561198356992755")) by (vm_compute; reflexivity).
      rewrite Hget in E. injection E as E. exact E.
Defined.

(** What a successful call has written to the Match collection and to the
    Processed-ID Set. *)
Lemma store_match_success (m : RawMatch) (profiles : list Profile)
    (batch_mode : bool) (st st' : Store) :
  store_match_from_history m profiles batch_mode st = (true, st') ->
  exists id md pds,
    normalize m profiles (processed_match_ids st) = Next (md, pds) /\
    raw_id m = Some id /\
    match_id md = str_of_int id /\
    ~ In (str_of_int id) (processed_match_ids st) /\
    stored_matches st' = dict_set (stored_matches st) (str_of_int id) md /\
    processed_match_ids st' = processed_match_ids st ++ [str_of_int id].
Proof.
  unfold store_match_from_history.
  destruct (normalize m profiles (processed_match_ids st)) as [[md pds]| |] eqn:Hn;
    try discriminate.
  intros H.
  pose proof Hn as Hn'. apply normalize_Next in Hn'.
  destruct Hn' as (id & rm & Hid & Hmd & Hmem & _).
  destruct (alias_fold_keeps pds st) as [K1 K2]. simpl in K1, K2.
  exists id, md, pds. split; [reflexivity|]. split; [assumption|].
  split; [assumption|].
  split.
  { intros Hin. apply set_mem_In in Hin. congruence. }
  assert (Hadd : set_add (processed_match_ids st) (match_id md)
                 = processed_match_ids st ++ [str_of_int id]).
  { unfold set_add. rewrite Hmd, Hmem. reflexivity. }
  destruct batch_mode; [|destruct (printable _ _); [|discriminate]];
    injection H as <-; simpl; rewrite K1, K2, Hadd, Hmd; split; reflexivity.
Qed.

(** X1: a call that answers [True] has stored, under the upstream id, a
    well-formed match, and has marked that id processed; the id was not in
    the Processed-ID Set before. *)
Theorem store_match_stores_wellformed (m : RawMatch) (profiles : list Profile)
    (batch_mode : bool) (st st' : Store) :
  store_match_from_history m profiles batch_mode st = (true, st') ->
  exists id md,
    raw_id m = Some id /\
    dict_get (stored_matches st') (str_of_int id) = Some md /\
    match_id md = str_of_int id /\
    In (str_of_int id) (processed_match_ids st') /\
    ~ In (str_of_int id) (processed_match_ids st) /\
    match_wellformed md.
Proof.
  intros H. apply store_match_success in H.
  destruct H as (id & md & pds & Hn & Hid & Hmd & Hnew & Hs & Hp).
  exists id, md. split; [assumption|].
  split; [rewrite Hs; apply dict_get_set_same|].
  split; [assumption|].
  split; [rewrite Hp; apply in_or_app; right; left; reflexivity|].
  split; [assumption|].
  apply normalize_Next_full in Hn.
  destruct Hn as (_ & _ & p1 & p2 & w & Hpds & Hw & V1 & V2 & E1 & E2 & E3 & E4 & E5 & E6).
  unfold match_wellformed. rewrite E1, E2, E3, E4, E5, E6.
  split; [assumption|]. split; [assumption|].
  subst pds. simpl in Hw.
  destruct (pd_is_winner p1); [injection Hw as <-; left; auto|].
  destruct (pd_is_winner p2); [injection Hw as <-; right; auto | discriminate].
Qed.

Lemma store_match_stores_wellformed_witness :
  store_match_from_history (example_match 1 0) example_profiles true empty_store
  = (true, example_store) /\
  exists id md,
    raw_id (example_match 1 0) = Some id /\
    dict_get (stored_matches example_store) (str_of_int id) = Some md /\
    match_id md = str_of_int id /\
    In (str_of_int id) (processed_match_ids example_store) /\
    ~ In (str_of_int id) (processed_match_ids empty_store) /\
    match_wellformed md.
Proof.
  assert (H : store_match_from_history (example_match 1 0) example_profiles true
                empty_store = (true, example_store)) by reflexivity.
  split; [exact H|].
  exact (store_match_stores_wellformed _ _ _ _ _ H).
Defined.

Lemma dict_keys_set_fresh {V} (d : dict pystr V) (k : pystr) (v : V) :
  ~ In k (dict_keys d) -> dict_keys (dict_set d k v) = dict_keys d ++ [k].
Proof.
  intros Hk. rewrite (dict_set_fresh d k v Hk).
  unfold dict_keys. rewrite map_app. reflexivity.
Qed.

Lemma dict_keys_set_incl {K V} `{KeyLaws K} (d : dict K V) (k : K) (v : V) :
  incl (dict_keys d) (dict_keys (dict_set d k v)).
Proof.
  induction d as [|[k' v'] d IH]; simpl; [intros x []|].
  destruct (keqb k' k); simpl.
  - apply incl_refl.
  - intros x [Hx|Hx]; [left; assumption | right; apply IH; assumption].
Qed.

Lemma dict_len_set {K V} `{KeyLaws K} (d : dict K V) (k : K) (v : V) :
  dict_len d <= dict_len (dict_set d k v).
Proof.
  unfold dict_len. induction d as [|[k' v'] d IH]; simpl List.length; [lia|].
  destruct (keqb k' k); simpl List.length; lia.
Qed.

(** X2: a call of [store_match_from_history] keeps the Match collection
    and the Processed-ID Set in lockstep, and when they are in lockstep a
    call that answers [True] makes the match count grow by exactly one.  A
    call that answers [False] leaves the whole state as it was, with one
    exception outside batch mode: when the closing [print] cannot write
    the aliases of the match, the match has been stored (the count is one
    higher) and [False] is answered all the same. *)
Theorem store_match_keeps_lockstep (m : RawMatch) (profiles : list Profile)
    (batch_mode : bool) (st : Store) :
  lockstep st ->
  let '(stored, st') := store_match_from_history m profiles batch_mode st in
  lockstep st' /\
  (stored = true ->
   get_stored_match_count st' = get_stored_match_count st + 1) /\
  (stored = false ->
   st' = st \/
   batch_mode = false /\
   get_stored_match_count st' = get_stored_match_count st + 1 /\
   exists id md,
     raw_id m = Some id /\
     dict_get (stored_matches st') (str_of_int id) = Some md /\
     printable st (stored_announcement md) = false).
Proof.
  intros Hl.
  destruct (normalize m profiles (processed_match_ids st)) as [[md pds]| |] eqn:Hn.
  - destruct (store_match_written m profiles batch_mode st md pds Hn)
      as (id & st' & Hs & Hid & _ & Hnew & Hm & Hp & _).
    rewrite Hs.
    assert (Hfresh : ~ In (str_of_int id) (dict_keys (stored_matches st))).
    { intros Hin. apply Hnew, Hl, Hin. }
    assert (Hcount : get_stored_match_count st' = get_stored_match_count st + 1).
    { unfold get_stored_match_count, dict_len.
      rewrite Hm, (dict_set_fresh _ _ _ Hfresh), length_app. simpl. lia. }
    split.
    { intros k. rewrite Hm, Hp, (dict_keys_set_fresh _ _ _ Hfresh), !in_app_iff.
      rewrite (Hl k). reflexivity. }
    split; [intros _; exact Hcount|].
    intros Hfalse. right.
    destruct batch_mode; [discriminate|]. cbn [orb] in Hfalse.
    split; [reflexivity|]. split; [exact Hcount|].
    exists id, md. split; [exact Hid|]. split; [|exact Hfalse].
    rewrite Hm. apply dict_get_set_same.
  - unfold store_match_from_history. rewrite Hn.
    split; [exact Hl|]. split; [discriminate | left; reflexivity].
  - unfold store_match_from_history. rewrite Hn.
    split; [exact Hl|]. split; [discriminate | left; reflexivity].
Qed.

Lemma store_match_keeps_lockstep_witness :
  lockstep empty_store /\
  let '(stored, st') :=
    store_match_from_history (example_match 1 0) example_profiles true empty_store in
  lockstep st' /\
  (stored = true ->
   get_stored_match_count st' = get_stored_match_count empty_store + 1) /\
  (stored = false ->
   st' = empty_store \/
   true = false /\
   get_stored_match_count st' = get_stored_match_count empty_store + 1 /\
   exists id md,
     raw_id (example_match 1 0) = Some id /\
     dict_get (stored_matches st') (str_of_int id) = Some md /\
     printable empty_store (stored_announcement md) = false).
Proof.
  assert (H : lockstep empty_store) by (intros k; simpl; tauto).
  split; [exact H|].
  exact (store_match_keeps_lockstep (example_match 1 0) example_profiles true
           empty_store H).
Defined.

(** X3: a raw match that is not of the ranked-1v1 type, or that does not
    have exactly two participants, is rejected, and nothing of the state
    (the alias directory included) is touched. *)
Theorem store_match_ineligible (m : RawMatch) (profiles : list Profile)
    (batch_mode : bool) (st : Store) :
  raw_matchtype_id m <> Some 1 \/
  List.length (get_or (raw_matchhistorymember m) []) <> 2%nat ->
  store_match_from_history m profiles batch_mode st = (false, st).
Proof.
  intros Hbad. unfold store_match_from_history.
  destruct (normalize m profiles (processed_match_ids st)) as [[md pds]| |] eqn:Hn;
    try reflexivity.
  apply normalize_Next_full in Hn. destruct Hn as (Ht & Hlen & _).
  destruct Hbad; contradiction.
Qed.

Lemma store_match_ineligible_witness :
  (raw_matchtype_id
     {| raw_id := Some 7; raw_matchtype_id := Some 2; raw_mapname := None;
        raw_startgametime := None; raw_completiontime := None;
        raw_matchhistorymember := Some example_members;
        raw_matchhistoryreportresults := None |} <> Some 1 \/
   List.length
     (get_or (raw_matchhistorymember
        {| raw_id := Some 7; raw_matchtype_id := Some 2; raw_mapname := None;
           raw_startgametime := None; raw_completiontime := None;
           raw_matchhistorymember := Some example_members;
           raw_matchhistoryreportresults := None |}) []) <> 2%nat) /\
  store_match_from_history
    {| raw_id := Some 7; raw_matchtype_id := Some 2; raw_mapname := None;
       raw_startgametime := None; raw_completiontime := None;
       raw_matchhistorymember := Some example_members;
       raw_matchhistoryreportresults := None |}
    example_profiles false example_store
  = (false, example_store).
Proof.
  assert (H : raw_matchtype_id
     {| raw_id := Some 7; raw_matchtype_id := Some 2; raw_mapname := None;
        raw_startgametime := None; raw_completiontime := None;
        raw_matchhistorymember := Some example_members;
        raw_matchhistoryreportresults := None |} <> Some 1 \/
   List.length
     (get_or (raw_matchhistorymember
        {| raw_id := Some 7; raw_matchtype_id := Some 2; raw_mapname := None;
           raw_startgametime := None; raw_completiontime := None;
           raw_matchhistorymember := Some example_members;
           raw_matchhistoryreportresults := None |}) []) <> 2%nat).
  { left. simpl. discriminate. }
  split; [exact H|].
  exact (store_match_ineligible _ example_profiles false example_store H).
Defined.

(** X4: a call that answers [True] has called, outside batch mode, the
    match-data writer and then the alias writer, once each, and in batch
    mode no writer.  A call that answers [False] has called no writer and
    left the state as it was, with one exception outside batch mode: when
    the closing [print] cannot write the aliases of the match, both
    writers have been called before [False] is answered. *)
Theorem store_match_io (m : RawMatch) (profiles : list Profile)
    (batch_mode : bool) (st : Store) :
  let '(stored, st') := store_match_from_history m profiles batch_mode st in
  (stored = true ->
   io_log st'
   = io_log st ++ (if batch_mode then [] else [SaveMatchData; SaveAliases])) /\
  (stored = false ->
   st' = st \/
   batch_mode = false /\
   io_log st' = io_log st ++ [SaveMatchData; SaveAliases] /\
   exists id md,
     raw_id m = Some id /\
     dict_get (stored_matches st') (str_of_int id) = Some md /\
     printable st (stored_announcement md) = false).
Proof.
  destruct (normalize m profiles (processed_match_ids st)) as [[md pds]| |] eqn:Hn.
  - destruct (store_match_written m profiles batch_mode st md pds Hn)
      as (id & st' & Hs & Hid & _ & _ & Hm & _ & Hio).
    rewrite Hs. split; [intros _; exact Hio|].
    intros Hfalse. right.
    destruct batch_mode; [discriminate|]. cbn [orb] in Hfalse.
    split; [reflexivity|]. split; [exact Hio|].
    exists id, md. split; [exact Hid|]. split; [|exact Hfalse].
    rewrite Hm. apply dict_get_set_same.
  - unfold store_match_from_history. rewrite Hn.
    split; [discriminate | left; reflexivity].
  - unfold store_match_from_history. rewrite Hn.
    split; [discriminate | left; reflexivity].
Qed.

(** An alias with a lone surrogate, as [json.loads] yields it from an
    escape, cannot be written to a UTF-8 standard output: outside batch
    mode the match is stored and both writers are called, yet the call
    answers [False]; in batch mode the same call answers [True]. *)
Example store_match_unprintable_alias :
  let profiles :=
    [ {| profile_profile_id := Some 10;
         profile_name := Some (str "/steam/76561198356992755");
         profile_alias := Some (str "Alpha" ++ [56448%N]) |};
      {| profile_profile_id := Some 20;
         profile_name := Some (str "/steam/76561198000000001");
         profile_alias := Some (str "Beta") |} ] in
  (let '(stored, st') :=
     store_match_from_history (example_match 1 0) profiles false empty_store in
   stored = false /\ get_stored_match_count st' = 1 /\
   io_log st' = [SaveMatchData; SaveAliases]) /\
  fst (store_match_from_history (example_match 1 0) profiles true empty_store)
  = true.
Proof. vm_compute. repeat split. Qed.

(** *** Race names *)

Lemma dict_get_in_values {K V} `{KeyLaws K} (d : dict K V) (k : K) (v : V) :
  dict_get d k = Some v -> In v (dict_values d).
Proof.
  induction d as [|[k' v'] d IH]; simpl; [discriminate|].
  destruct (keqb k' k); [intros [= ->]; left; reflexivity | right; auto].
Qed.



Lemma race_map_offset (race_id : Z) :
  dict_get RACE_MAP race_id = dict_get FACTIONS (race_id + 1).
Proof.
  unfold RACE_MAP, FACTIONS, dict_get, keqb, Key_Z.
  repeat match goal with
  | |- context [Z.eqb ?k race_id] =>
      destruct (Z.eqb_spec k race_id); [subst race_id; reflexivity|]
  end.
  repeat match goal with
  | |- context [Z.eqb ?k (race_id + 1)] =>
      destruct (Z.eqb_spec k (race_id + 1)); [exfalso; lia|]
  end.
  reflexivity.
Qed.

Lemma race_map_domain (race_id : Z) :
  (exists name, dict_get RACE_MAP race_id = Some name) <-> 0 <= race_id <= 8.
Proof.
  split.
  - intros [name Hn]. unfold RACE_MAP, dict_get, keqb, Key_Z in Hn.
    repeat match type of Hn with
    | context [Z.eqb ?k race_id] =>
        destruct (Z.eqb_spec k race_id); [lia|]
    end.
    discriminate.
  - intros Hr.
    assert (C : race_id = 0 \/ race_id = 1 \/ race_id = 2 \/ race_id = 3 \/
                race_id = 4 \/ race_id = 5 \/ race_id = 6 \/ race_id = 7 \/
                race_id = 8) by lia.
    repeat (destruct C as [->|C]; [eexists; reflexivity|]).
    subst. eexists; reflexivity.
Qed.

(** X5: the in-match race codes 0 to 8 are mapped to the nine faction
    names, one below the leaderboard ids; every other code gets the label
    ["Race <code>"], which is no faction name. *)
Theorem race_name_of_faction (race_id : Z) :
  dict_get RACE_MAP race_id = dict_get FACTIONS (race_id + 1) /\
  (In (race_name_of race_id) faction_names <-> 0 <= race_id <= 8) /\
  (~ (0 <= race_id <= 8) -> race_name_of race_id = str "Race " ++ str_of_int race_id).
Proof.
  split; [apply race_map_offset|].
  unfold race_name_of.
  destruct (dict_get RACE_MAP race_id) as [name|] eqn:Hn.
  - assert (Hr : 0 <= race_id <= 8) by (apply race_map_domain; eauto).
    split; [|intros; contradiction].
    split; [auto|]. intros _. simpl.
    rewrite race_map_offset in Hn. apply dict_get_in_values in Hn. exact Hn.
  - assert (Hr : ~ (0 <= race_id <= 8)).
    { intros Hr. apply race_map_domain in Hr. destruct Hr as [name Hr]. congruence. }
    split; [|reflexivity].
    split; [|intros; contradiction].
    simpl. intros Hin. exfalso.
    assert (Hhead : forall r, In r faction_names -> hd 0%N r <> 82%N).
    { apply faction_names_cases; discriminate. }
    apply (Hhead _ Hin). reflexivity.
Qed.

(* ------------------------------------------------------------------ *)
(** ** The alias directory *)

Lemma store_player_alias_eq (steam_id alias : pystr) (save : bool) (st : Store) :
  store_player_alias steam_id alias save st
  = if alias_storable steam_id alias st
    then (true,
          (if save then save_aliases_to_file else fun s => s)
            (with_aliases st (dict_set (player_aliases st) steam_id alias)))
    else (false, st).
Proof.
  unfold store_player_alias, alias_storable.
  destruct (validate_steamid steam_id); [|reflexivity].
  destruct (keqb alias (str "Unknown Player"));
    [destruct alias; reflexivity|].
  destruct (dict_get (player_aliases st) steam_id) as [old|];
    [destruct (keqb old alias)|]; destruct save; destruct alias; reflexivity.
Qed.

Lemma alias_storable_iff (steam_id alias : pystr) (st : Store) :
  alias_storable steam_id alias st = true <->
  validate_steamid steam_id = true /\ alias <> [] /\
  alias <> str "Unknown Player" /\
  dict_get (player_aliases st) steam_id <> Some alias.
Proof.
  unfold alias_storable. rewrite !andb_true_iff, !negb_true_iff, keqb_neq.
  assert (E1 : match alias with [] => true | _ :: _ => false end = false
               <-> alias <> []).
  { destruct alias; split; congruence. }
  assert (E2 : match dict_get (player_aliases st) steam_id with
               | Some old => negb (keqb old alias)
               | None => true
               end = true
               <-> dict_get (player_aliases st) steam_id <> Some alias).
  { destruct (dict_get (player_aliases st) steam_id) as [old|].
    - rewrite negb_true_iff, keqb_neq. split; congruence.
    - split; [discriminate | reflexivity]. }
  rewrite E1, E2. tauto.
Qed.

(** X6: [store_player_alias] changes the directory exactly when the id is
    valid, the alias is neither empty nor the placeholder, and the alias
    differs from the stored one; it then records the alias under that id
    and touches no other entry; otherwise it leaves the state as it is.
    Called again with the same arguments it reports no change. *)
Theorem store_player_alias_spec (steam_id alias : pystr) (save : bool) (st : Store) :
  let '(changed, st') := store_player_alias steam_id alias save st in
  (changed = true <->
   validate_steamid steam_id = true /\ alias <> [] /\
   alias <> str "Unknown Player" /\
   dict_get (player_aliases st) steam_id <> Some alias) /\
  (if changed
   then get_player_alias steam_id st' = alias /\
        (forall k, k <> steam_id ->
                   dict_get (player_aliases st') k = dict_get (player_aliases st) k)
   else st' = st) /\
  store_player_alias steam_id alias save st' = (false, st').
Proof.
  rewrite store_player_alias_eq.
  destruct (alias_storable steam_id alias st) eqn:Hs.
  - set (st' := (if save then save_aliases_to_file else fun s => s)
                  (with_aliases st (dict_set (player_aliases st) steam_id alias))).
    assert (Ha : player_aliases st' = dict_set (player_aliases st) steam_id alias)
      by (unfold st'; destruct save; reflexivity).
    split; [split; [intros _; apply alias_storable_iff; assumption | reflexivity]|].
    split.
    + unfold get_player_alias. rewrite Ha, dict_get_set_same. simpl.
      split; [reflexivity|]. intros k Hk. apply dict_get_set_other. congruence.
    + rewrite store_player_alias_eq.
      destruct (alias_storable steam_id alias st') eqn:Hs'; [|reflexivity].
      apply alias_storable_iff in Hs'. destruct Hs' as (_ & _ & _ & Hd).
      exfalso. apply Hd. rewrite Ha. apply dict_get_set_same.
  - split; [split; [discriminate | intros H; apply alias_storable_iff in H; congruence]|].
    split; [reflexivity|]. rewrite store_player_alias_eq, Hs. reflexivity.
Qed.

(** The spec's example: the same alias twice changes once; another alias
    changes again. *)
Example store_player_alias_example :
  let id := str "76561198356992755" in
  let '(c1, st1) := store_player_alias id (str "Alpha") false empty_store in
  let '(c2, st2) := store_player_alias id (str "Alpha") false st1 in
  let '(c3, st3) := store_player_alias id (str "Omega") false st2 in
  (c1, c2, c3) = (true, false, true) /\
  get_player_alias id st3 = str "Omega" /\
  get_player_alias (str "76561198000000001") st3 = str "Unknown Player".
Proof. vm_compute. repeat split. Qed.

(** *** Nothing is deleted *)

Lemma store_grows_refl (st : Store) : store_grows st st.
Proof. repeat split; try apply incl_refl. lia. Qed.

Lemma store_grows_trans (a b c : Store) :
  store_grows a b -> store_grows b c -> store_grows a c.
Proof.
  intros (A1 & A2 & A3 & A4) (B1 & B2 & B3 & B4).
  repeat split; try (eapply incl_tran; eassumption). lia.
Qed.

Lemma store_grows_io (e : IoEvent) (st : Store) : store_grows st (log_io e st).
Proof. repeat split; try apply incl_refl. unfold get_stored_match_count. simpl. lia. Qed.

Lemma store_player_alias_grows (steam_id alias : pystr) (save : bool) (st : Store) :
  store_grows st (snd (store_player_alias steam_id alias save st)).
Proof.
  unfold store_player_alias.
  destruct (_ || _ || _); [apply store_grows_refl|].
  destruct (match dict_get _ _ with Some _ => _ | None => _ end);
    [|apply store_grows_refl].
  assert (G : store_grows st
            (with_aliases st (dict_set (player_aliases st) steam_id alias))).
  { repeat split; simpl; try apply incl_refl.
    - apply dict_keys_set_incl.
    - unfold get_stored_match_count. simpl. lia. }
  destruct save; simpl; [|exact G].
  eapply store_grows_trans; [exact G | apply store_grows_io].
Qed.

Lemma fold_left_grows {A} (f : Store -> A -> Store) (l : list A) (st : Store) :
  (forall s a, store_grows s (f s a)) -> store_grows st (fold_left f l st).
Proof.
  intros Hf. revert st. induction l as [|a l IH]; intros st; simpl.
  - apply store_grows_refl.
  - eapply store_grows_trans; [apply Hf | apply IH].
Qed.

Lemma fold_left_pair_grows {A} (f : Z * Store -> A -> Z * Store) (l : list A)
    (acc : Z * Store) :
  (forall acc a, store_grows (snd acc) (snd (f acc a))) ->
  store_grows (snd acc) (snd (fold_left f l acc)).
Proof.
  intros Hf. revert acc. induction l as [|a l IH]; intros acc; simpl.
  - apply store_grows_refl.
  - eapply store_grows_trans; [apply Hf | apply IH].
Qed.

Lemma store_match_grows (m : RawMatch) (profiles : list Profile) (batch_mode : bool)
    (st : Store) :
  store_grows st (snd (store_match_from_history m profiles batch_mode st)).
Proof.
  unfold store_match_from_history.
  destruct (normalize _ _ _) as [[md pds]| |]; try apply store_grows_refl.
  cbn [snd].
  set (st1 := fold_left _ pds st).
  assert (G1 : store_grows st st1).
  { apply fold_left_grows. intros s a. apply store_player_alias_grows. }
  set (st3 := with_processed _ _).
  assert (G3 : store_grows st1 st3).
  { unfold st3. repeat split; simpl; try apply incl_refl.
    - apply dict_keys_set_incl.
    - unfold set_add. destruct (set_mem _ _); [apply incl_refl|].
      apply incl_appl, incl_refl.
    - unfold get_stored_match_count. simpl. apply dict_len_set. }
  destruct batch_mode.
  - eapply store_grows_trans; eassumption.
  - assert (G4 : store_grows st (save_aliases_to_file (save_match_data_to_file st3))).
    { eapply store_grows_trans; [exact G1|].
      eapply store_grows_trans; [exact G3|].
      eapply store_grows_trans; apply store_grows_io. }
    destruct (printable _ _); exact G4.
Qed.

Lemma batch_store_aliases_grows (profiles : list Profile) (save_after : bool)
    (st : Store) :
  store_grows st (snd (batch_store_aliases_from_profiles profiles save_after st)).
Proof.
  unfold batch_store_aliases_from_profiles.
  match goal with
  | |- context [fold_left ?f profiles (0, st)] =>
      pose proof (fold_left_pair_grows f profiles (0, st)) as H;
      destruct (fold_left f profiles (0, st)) as [n s]
  end.
  simpl in *.
  assert (G : store_grows st s).
  { apply H. intros [n' s'] p. simpl.
    destruct (startswith _ _); [|apply store_grows_refl].
    pose proof (store_player_alias_grows
                  (remove_all steam_prefix (get_or (profile_name p) []))
                  (get_or (profile_alias p) (str "Unknown Player")) false s') as Hs.
    destruct (store_player_alias _ _ false s') as [c s'']. exact Hs. }
  destruct (Z.ltb 0 n && save_after); [|exact G].
  eapply store_grows_trans; [exact G | apply store_grows_io].
Qed.

Lemma extract_elos_keeps (up : Upstream) (steam_id : pystr) (batch_mode : bool)
    (tick : nat) (st : Store) :
  store_grows st (snd (extract_elos up steam_id batch_mode tick st)).
Proof.
  unfold extract_elos.
  destruct (fetch_match_history up tick steam_id) as [h|]; [|apply store_grows_refl].
  destruct (find_own_profile _ _) as [[pid alias]| |]; try apply store_grows_refl.
  destruct (truthy pid); [|apply store_grows_refl].
  pose proof (store_player_alias_grows steam_id alias false st) as G1.
  destruct (filter_1v1_matches _) as [[|m ms]| |]; try exact G1.
  match goal with
  | |- context [fold_left ?f (m :: ms) ?a] =>
      pose proof (fold_left_pair_grows f (m :: ms) a) as G2;
      destruct (fold_left f (m :: ms) a) as [n s]
  end.
  simpl snd in *.
  assert (G2' : store_grows (snd (store_player_alias steam_id alias false st)) s).
  { apply G2. intros [n' s'] m'. simpl.
    pose proof (store_match_grows m' (get_or (h_profiles h) []) true s') as H3.
    destruct (store_match_from_history m' _ true s') as [b s'']. exact H3. }
  pose proof (batch_store_aliases_grows (get_or (h_profiles h) [])
                (negb batch_mode) s) as G3.
  eapply store_grows_trans; [exact G1|].
  eapply store_grows_trans; [exact G2'|].
  destruct (negb batch_mode && Z.ltb 0 n); [|exact G3].
  destruct (printable _ _); cbn [snd];
    (eapply store_grows_trans; [exact G3 | apply store_grows_io]).
Qed.

(** X7: whatever the upstream answers and in either mode, [extract_elos]
    deletes nothing: every alias, stored match and processed id is still
    there afterwards, and the match count has not gone down; this also
    holds when the call ends by an exception. *)
Theorem extract_elos_grows (up : Upstream) (steam_id : pystr) (batch_mode : bool)
    (tick : nat) (st : Store) :
  store_grows st (snd (extract_elos up steam_id batch_mode tick st)).
Proof. apply extract_elos_keeps. Qed.

(** *** Harvesting aliases from a batch of profiles *)

Lemma batch_store_fold (profiles : list Profile) (n0 : Z) (s0 : Store) :
  let '(n, s) :=
    fold_left
      (fun (acc : Z * Store) profile =>
         let '(n, s) := acc in
         let profile_name := get_or (profile_name profile) [] in
         if startswith profile_name steam_prefix then
           let steam_id := remove_all steam_prefix profile_name in
           let alias := get_or (profile_alias profile) (str "Unknown Player") in
           let '(changed, s') := store_player_alias steam_id alias false s in
           (if changed then n + 1 else n, s')
         else acc)
      profiles (n0, s0) in
  n0 <= n <= n0 + Z.of_nat (List.length profiles) /\
  io_log s = io_log s0 /\
  (n = n0 -> s = s0).
Proof.
  revert n0 s0. induction profiles as [|p profiles IH]; intros n0 s0.
  - simpl. repeat split; lia.
  - cbn [fold_left].
    destruct (startswith (get_or (profile_name p) []) steam_prefix).
    + rewrite store_player_alias_eq.
      destruct (alias_storable _ _ s0) eqn:Hs.
      * specialize (IH (n0 + 1)
          (with_aliases s0
             (dict_set (player_aliases s0)
                (remove_all steam_prefix (get_or (profile_name p) []))
                (get_or (profile_alias p) (str "Unknown Player"))))).
        cbv beta iota in IH |- *.
        destruct (fold_left _ profiles _) as [n s].
        destruct IH as (I1 & I2 & I3). simpl List.length.
        split; [lia|]. split; [exact I2 | intros; lia].
      * specialize (IH n0 s0). cbv beta iota in IH |- *.
        destruct (fold_left _ profiles _) as [n s].
        destruct IH as (I1 & I2 & I3). simpl List.length.
        split; [lia|]. split; [exact I2 | exact I3].
    + specialize (IH n0 s0). destruct (fold_left _ profiles _) as [n s].
      destruct IH as (I1 & I2 & I3). simpl List.length.
      split; [lia|]. split; [exact I2 | exact I3].
Qed.

(** X8: [batch_store_aliases_from_profiles] returns a count between 0 and
    the number of profiles; it calls the alias writer once, at the end,
    exactly when the count is positive and saving was asked for; a count
    of 0 means that the state is as it was. *)
Theorem batch_store_aliases_count (profiles : list Profile) (save_after : bool)
    (st : Store) :
  let '(n, st') := batch_store_aliases_from_profiles profiles save_after st in
  0 <= n <= Z.of_nat (List.length profiles) /\
  io_log st'
  = io_log st ++ (if Z.ltb 0 n && save_after then [SaveAliases] else []) /\
  (n = 0 -> st' = st).
Proof.
  unfold batch_store_aliases_from_profiles.
  pose proof (batch_store_fold profiles 0 st) as H.
  destruct (fold_left _ profiles (0, st)) as [n s].
  destruct H as (H1 & H2 & H3).
  split; [lia|]. split.
  - destruct (Z.ltb 0 n && save_after); simpl; rewrite H2;
      [reflexivity | rewrite app_nil_r; reflexivity].
  - intros ->. simpl. apply H3. reflexivity.
Qed.

(** Two profiles with a platform name and one without: both aliases are
    new, and the directory is written once. *)
Example batch_store_aliases_example :
  let '(n, st') :=
    batch_store_aliases_from_profiles
      (example_profiles ++
       [ {| profile_profile_id := Some 30; profile_name := Some (str "/xbox/1");
            profile_alias := Some (str "Gamma") |} ])
      true empty_store in
  n = 2 /\ io_log st' = [SaveAliases] /\
  dict_values (player_aliases st') = [str "Alpha"; str "Beta"].
Proof. vm_compute. repeat split. Qed.

(** *** Loading the alias directory *)

Lemma alias_update_all (entries acc : dict pystr pystr) :
  NoDup (dict_keys acc ++ dict_keys entries) ->
  fold_left (fun d kv => dict_set d (fst kv) (snd kv)) entries acc = acc ++ entries.
Proof.
  revert acc. induction entries as [|[k v] entries IH]; intros acc Hnd;
    cbn [fold_left fst snd].
  - rewrite app_nil_r. reflexivity.
  - simpl in Hnd. rewrite dict_set_fresh.
    + rewrite IH; [rewrite <- app_assoc; reflexivity|].
      unfold dict_keys in *. rewrite map_app, <- app_assoc. exact Hnd.
    + apply NoDup_remove_2 in Hnd. intros Hin. apply Hnd.
      apply in_or_app. left; assumption.
Qed.

(** *** What the standard output can write *)

Lemma printable_app (st : Store) (a b : pystr) :
  printable st (a ++ b) = printable st a && printable st b.
Proof. unfold printable. apply forallb_app. Qed.

Lemma printable_digits (st : Store) (d : Decimal.uint) :
  printable st (str (NilEmpty.string_of_uint d)) = true.
Proof. induction d; simpl; auto. Qed.

Lemma printable_uint (st : Store) (d : Decimal.uint) :
  printable st (str (NilZero.string_of_uint d)) = true.
Proof. destruct d; try reflexivity; apply (printable_digits st). Qed.

Lemma printable_str_of_int (st : Store) (n : Z) :
  printable st (str_of_int n) = true.
Proof.
  unfold str_of_int, NilZero.string_of_int.
  destruct (Z.to_int n) as [d|d]; exact (printable_uint st d).
Qed.

(** The text printed after loading can be written exactly when the
    ["last_updated"] of the file can. *)
Lemma printable_loaded_announcement (st : Store) (total_count : Z)
    (last_updated : pystr) :
  printable st (loaded_announcement total_count last_updated)
  = printable st last_updated.
Proof.
  unfold loaded_announcement. rewrite !printable_app, printable_str_of_int.
  change (printable st (str "Player aliases loaded from player_aliases.json - "))
    with true.
  change (printable st (str " aliases (last updated: ")) with true.
  change (printable st (str ")")) with true.
  simpl. apply andb_true_r.
Qed.

Lemma update_from_items_pairs (entries : list (pystr * pystr))
    (d : dict pystr pystr) :
  update_from_items (pairs_of entries) d
  = Some (fold_left (fun d kv => dict_set d (fst kv) (snd kv)) entries d).
Proof.
  revert d. induction entries as [|[k v] entries IH]; intros d; simpl;
    [reflexivity | apply IH].
Qed.

Lemma update_from_items_not_pair (items : list AliasItem) (d : dict pystr pystr) :
  In ItemNotPair items -> update_from_items items d = None.
Proof.
  revert d. induction items as [|[k v|] items IH]; intros d; simpl.
  - intros [].
  - intros [E|Hin]; [discriminate | apply IH, Hin].
  - reflexivity.
Qed.

Lemma with_aliases_aliases (st : Store) (a : dict pystr pystr) :
  player_aliases (with_aliases st a) = a.
Proof. reflexivity. Qed.

(** X9: the document that [save_aliases_to_file] writes loads back in
    full, replacing the current directory.  An array of [key, alias]
    pairs under ["player_aliases"] is loaded like the object with those
    entries.  The directory is left empty by an array with an element that
    is not a pair, by a value that cannot be iterated, by a
    ["last_updated"] text that the standard output cannot write, and by a
    file that is unparseable or not an object.  A missing file leaves the
    state as it is, and no load touches the matches. *)
Theorem load_aliases_round_trip (saved st : Store) (now : pystr)
    (file : AliasFile) :
  NoDup (dict_keys (player_aliases saved)) ->
  printable st now = true ->
  player_aliases (load_aliases_from_file (alias_snapshot_of now saved) st)
  = player_aliases saved /\
  (forall entries last_updated,
     load_aliases_from_file
       (AliasFileObject (Some (AliasesSequence (pairs_of entries))) last_updated) st
     = load_aliases_from_file
         (AliasFileObject (Some (AliasesDict entries)) last_updated) st) /\
  (forall items last_updated,
     In ItemNotPair items ->
     player_aliases
       (load_aliases_from_file
          (AliasFileObject (Some (AliasesSequence items)) last_updated) st) = []) /\
  (forall aliases last_updated,
     printable st last_updated = false ->
     player_aliases
       (load_aliases_from_file (AliasFileObject aliases (Some last_updated)) st)
     = []) /\
  (forall last_updated,
     player_aliases
       (load_aliases_from_file
          (AliasFileObject (Some AliasesNotIterable) last_updated) st) = []) /\
  player_aliases (load_aliases_from_file AliasFileUnparseable st) = [] /\
  player_aliases (load_aliases_from_file AliasFileNotObject st) = [] /\
  load_aliases_from_file AliasFileMissing st = st /\
  stored_matches (load_aliases_from_file file st) = stored_matches st /\
  processed_match_ids (load_aliases_from_file file st) = processed_match_ids st.
Proof.
  intros Hnd Hnow.
  assert (Hframe : forall f,
            stored_matches (load_aliases_from_file f st) = stored_matches st /\
            processed_match_ids (load_aliases_from_file f st)
            = processed_match_ids st).
  { intros f. unfold load_aliases_from_file.
    destruct f as [| | |aliases last_updated]; try (split; reflexivity).
    destruct (update_aliases _); [|split; reflexivity].
    match goal with
    | |- context [if ?c then _ else _] => destruct c
    end; split; reflexivity. }
  split.
  { unfold load_aliases_from_file, alias_snapshot_of.
    cbn [get_or update_aliases].
    rewrite (alias_update_all (player_aliases saved) []) by exact Hnd.
    cbn [app]. rewrite printable_loaded_announcement.
    rewrite (printable_same st _ now) by reflexivity.
    cbn [get_or]. rewrite Hnow. reflexivity. }
  split.
  { intros entries last_updated. unfold load_aliases_from_file.
    cbn [get_or update_aliases]. rewrite update_from_items_pairs. reflexivity. }
  split.
  { intros items last_updated Hin. unfold load_aliases_from_file.
    cbn [get_or update_aliases].
    rewrite (update_from_items_not_pair items [] Hin). reflexivity. }
  split.
  { intros aliases last_updated Hlu. unfold load_aliases_from_file.
    destruct (update_aliases _) as [loaded|]; [|reflexivity].
    rewrite printable_loaded_announcement.
    rewrite (printable_same st _ _) by reflexivity.
    cbn [get_or]. rewrite Hlu. reflexivity. }
  split; [reflexivity|]. split; [reflexivity|]. split; [reflexivity|].
  split; [reflexivity|]. apply Hframe.
Qed.

Lemma load_aliases_round_trip_witness :
  NoDup (dict_keys (player_aliases example_store)) /\
  printable empty_store (str "2024-05-01T12:00:00.000000") = true /\
  player_aliases
    (load_aliases_from_file
       (alias_snapshot_of (str "2024-05-01T12:00:00.000000") example_store)
       empty_store)
  = player_aliases example_store /\
  player_aliases
    (load_aliases_from_file
       (AliasFileObject (Some (AliasesSequence [ItemPair (str "a") (str "b");
                                                ItemNotPair])) None)
       empty_store) = [].
Proof.
  assert (H : NoDup (dict_keys (player_aliases example_store))).
  { vm_compute. repeat constructor; simpl; intuition discriminate. }
  assert (H' : printable empty_store (str "2024-05-01T12:00:00.000000") = true)
    by reflexivity.
  split; [exact H|]. split; [exact H'|].
  destruct (load_aliases_round_trip example_store empty_store
              (str "2024-05-01T12:00:00.000000") AliasFileUnparseable H H')
    as (R1 & _ & R3 & _).
  split; [exact R1|].
  apply R3. right. left. reflexivity.
Defined.

(** A file whose ["player_aliases"] is an array of two pairs loads both;
    one whose ["last_updated"] holds a lone surrogate is loaded and then
    emptied again, under a UTF-8 standard output. *)
Example load_aliases_examples :
  player_aliases
    (load_aliases_from_file
       (AliasFileObject
          (Some (AliasesSequence
                   [ItemPair (str "76561198000000001") (str "Alpha");
                    ItemPair (str "76561198000000002") (str "Beta")]))
          None)
       empty_store)
  = [(str "76561198000000001", str "Alpha");
     (str "76561198000000002", str "Beta")] /\
  player_aliases
    (load_aliases_from_file
       (AliasFileObject
          (Some (AliasesDict [(str "76561198000000001", str "Alpha")]))
          (Some [56448%N]))
       empty_store)
  = [].
Proof. vm_compute. split; reflexivity. Qed.

(** X24: the snapshot that [save_match_data_to_file] writes of a store
    loads back in full, matches and processed ids, replacing the current
    ones; an object without the two keys empties both; a missing file
    leaves the state as it is; and no load touches the alias directory or
    calls a writer. *)
Theorem load_match_data_round_trip (saved st : Store) (file : FileContent) :
  NoDup (dict_keys (stored_matches saved)) ->
  NoDup (processed_match_ids saved) ->
  stored_matches (load_match_data_from_file (snapshot_of saved) st)
  = stored_matches saved /\
  processed_match_ids (load_match_data_from_file (snapshot_of saved) st)
  = processed_match_ids saved /\
  stored_matches (load_match_data_from_file (FileObject None None) st) = [] /\
  processed_match_ids (load_match_data_from_file (FileObject None None) st) = [] /\
  load_match_data_from_file FileMissing st = st /\
  player_aliases (load_match_data_from_file file st) = player_aliases st /\
  io_log (load_match_data_from_file file st) = io_log st.
Proof.
  intros Hm Hp.
  destruct (load_match_data_snapshot saved st Hm Hp) as [E1 E2].
  split; [exact E1|]. split; [exact E2|].
  split; [reflexivity|]. split; [reflexivity|]. split; [reflexivity|].
  unfold load_match_data_from_file.
  destruct file as [| | |stored processed]; try (split; reflexivity).
  destruct (get_or stored (MatchesDict [])) as [|entries]; [split; reflexivity|].
  destruct (load_entries entries []) as [loaded finished].
  destruct finished; [|split; reflexivity].
  destruct (get_or processed (IdsList [])); split; reflexivity.
Qed.

Lemma load_match_data_round_trip_witness :
  NoDup (dict_keys (stored_matches example_store)) /\
  NoDup (processed_match_ids example_store) /\
  stored_matches (load_match_data_from_file (snapshot_of example_store) empty_store)
  = stored_matches example_store /\
  processed_match_ids
    (load_match_data_from_file (snapshot_of example_store) empty_store)
  = processed_match_ids example_store /\
  stored_matches (load_match_data_from_file (FileObject None None) empty_store) = [] /\
  processed_match_ids (load_match_data_from_file (FileObject None None) empty_store)
  = [] /\
  load_match_data_from_file FileMissing empty_store = empty_store /\
  player_aliases (load_match_data_from_file FileUnparseable empty_store)
  = player_aliases empty_store /\
  io_log (load_match_data_from_file FileUnparseable empty_store)
  = io_log empty_store.
Proof.
  assert (H1 : NoDup (dict_keys (stored_matches example_store))).
  { vm_compute. repeat constructor; simpl; intuition discriminate. }
  assert (H2 : NoDup (processed_match_ids example_store)).
  { vm_compute. repeat constructor; simpl; intuition discriminate. }
  split; [exact H1|]. split; [exact H2|].
  exact (load_match_data_round_trip example_store empty_store FileUnparseable H1 H2).
Defined.

(* ------------------------------------------------------------------ *)
(** ** The bulk scanner, continued *)

Lemma bulk_scan_io_paths (up : Upstream) (cb : Callback) (st st' : Store)
    (path : ScanPath) (r : Results) :
  bulk_scan_for_matches up cb st = Some (path, r, st') ->
  io_log st'
  = io_log st ++ match path with Completed => [SaveMatchData] | _ => [] end.
Proof.
  unfold bulk_scan_for_matches, bulk_scan_body, report. simpl.
  destruct (negb (cb O)); simpl.
  - destruct (cb 1%nat); intros [= <- _ <-]; simpl; rewrite app_nil_r; reflexivity.
  - match goal with
    | |- context [scan_leaderboards up cb known_leaderboards ?s] =>
        destruct (scan_leaderboards up cb known_leaderboards s)
          as [[[|] sc]|] eqn:Hs; simpl; try discriminate
    end; apply scan_leaderboards_io in Hs; simpl in Hs.
    + destruct (negb (cb (sc_reports sc))); simpl.
      * destruct (cb (S (sc_reports sc))); intros [= <- _ <-]; simpl;
          rewrite app_nil_r; exact Hs.
      * intros [= <- _ <-]. simpl. rewrite Hs. reflexivity.
    + destruct (cb (sc_reports sc)); intros [= <- _ <-]; simpl;
        rewrite app_nil_r; exact Hs.
Qed.

(** X10: every call of [bulk_scan_for_matches] ends, no page loop running
    past its five pages; it calls the match-data writer once, as its last
    action, when its body runs to the end, and no writer at all when it
    ends through its handler; it never calls the alias writer. *)
Theorem bulk_scan_io (up : Upstream) (cb : Callback) (st : Store) :
  match bulk_scan_for_matches up cb st with
  | Some (path, r, st') =>
      io_log st'
      = io_log st ++ match path with Completed => [SaveMatchData] | _ => [] end
  | None => False
  end.
Proof.
  destruct (bulk_scan_terminates up cb st) as [[[path r] st'] H].
  rewrite H. exact (bulk_scan_io_paths up cb st st' path r H).
Qed.

(** A scan whose second progress report raises ends through its handler
    and writes nothing. *)
Example bulk_scan_error_example :
  match bulk_scan_for_matches example_upstream (fun n => Nat.eqb n 0 || Nat.ltb 1 n)
                              empty_store with
  | Some (path, r, st') => path = CriticalError /\ errors r = 1 /\ io_log st' = []
  | None => False
  end.
Proof. vm_compute. repeat split. Qed.

Lemma scan_stat_group_sound (st0 : Store) (up : Upstream) (acc : Scan * Z)
    (sg : StatGroup) :
  scan_sound st0 (fst acc) -> scan_sound st0 (fst (scan_stat_group up acc sg)).
Proof.
  destruct acc as [sc n]. unfold scan_stat_group. cbn [fst]. intros Hsc.
  destruct (get_or (sg_members sg) []) as [|member rest]; [exact Hsc|].
  destruct (negb (startswith _ _)); [exact Hsc|].
  destruct (negb (validate_steamid _)); [exact Hsc|].
  set (steam_id := remove_all steam_prefix (get_or (gm_name member) [])).
  set (alias := get_or (gm_alias member) (str "Unknown Player")).
  set (st1 := with_aliases (sc_store sc)
                (dict_set (player_aliases (sc_store sc)) steam_id alias)).
  assert (G1 : store_grows (sc_store sc) st1).
  { unfold st1. repeat split; simpl; try apply incl_refl.
    - apply dict_keys_set_incl.
    - unfold get_stored_match_count. simpl. lia. }
  assert (C1 : get_stored_match_count st1 = get_stored_match_count (sc_store sc))
    by reflexivity.
  pose proof (extract_elos_keeps up steam_id true (sc_requests sc) st1) as G2.
  destruct (extract_elos up steam_id true (sc_requests sc) st1) as [done st2].
  cbn [snd] in G2.
  destruct Hsc as (H1 & H2 & H3 & H4 & H5 & H6).
  assert (G : store_grows st0 st2).
  { eapply store_grows_trans; [exact H1|].
    eapply store_grows_trans; eassumption. }
  assert (C2 : get_stored_match_count st1 <= get_stored_match_count st2)
    by (destruct G2 as (_ & _ & _ & C); exact C).
  destruct done; unfold scan_sound; cbn [fst sc_store sc_results
    total_players_processed new_players_found errors total_matches_added];
    (split; [exact G|]); repeat split;
    try (destruct (negb (dict_mem (player_aliases (sc_store sc)) steam_id)); lia);
    lia.
Qed.

Lemma scan_stat_groups_sound (st0 : Store) (up : Upstream) (sgs : list StatGroup)
    (acc : Scan * Z) :
  scan_sound st0 (fst acc) ->
  scan_sound st0 (fst (fold_left (scan_stat_group up) sgs acc)).
Proof.
  revert acc. induction sgs as [|sg sgs IH]; intros acc Hacc; simpl; [exact Hacc|].
  apply IH, scan_stat_group_sound, Hacc.
Qed.

Lemma scan_sound_results (st0 : Store) (sc : Scan) (r : Results) (n m : nat) :
  scan_sound st0 sc ->
  total_players_processed r = total_players_processed (sc_results sc) ->
  new_players_found r = new_players_found (sc_results sc) ->
  total_matches_added r = total_matches_added (sc_results sc) ->
  errors (sc_results sc) <= errors r ->
  scan_sound st0 {| sc_store := sc_store sc; sc_results := r;
                    sc_requests := n; sc_reports := m |}.
Proof.
  intros (H1 & H2 & H3 & H4 & H5 & H6) E1 E2 E3 E4.
  unfold scan_sound. cbn [sc_store sc_results]. rewrite E1, E2, E3.
  split; [exact H1|]. repeat split; lia.
Qed.

Lemma scan_sound_ext (st0 : Store) (sc sc' : Scan) :
  scan_sound st0 sc ->
  sc_store sc' = sc_store sc ->
  total_players_processed (sc_results sc') = total_players_processed (sc_results sc) ->
  new_players_found (sc_results sc') = new_players_found (sc_results sc) ->
  total_matches_added (sc_results sc') = total_matches_added (sc_results sc) ->
  errors (sc_results sc) <= errors (sc_results sc') ->
  scan_sound st0 sc'.
Proof.
  intros (H1 & H2 & H3 & H4 & H5 & H6) E0 E1 E2 E3 E4.
  unfold scan_sound. rewrite E0, E1, E2, E3.
  split; [exact H1|]. repeat split; lia.
Qed.

Ltac scan_same :=
  eapply scan_sound_ext; [eassumption | reflexivity | reflexivity | reflexivity
                          | reflexivity | simpl; lia].

Lemma scan_pages_sound (st0 : Store) (fuel : nat) (up : Upstream) (cb : Callback)
    (lb_id start : Z) (acc acc' : Scan * Z) :
  scan_sound st0 (fst acc) ->
  scan_pages fuel up cb lb_id start acc = Some acc' ->
  scan_sound st0 (fst acc').
Proof.
  revert start acc. induction fuel as [|fuel IH]; intros start [sc n] Hsc;
    unfold scan_pages; fold scan_pages; [discriminate|].
  cbn [fst] in Hsc. cbv beta iota zeta.
  set (sc1 := {| sc_store := sc_store sc; sc_results := sc_results sc;
                 sc_requests := S (sc_requests sc); sc_reports := sc_reports sc |}).
  assert (Hsc1 : scan_sound st0 sc1) by (unfold sc1; scan_same).
  destruct (match fetch_leaderboard_data up (sc_requests sc) lb_id start 200 with
            | Some d => get_or (lb_statGroups d) []
            | None => []
            end) as [|sg sgs].
  - intros [= <-]. exact Hsc1.
  - pose proof (scan_stat_groups_sound st0 up (sg :: sgs) (sc1, n) Hsc1) as Hsc2.
    destruct (fold_left (scan_stat_group up) (sg :: sgs) (sc1, n)) as [sc2 n2].
    cbn [fst] in Hsc2. unfold report. cbv beta iota.
    destruct (negb (cb (sc_reports sc2))).
    + intros [= <-]. cbn [fst]. scan_same.
    + destruct (Z.ltb _ 200).
      * intros [= <-]. cbn [fst]. scan_same.
      * destruct (Z.ltb 1000 (start + 200)).
        -- intros [= <-]. cbn [fst]. scan_same.
        -- intros H. eapply IH; [|exact H]. cbn [fst]. scan_same.
Qed.

Lemma scan_leaderboards_sound (st0 : Store) (up : Upstream) (cb : Callback)
    (lbs : list (Z * pystr)) (sc : Scan) (c : completion) (sc' : Scan) :
  scan_sound st0 sc ->
  scan_leaderboards up cb lbs sc = Some (c, sc') ->
  scan_sound st0 sc'.
Proof.
  revert sc. induction lbs as [|[lb_id name] lbs IH]; intros sc Hsc;
    unfold scan_leaderboards; fold scan_leaderboards.
  - intros [= _ <-]. exact Hsc.
  - unfold report. cbv beta iota. destruct (negb (cb (sc_reports sc))).
    + intros [= _ <-]. scan_same.
    + match goal with
      | |- context [scan_pages page_fuel up cb lb_id 1 ?a] =>
          pose proof (scan_pages_sound st0 page_fuel up cb lb_id 1 a) as Hp;
          destruct (scan_pages page_fuel up cb lb_id 1 a) as [[sc2 n2]|];
            [|discriminate]
      end.
      specialize (Hp (sc2, n2)). cbn [fst] in Hp.
      assert (Hsc2 : scan_sound st0 sc2) by (apply Hp; [scan_same | reflexivity]).
      intros H. eapply IH; [|exact H]. scan_same.
Qed.

Lemma bulk_scan_sound_paths (up : Upstream) (cb : Callback) (st st' : Store)
    (path : ScanPath) (r : Results) :
  bulk_scan_for_matches up cb st = Some (path, r, st') ->
  scan_sound st {| sc_store := st'; sc_results := r;
                   sc_requests := O; sc_reports := O |}.
Proof.
  assert (H0 : forall n m,
             scan_sound st {| sc_store := st; sc_results := results_init;
                              sc_requests := n; sc_reports := m |}).
  { intros n m. unfold scan_sound. simpl.
    split; [apply store_grows_refl|]. repeat split; lia. }
  unfold bulk_scan_for_matches, bulk_scan_body, report. cbv beta iota zeta.
  cbn [sc_reports sc_store sc_results sc_requests].
  destruct (negb (cb O)).
  - cbn [sc_reports sc_store sc_results sc_requests].
    destruct (cb 1%nat); intros [= _ <- <-];
      eapply scan_sound_ext; try apply (H0 O 1%nat); try reflexivity; simpl; lia.
  - match goal with
    | |- context [scan_leaderboards up cb known_leaderboards ?s] =>
        pose proof (scan_leaderboards_sound st up cb known_leaderboards s) as Hl;
        destruct (scan_leaderboards up cb known_leaderboards s)
          as [[[|] sc]|]; [| |discriminate]
    end.
    + specialize (Hl Returned sc (H0 _ _) eq_refl).
      cbn [sc_reports sc_store sc_results sc_requests].
      destruct (negb (cb (sc_reports sc))).
      * cbn [sc_reports sc_store sc_results sc_requests].
        destruct (cb (S (sc_reports sc))); intros [= _ <- <-];
          eapply scan_sound_ext; try exact Hl; try reflexivity; simpl; lia.
      * intros [= _ <- <-].
        destruct Hl as (G & L2 & L3 & L4 & L5 & L6).
        unfold scan_sound. cbn [sc_store sc_results].
        split; [eapply store_grows_trans; [exact G | apply store_grows_io]|].
        repeat split; try lia. exact L6.
    + specialize (Hl Threw sc (H0 _ _) eq_refl).
      cbn [sc_reports sc_store sc_results sc_requests].
      destruct (cb (sc_reports sc)); intros [= _ <- <-];
        eapply scan_sound_ext; try exact Hl; try reflexivity; simpl; lia.
Qed.

(** X11: a bulk scan deletes nothing (every alias, match and processed id
    it started with is still there), its counters are not negative, and
    the matches it reports as added are matches the store has gained: the
    match count has grown by at least [total_matches_added].  This holds
    on every path, for every upstream and callback. *)
Theorem bulk_scan_sound (up : Upstream) (cb : Callback) (st : Store) :
  match bulk_scan_for_matches up cb st with
  | Some (path, r, st') =>
      store_grows st st' /\
      0 <= total_players_processed r /\
      0 <= new_players_found r /\
      0 <= errors r /\
      0 <= total_matches_added r /\
      get_stored_match_count st + total_matches_added r
      <= get_stored_match_count st'
  | None => False
  end.
Proof.
  destruct (bulk_scan_terminates up cb st) as [[[path r] st'] H].
  rewrite H. exact (bulk_scan_sound_paths up cb st st' path r H).
Qed.

(* ------------------------------------------------------------------ *)
(** ** Sorting and the queries *)

Lemma insert_desc_perm {A} (key : A -> Z) (x : A) (l : list A) :
  Permutation (insert_desc key x l) (x :: l).
Proof.
  induction l as [|y l IH]; simpl; [apply Permutation_refl|].
  destruct (Z.leb (key y) (key x)); [apply Permutation_refl|].
  eapply Permutation_trans; [apply perm_skip, IH | apply perm_swap].
Qed.

Lemma sort_desc_perm {A} (key : A -> Z) (l : list A) :
  Permutation (sort_desc key l) l.
Proof.
  induction l as [|x l IH]; simpl; [apply Permutation_refl|].
  eapply Permutation_trans; [apply insert_desc_perm | apply perm_skip, IH].
Qed.

Lemma insert_desc_sorted {A} (key : A -> Z) (x : A) (l : list A) :
  descending key l -> descending key (insert_desc key x l).
Proof.
  unfold descending. intros Hl. induction Hl as [|y l Hl IH Hy]; simpl.
  - constructor; constructor.
  - destruct (Z.leb (key y) (key x)) eqn:E.
    + apply Z.leb_le in E. constructor; [constructor; assumption|].
      constructor; [assumption|].
      rewrite Forall_forall in *. intros z Hz. specialize (Hy z Hz). lia.
    + apply Z.leb_gt in E. constructor; [assumption|].
      apply (Permutation_Forall (Permutation_sym (insert_desc_perm key x l))).
      constructor; [lia | assumption].
Qed.

Lemma sort_desc_sorted {A} (key : A -> Z) (l : list A) :
  descending key (sort_desc key l).
Proof.
  induction l as [|x l IH]; simpl; [constructor|].
  apply insert_desc_sorted, IH.
Qed.

Lemma descending_firstn {A} (key : A -> Z) (n : nat) (l : list A) :
  descending key l -> descending key (firstn n l).
Proof.
  unfold descending. intros Hl. revert n.
  induction Hl as [|x l Hl IH Hx]; intros [|n]; simpl; try constructor.
  - apply IH.
  - apply Forall_firstn. assumption.
Qed.

Lemma descending_slice_to {A} (key : A -> Z) (l : list A) (limit : Z) :
  descending key l -> descending key (slice_to l limit).
Proof.
  intros Hl. unfold slice_to. destruct (Z.leb 0 limit); apply descending_firstn, Hl.
Qed.

Lemma slice_to_length {A} (l : list A) (limit : Z) :
  0 <= limit -> Z.of_nat (List.length (slice_to l limit)) <= limit.
Proof.
  intros Hl. unfold slice_to.
  assert (E : Z.leb 0 limit = true) by (apply Z.leb_le; assumption).
  rewrite E, length_firstn. lia.
Qed.

Lemma slice_to_all {A} (l : list A) (limit : Z) :
  Z.of_nat (List.length l) <= limit -> slice_to l limit = l.
Proof.
  intros Hl. unfold slice_to.
  assert (E : Z.leb 0 limit = true) by (apply Z.leb_le; lia).
  rewrite E. apply firstn_all2. lia.
Qed.

Lemma In_firstn_incl {A} (n : nat) (l : list A) (x : A) :
  In x (firstn n l) -> In x l.
Proof.
  revert n. induction l as [|y l IH]; intros [|n]; simpl; try tauto.
  intros [->|H]; [left; reflexivity | right; eapply IH; eassumption].
Qed.

Lemma slice_to_incl {A} (l : list A) (limit : Z) : incl (slice_to l limit) l.
Proof.
  unfold slice_to. intros x Hx.
  destruct (Z.leb 0 limit); eapply In_firstn_incl; eassumption.
Qed.

(** X12: [get_matches_by_player] returns stored matches that feature the
    player, latest completion first, and no more than [limit] of them for
    a [limit] that is not negative; when the limit does not cut, they are
    all the stored matches of the player. *)
Theorem get_matches_by_player_spec (steam_id : pystr) (limit : Z) (st : Store) :
  let result := get_matches_by_player steam_id limit st in
  let all := filter (features steam_id) (dict_values (stored_matches st)) in
  Forall (fun m => player1_steamid m = steam_id \/ player2_steamid m = steam_id)
         result /\
  incl result (dict_values (stored_matches st)) /\
  descending completion_time result /\
  (0 <= limit -> Z.of_nat (List.length result) <= limit) /\
  (Z.of_nat (List.length all) <= limit -> Permutation result all).
Proof.
  unfold get_matches_by_player.
  set (all := filter (features steam_id) (dict_values (stored_matches st))).
  cbv zeta.
  assert (Hin : incl (slice_to (sort_desc completion_time all) limit) all).
  { intros m Hm. apply slice_to_incl in Hm.
    apply (Permutation_in _ (sort_desc_perm completion_time all)). exact Hm. }
  split; [|split; [|split; [|split]]].
  - apply Forall_forall. intros m Hm. apply Hin in Hm.
    unfold all in Hm. apply filter_In in Hm. destruct Hm as [_ Hf].
    unfold features in Hf. apply orb_true_iff in Hf.
    destruct Hf as [Hf|Hf]; apply keqb_eq in Hf; auto.
  - intros m Hm. apply Hin in Hm. unfold all in Hm.
    apply filter_In in Hm. tauto.
  - apply descending_slice_to, sort_desc_sorted.
  - apply slice_to_length.
  - intros Hlen. rewrite slice_to_all; [apply sort_desc_perm|].
    rewrite (Permutation_length (sort_desc_perm completion_time all)). exact Hlen.
Qed.

(** Of the two stored matches, both of which feature the first player, the
    later one comes first; a limit of 1 keeps only that one; a player who
    is not in the store has no matches. *)
Example get_matches_by_player_example :
  map match_id (get_matches_by_player (str "76561198356992755") 10 two_match_store)
  = [str "4243"; str "4242"] /\
  map match_id (get_matches_by_player (str "76561198356992755") 1 two_match_store)
  = [str "4243"] /\
  get_matches_by_player (str "76561198000000009") 10 two_match_store = [].
Proof. vm_compute. repeat split. Qed.

(** *** The 1v1 filter of a match history *)

Lemma flow_map_keyed (ms : list RawMatch) :
  match flow_map (fun m => k <- subscript (raw_completiontime m) ;; Next (k, m)) ms with
  | Next keyed =>
      map snd keyed = ms /\
      Forall (fun km => raw_completiontime (snd km) = Some (fst km)) keyed
  | EarlyReturn => False
  | Raised => exists m, In m ms /\ raw_completiontime m = None
  end.
Proof.
  induction ms as [|m ms IH]; simpl; [split; constructor|].
  destruct (raw_completiontime m) as [k|] eqn:Hk; simpl.
  - destruct (flow_map _ ms) as [keyed| |]; simpl.
    + destruct IH as [I1 I2]. split; [simpl; f_equal; exact I1|].
      constructor; [exact Hk | exact I2].
    + exact IH.
    + destruct IH as (m' & Hin & Hn). exists m'. split; [right; exact Hin | exact Hn].
  - exists m. split; [left; reflexivity | exact Hk].
Qed.

Lemma descending_map {A B} (f : A -> B) (key : A -> Z) (key' : B -> Z) (l : list A) :
  Forall (fun a => key' (f a) = key a) l ->
  descending key l -> descending key' (map f l).
Proof.
  unfold descending. intros Hk Hl. induction Hl as [|x l Hl IH Hx]; simpl.
  - constructor.
  - inversion Hk as [|? ? Kx Kl]; subst. constructor; [apply IH; assumption|].
    rewrite Forall_map. rewrite Forall_forall in *. intros y Hy.
    rewrite Kx, (Kl y Hy). apply Hx, Hy.
Qed.

(** X13: [filter_1v1_matches] raises exactly when some ranked-1v1 match
    of the list has no completion time; otherwise it returns the
    ranked-1v1 matches of the list, all of them and nothing else, latest
    completion first. *)
Theorem filter_1v1_matches_spec (matches : list RawMatch) :
  match filter_1v1_matches matches with
  | Next result =>
      Permutation result (filter is_ranked_1v1 matches) /\
      Forall (fun m => raw_matchtype_id m = Some 1) result /\
      descending (fun m => get_or (raw_completiontime m) 0) result /\
      Forall (fun m => raw_completiontime m <> None) (filter is_ranked_1v1 matches)
  | EarlyReturn => False
  | Raised =>
      exists m, In m matches /\ raw_matchtype_id m = Some 1 /\
                raw_completiontime m = None
  end.
Proof.
  unfold filter_1v1_matches.
  change (filter (fun m => match raw_matchtype_id m with
                           | Some t => Z.eqb t 1
                           | None => false
                           end) matches)
    with (filter is_ranked_1v1 matches).
  set (ranked := filter is_ranked_1v1 matches).
  assert (Hr : forall m, In m ranked -> In m matches /\ raw_matchtype_id m = Some 1).
  { intros m Hm. unfold ranked in Hm. apply filter_In in Hm.
    destruct Hm as [Hin Ht]. split; [exact Hin|].
    unfold is_ranked_1v1 in Ht. destruct (raw_matchtype_id m) as [t|]; [|discriminate].
    apply Z.eqb_eq in Ht. congruence. }
  pose proof (flow_map_keyed ranked) as Hk.
  destruct (flow_map _ ranked) as [keyed| |]; simpl.
  - destruct Hk as [K1 K2].
    assert (Hp : Permutation (map snd (sort_desc fst keyed)) ranked).
    { rewrite <- K1. apply Permutation_map, sort_desc_perm. }
    split; [exact Hp|]. split; [|split].
    + apply Forall_forall. intros m Hm.
      apply (Permutation_in _ Hp) in Hm. apply Hr, Hm.
    + apply descending_map with (key := fst); [|apply sort_desc_sorted].
      apply (Permutation_Forall (Permutation_sym (sort_desc_perm fst keyed))).
      eapply Forall_impl; [|exact K2]. intros [k m] E. simpl in *. rewrite E. reflexivity.
    + rewrite <- K1. rewrite Forall_map.
      eapply Forall_impl; [|exact K2]. intros [k m] E. simpl in *. congruence.
  - exact Hk.
  - destruct Hk as (m & Hin & Hn). exists m.
    destruct (Hr m Hin) as [H1 H2]. auto.
Qed.

(** *** The order of the top-ELO view *)

Lemma dict_set_keys_nodup {V} (d : dict pystr V) (k : pystr) (v : V) :
  NoDup (dict_keys d) -> NoDup (dict_keys (dict_set d k v)).
Proof.
  intros Hd. destruct (in_dec (list_eq_dec N.eq_dec) k (dict_keys d)) as [Hin|Hnin].
  - assert (E : dict_keys (dict_set d k v) = dict_keys d); [|rewrite E; exact Hd].
    clear Hd. induction d as [|[k' v'] d IH]; simpl in *; [contradiction|].
    destruct (keqb k' k) eqn:Ek; simpl; [reflexivity|].
    f_equal. apply IH. destruct Hin as [->|Hin]; [|exact Hin].
    rewrite keqb_refl in Ek. discriminate.
  - rewrite (dict_keys_set_fresh d k v Hnin).
    apply NoDup_app; [exact Hd | repeat constructor; intros [] | ].
    intros x Hx [<-|[]]. contradiction.
Qed.

Lemma players_keyed_set (d : dict pystr TopPlayer) (p : TopPlayer) :
  players_keyed d -> players_keyed (dict_set d (tp_steam_id p) p).
Proof.
  intros [Hn Hf]. split; [apply dict_set_keys_nodup, Hn|].
  clear Hn. induction Hf as [|[k v] d Hkv Hf IH]; simpl.
  - constructor; [reflexivity | constructor].
  - destruct (keqb k (tp_steam_id p)) eqn:E.
    + apply keqb_eq in E. constructor; [simpl; congruence | exact Hf].
    + constructor; [exact Hkv | exact IH].
Qed.

Lemma topelo_step_keyed (lb_id : Z) (faction_name : pystr) (min_games : Z)
    (player_lookup : dict Z PlayerInfo) (acc : TopAcc) (item : Z * RankInfo) :
  players_keyed (all_players acc) ->
  players_keyed (all_players
     (topelo_step lb_id faction_name min_games player_lookup acc item)).
Proof.
  intros Hacc. unfold topelo_step. destruct item as [statgroup_id rank_info].
  destruct (dict_get player_lookup statgroup_id) as [player_info|]; [|assumption].
  destruct (ri_rank rank_info) as [rank|]; [|assumption].
  destruct (Z.leb rank 0 || Z.ltb 100 rank); [assumption|].
  destruct (Z.ltb _ min_games); [assumption|].
  cbn [all_players].
  match goal with
  | |- context [dict_set (all_players acc) (pi_steamid player_info) ?v] =>
      pose proof (players_keyed_set (all_players acc) v Hacc) as Hset
  end.
  cbn [tp_steam_id] in Hset.
  destruct (dict_get (all_players acc) (pi_steamid player_info)) as [old|];
    [destruct (Z.ltb (tp_rating old) (ri_rating rank_info))|]; assumption.
Qed.

Lemma topelo_leaderboard_keyed (up : Upstream) (min_games : Z) (acc : TopAcc)
    (tick_lb : nat * (Z * pystr)) :
  players_keyed (all_players acc) ->
  players_keyed (all_players (topelo_leaderboard up min_games acc tick_lb)).
Proof.
  intros Hacc. unfold topelo_leaderboard. destruct tick_lb as [tick [lb_id name]].
  destruct (fetch_leaderboard_data up tick lb_id 1 100) as [lb_data|]; [|assumption].
  destruct (get_or (lb_leaderboardStats lb_data) []) as [|s stats]; [assumption|].
  destruct (get_or (lb_statGroups lb_data) []) as [|g groups]; [assumption|].
  apply fold_left_preserves; [|assumption].
  intros a b Ha. apply topelo_step_keyed, Ha.
Qed.

Lemma NoDup_firstn {A} (n : nat) (l : list A) : NoDup l -> NoDup (firstn n l).
Proof.
  intros Hl. revert n. induction Hl as [|x l Hx Hl IH]; intros [|n]; simpl;
    try constructor.
  - intros Hin. apply Hx. eapply In_firstn_incl; eassumption.
  - apply IH.
Qed.

(** X14: the top-ELO view lists its players by descending rating, lists
    no player twice, and is no longer than a [limit] that is not
    negative. *)
Theorem topelo_order (up : Upstream) (limit min_games : Z) :
  let result := topelo up limit min_games in
  descending tp_rating result /\
  NoDup (map tp_steam_id result) /\
  (0 <= limit -> Z.of_nat (List.length result) <= limit).
Proof.
  cbv zeta. unfold topelo.
  set (acc := fold_left (topelo_leaderboard up min_games)
                (enumerate known_leaderboards)
                {| all_players := []; faction_leaders := [] |}).
  assert (Hk : players_keyed (all_players acc)).
  { unfold acc.
    apply (fold_left_preserves (fun a => players_keyed (all_players a))).
    - intros a b Ha. apply topelo_leaderboard_keyed, Ha.
    - split; constructor. }
  set (marked := map (mark_leader (faction_leaders acc)) (dict_values (all_players acc))).
  assert (Hids : map tp_steam_id marked = dict_keys (all_players acc)).
  { unfold marked, dict_values, dict_keys. rewrite !map_map.
    destruct Hk as [_ Hf]. induction Hf as [|[k p] d E Hf IH]; simpl; [reflexivity|].
    f_equal; [|exact IH]. unfold mark_leader. simpl in E.
    destruct (dict_get (faction_leaders acc) (tp_steam_id p)); exact E. }
  split; [apply descending_slice_to, sort_desc_sorted|].
  split; [|apply slice_to_length].
  unfold slice_to.
  assert (Hn : NoDup (map tp_steam_id (sort_desc tp_rating marked))).
  { apply (Permutation_NoDup
             (Permutation_map tp_steam_id
                (Permutation_sym (sort_desc_perm tp_rating marked)))).
    rewrite Hids. apply Hk. }
  destruct (Z.leb 0 limit); rewrite <- firstn_map; apply NoDup_firstn, Hn.
Qed.

(* ------------------------------------------------------------------ *)
(** ** What the aggregators count *)

Lemma dict_get_update {K V} `{KeyLaws K} (d : dict K V) (k r : K) (f : V -> V) :
  dict_get (dict_update d k f) r
  = option_map (fun v => if keqb k r then f v else v) (dict_get d r).
Proof.
  destruct (keqb k r) eqn:E.
  - apply keqb_eq in E. subst r. apply dict_get_update_same.
  - apply keqb_neq in E. rewrite dict_get_update_other by assumption.
    destruct (dict_get d r); reflexivity.
Qed.

(** *** Per-map race statistics *)

Lemma rs_count_under_eq (target_map race : pystr) (s : RaceStat) (m : MatchData) :
  rs_count_under target_map race s m
  = if keqb (map_name m) target_map then
      let s1 := if keqb (winner_race m) race then rs_add_win s else s in
      if keqb (loser_race m) race then rs_add_loss s1 else s1
    else s.
Proof. reflexivity. Qed.

Lemma map_stats_fold_get (target_map race : pystr) (ms : list MatchData)
    (total : Z) (d : dict pystr RaceStat) :
  fst (fold_left (map_stats_step target_map) ms (total, d))
  = total + count_matches (on_map target_map) ms /\
  dict_get (snd (fold_left (map_stats_step target_map) ms (total, d))) race
  = option_map (fun s => fold_left (rs_count_under target_map race) ms s)
               (dict_get d race).
Proof.
  revert total d. induction ms as [|m ms IH]; intros total d; cbn [fold_left].
  - unfold count_matches. simpl. split; [lia|]. destruct (dict_get d race); reflexivity.
  - rewrite count_matches_cons. unfold map_stats_step at 2 4. unfold on_map at 1.
    destruct (keqb (map_name m) target_map) eqn:Em.
    + fold (loser_race m).
      destruct (IH (total + 1)
                   (dict_update (dict_update d (winner_race m) rs_add_win)
                                (loser_race m) rs_add_loss)) as [I1 I2].
      split; [rewrite I1; lia|].
      rewrite I2, !dict_get_update.
      destruct (dict_get d race) as [s|]; [|reflexivity]. simpl.
      rewrite rs_count_under_eq, Em. reflexivity.
    + destruct (IH total d) as [I1 I2]. split; [rewrite I1; lia|].
      rewrite I2. destruct (dict_get d race) as [s|]; [|reflexivity]. simpl.
      rewrite rs_count_under_eq, Em. reflexivity.
Qed.

Lemma rs_count_under_fold (target_map race : pystr) (ms : list MatchData)
    (s : RaceStat) :
  let s' := fold_left (rs_count_under target_map race) ms s in
  rs_wins s'
  = rs_wins s
    + count_matches (fun m => on_map target_map m && keqb (winner_race m) race) ms /\
  rs_losses s'
  = rs_losses s
    + count_matches (fun m => on_map target_map m && keqb (loser_race m) race) ms /\
  rs_total_games s' - rs_wins s' - rs_losses s'
  = rs_total_games s - rs_wins s - rs_losses s.
Proof.
  cbv zeta. revert s. induction ms as [|m ms IH]; intros s; cbn [fold_left].
  - unfold count_matches. simpl. repeat split; lia.
  - rewrite !count_matches_cons, rs_count_under_eq. unfold on_map at 1 3.
    cbv beta zeta.
    destruct (keqb (map_name m) target_map); cbn [andb].
    + destruct (keqb (winner_race m) race), (keqb (loser_race m) race);
        match goal with
        | |- context [fold_left _ ms ?s1] =>
            destruct (IH s1) as (I1 & I2 & I3)
        end;
        cbn [rs_wins rs_losses rs_total_games rs_add_win rs_add_loss] in *;
        repeat split; lia.
    + destruct (IH s) as (I1 & I2 & I3). repeat split; lia.
Qed.

Lemma rs_finish_counts (s : RaceStat) :
  rs_wins (rs_finish s) = rs_wins s /\
  rs_losses (rs_finish s) = rs_losses s /\
  rs_total_games (rs_finish s) = rs_total_games s.
Proof.
  unfold rs_finish. destruct (Z.ltb 0 (rs_total_games s)); simpl; auto.
Qed.

Lemma map_stats_keys (target_map : pystr) (ms : list MatchData)
    (acc : Z * dict pystr RaceStat) :
  dict_keys (snd (fold_left (map_stats_step target_map) ms acc)) = dict_keys (snd acc).
Proof.
  revert acc. induction ms as [|m ms IH]; intros acc; simpl; [reflexivity|].
  rewrite IH. unfold map_stats_step. destruct acc as [total d].
  destruct (keqb (map_name m) target_map); [|reflexivity].
  simpl. rewrite !dict_keys_update. reflexivity.
Qed.

(** X15: for a target map, [get_map_race_statistics] counts the filtered
    matches on that map; its table has exactly the nine faction names as
    keys, and the entry of a faction holds the number of those matches the
    faction won, the number it lost, and their sum as its games. *)
Theorem map_race_statistics_counts (target_map race : pystr)
    (min_elo max_elo : option Z) (st : Store) :
  In race faction_names ->
  let stats := get_map_race_statistics target_map min_elo max_elo st in
  let ms := filter_matches_by_elo_range min_elo max_elo st in
  ms_total_matches stats = count_matches (on_map target_map) ms /\
  dict_keys (ms_race_stats stats) = faction_names /\
  exists s,
    dict_get (ms_race_stats stats) race = Some s /\
    rs_wins s
    = count_matches (fun m => on_map target_map m && keqb (winner_race m) race) ms /\
    rs_losses s
    = count_matches (fun m => on_map target_map m && keqb (loser_race m) race) ms /\
    rs_total_games s = rs_wins s + rs_losses s.
Proof.
  intros Hr. cbv zeta. unfold get_map_race_statistics.
  set (ms := filter_matches_by_elo_range min_elo max_elo st).
  set (init := fold_left (fun d r => dict_set d r rs_zero) (dict_values FACTIONS) []).
  assert (Hinit : dict_get init race = Some rs_zero).
  { revert race Hr. apply faction_names_cases; reflexivity. }
  destruct (map_stats_fold_get target_map race ms 0 init) as [F1 F2].
  pose proof (map_stats_keys target_map ms (0, init)) as Hk.
  destruct (fold_left (map_stats_step target_map) ms (0, init)) as [total d].
  cbn [fst snd ms_total_matches ms_race_stats] in *.
  split; [rewrite F1; lia|].
  split; [rewrite dict_keys_map_values, Hk; reflexivity|].
  rewrite dict_get_map_values, F2, Hinit. simpl option_map.
  eexists. split; [reflexivity|].
  destruct (rs_count_under_fold target_map race ms rs_zero) as (C1 & C2 & C3).
  match goal with
  | |- context [rs_finish ?s] => destruct (rs_finish_counts s) as (P1 & P2 & P3)
  end.
  rewrite P1, P2, P3, C1, C2. simpl in *. repeat split; try lia.
Qed.

Lemma map_race_statistics_counts_witness :
  In (str "Orks") faction_names /\
  let stats := get_map_race_statistics (str "2p_battle_marshes") None None
                                       two_match_store in
  let ms := filter_matches_by_elo_range None None two_match_store in
  ms_total_matches stats = count_matches (on_map (str "2p_battle_marshes")) ms /\
  dict_keys (ms_race_stats stats) = faction_names /\
  exists s,
    dict_get (ms_race_stats stats) (str "Orks") = Some s /\
    rs_wins s
    = count_matches (fun m => on_map (str "2p_battle_marshes") m
                              && keqb (winner_race m) (str "Orks")) ms /\
    rs_losses s
    = count_matches (fun m => on_map (str "2p_battle_marshes") m
                              && keqb (loser_race m) (str "Orks")) ms /\
    rs_total_games s = rs_wins s + rs_losses s.
Proof.
  assert (H : In (str "Orks") faction_names).
  { do 5 right. left. reflexivity. }
  split; [exact H|].
  exact (map_race_statistics_counts (str "2p_battle_marshes") (str "Orks")
           None None two_match_store H).
Defined.

(** On the two stored matches, both won by the Ork player against Chaos. *)
Example map_race_statistics_example :
  let stats := get_map_race_statistics (str "2p_battle_marshes") None None
                                       two_match_store in
  ms_total_matches stats = 2 /\
  option_map (fun s => (rs_wins s, rs_losses s, rs_total_games s, Qred (rs_winrate s)))
             (dict_get (ms_race_stats stats) (str "Orks"))
  = Some (2, 0, 2, 100%Q) /\
  option_map (fun s => (rs_wins s, rs_losses s, rs_total_games s, Qred (rs_winrate s)))
             (dict_get (ms_race_stats stats) (str "Chaos"))
  = Some (0, 2, 2, 0%Q) /\
  ms_elo_range stats = str "Any-Any".
Proof. vm_compute. repeat split. Qed.

(** *** Per-race matchup table *)

Lemma mu_count_under_eq (target race : pystr) (s : Matchup) (m : MatchData) :
  mu_count_under target race s m
  = if between target race m then mu_add (keqb (winner_race m) target) s else s.
Proof. reflexivity. Qed.

Lemma matchups_step_get (target race : pystr) (acc : MatchupAcc) (m : MatchData) :
  race <> target ->
  dict_get (acc_matchups (matchups_step target acc m)) race
  = option_map (fun s => mu_count_under target race s m)
               (dict_get (acc_matchups acc) race).
Proof.
  intros Hne. destruct (between target race m) eqn:Hb.
  - assert (Hopp : keqb target (player1_race m) || keqb target (player2_race m) = true
                   /\ (if keqb (player1_race m) target
                       then player2_race m else player1_race m) = race).
    { unfold between in Hb. apply orb_true_iff in Hb.
      destruct Hb as [Hb|Hb]; apply andb_true_iff in Hb; destruct Hb as [H1 H2];
        apply keqb_eq in H1, H2.
      - rewrite H1, H2, !keqb_refl. auto.
      - rewrite H1, H2, keqb_refl, orb_true_r.
        assert (E : keqb race target = false) by (apply keqb_neq; assumption).
        rewrite E. auto. }
    destruct Hopp as [Hg Ho]. unfold matchups_step. rewrite Hg, Ho.
    unfold dict_mem.
    destruct (dict_get (acc_matchups acc) race) as [s|] eqn:Hget; simpl.
    + rewrite dict_get_update_same, Hget. simpl.
      rewrite mu_count_under_eq, Hb. reflexivity.
    + exact Hget.
  - rewrite (matchups_step_other target race acc m Hb).
    destruct (dict_get (acc_matchups acc) race) as [s|]; [|reflexivity]. simpl.
    rewrite mu_count_under_eq, Hb. reflexivity.
Qed.

Lemma matchups_fold_get (target race : pystr) (ms : list MatchData)
    (acc : MatchupAcc) :
  race <> target ->
  dict_get (acc_matchups (fold_left (matchups_step target) ms acc)) race
  = option_map (fun s => fold_left (mu_count_under target race) ms s)
               (dict_get (acc_matchups acc) race).
Proof.
  intros Hne. revert acc. induction ms as [|m ms IH]; intros acc; cbn [fold_left].
  - destruct (dict_get (acc_matchups acc) race); reflexivity.
  - rewrite IH, (matchups_step_get target race acc m Hne).
    destruct (dict_get (acc_matchups acc) race); reflexivity.
Qed.

Lemma mu_count_under_fold (target race : pystr) (ms : list MatchData) (s : Matchup) :
  let s' := fold_left (mu_count_under target race) ms s in
  mu_total s' = mu_total s + count_matches (between target race) ms /\
  mu_wins s'
  = mu_wins s
    + count_matches (fun m => between target race m && keqb (winner_race m) target) ms /\
  mu_losses s'
  = mu_losses s
    + count_matches (fun m => between target race m
                              && negb (keqb (winner_race m) target)) ms.
Proof.
  cbv zeta. revert s. induction ms as [|m ms IH]; intros s; cbn [fold_left].
  - unfold count_matches. simpl. repeat split; lia.
  - rewrite !count_matches_cons, mu_count_under_eq. cbv beta.
    destruct (between target race m); cbn [andb].
    + destruct (IH (mu_add (keqb (winner_race m) target) s)) as (I1 & I2 & I3).
      destruct (keqb (winner_race m) target);
        cbn [mu_add mu_total mu_wins mu_losses negb] in *; repeat split; lia.
    + destruct (IH s) as (I1 & I2 & I3). repeat split; lia.
Qed.

Lemma mu_finish_counts (s : Matchup) :
  mu_total (mu_finish s) = mu_total s /\
  mu_wins (mu_finish s) = mu_wins s /\
  mu_losses (mu_finish s) = mu_losses s.
Proof.
  unfold mu_finish. destruct (Z.ltb 0 (mu_total s)); simpl; auto.
Qed.

Lemma matchups_step_totals (target : pystr) (acc : MatchupAcc) (m : MatchData) :
  let acc' := matchups_step target acc m in
  acc_total_matches acc'
  = acc_total_matches acc + (if involves target m then 1 else 0) /\
  acc_total_wins acc <= acc_total_wins acc' /\
  acc_total_losses acc <= acc_total_losses acc' /\
  acc_total_wins acc' + acc_total_losses acc' - acc_total_matches acc'
  <= acc_total_wins acc + acc_total_losses acc - acc_total_matches acc.
Proof.
  cbv zeta. unfold matchups_step, involves.
  destruct (keqb target (player1_race m) || keqb target (player2_race m)).
  - destruct (dict_mem _ _); [destruct (keqb (winner_race m) target)|];
      cbn [acc_total_matches acc_total_wins acc_total_losses]; repeat split; lia.
  - repeat split; lia.
Qed.

Lemma matchups_fold_totals (target : pystr) (ms : list MatchData) (acc : MatchupAcc) :
  let acc' := fold_left (matchups_step target) ms acc in
  acc_total_matches acc' = acc_total_matches acc + count_matches (involves target) ms /\
  acc_total_wins acc <= acc_total_wins acc' /\
  acc_total_losses acc <= acc_total_losses acc' /\
  acc_total_wins acc' + acc_total_losses acc' - acc_total_matches acc'
  <= acc_total_wins acc + acc_total_losses acc - acc_total_matches acc.
Proof.
  cbv zeta. revert acc. induction ms as [|m ms IH]; intros acc; cbn [fold_left].
  - unfold count_matches. simpl. repeat split; lia.
  - rewrite count_matches_cons.
    destruct (IH (matchups_step target acc m)) as (I1 & I2 & I3 & I4).
    destruct (matchups_step_totals target acc m) as (S1 & S2 & S3 & S4).
    repeat split; lia.
Qed.

(** X16: for a target race, [get_race_specific_matchups] counts as total
    the filtered matches that have the target in a slot; the entry of
    another faction holds the number of matches between the two, the
    number of those the target won and the number it did not.  The overall
    wins and losses are not negative and together do not exceed the total
    (a mirror match adds to the total only). *)
Theorem race_matchups_counts (target race : pystr) (min_elo max_elo : option Z)
    (st : Store) :
  In race faction_names ->
  race <> target ->
  let r := get_race_specific_matchups target min_elo max_elo st in
  let ms := filter_matches_by_elo_range min_elo max_elo st in
  rm_total_matches r = count_matches (involves target) ms /\
  0 <= rm_total_wins r /\ 0 <= rm_total_losses r /\
  rm_total_wins r + rm_total_losses r <= rm_total_matches r /\
  exists mu,
    dict_get (rm_matchups r) race = Some mu /\
    mu_total mu = count_matches (between target race) ms /\
    mu_wins mu
    = count_matches (fun m => between target race m
                              && keqb (winner_race m) target) ms /\
    mu_losses mu
    = count_matches (fun m => between target race m
                              && negb (keqb (winner_race m) target)) ms.
Proof.
  intros Hr Hne. cbv zeta. unfold get_race_specific_matchups.
  set (ms := filter_matches_by_elo_range min_elo max_elo st).
  set (init := {| acc_total_matches := 0; acc_total_wins := 0;
                  acc_total_losses := 0; acc_matchups := matchups_init target |}).
  destruct (matchups_fold_totals target ms init) as (T1 & T2 & T3 & T4).
  pose proof (matchups_fold_get target race ms init Hne) as G.
  destruct (fold_left (matchups_step target) ms init) as [tm tw tl d].
  unfold init in *.
  cbn [rm_total_matches rm_total_wins rm_total_losses rm_matchups
       acc_total_matches acc_total_wins acc_total_losses acc_matchups] in *.
  split; [lia|]. split; [lia|]. split; [lia|]. split; [lia|].
  assert (Hinit : dict_get (matchups_init target) race = Some (mu_zero race)).
  { unfold matchups_init. rewrite matchups_init_get.
    assert (E1 : existsb (keqb race) (dict_values FACTIONS) = true).
    { apply existsb_exists. exists race. split; [exact Hr | apply keqb_refl]. }
    assert (E2 : keqb race target = false) by (apply keqb_neq; assumption).
    rewrite E1, E2. reflexivity. }
  rewrite dict_get_map_values, G, Hinit. simpl option_map.
  eexists. split; [reflexivity|].
  destruct (mu_count_under_fold target race ms (mu_zero race)) as (C1 & C2 & C3).
  match goal with
  | |- context [mu_finish ?s] => destruct (mu_finish_counts s) as (P1 & P2 & P3)
  end.
  rewrite P1, P2, P3, C1, C2, C3. simpl. repeat split.
Qed.

Lemma race_matchups_counts_witness :
  In (str "Chaos") faction_names /\
  str "Chaos" <> str "Orks" /\
  let r := get_race_specific_matchups (str "Orks") None None two_match_store in
  let ms := filter_matches_by_elo_range None None two_match_store in
  rm_total_matches r = count_matches (involves (str "Orks")) ms /\
  0 <= rm_total_wins r /\ 0 <= rm_total_losses r /\
  rm_total_wins r + rm_total_losses r <= rm_total_matches r /\
  exists mu,
    dict_get (rm_matchups r) (str "Chaos") = Some mu /\
    mu_total mu = count_matches (between (str "Orks") (str "Chaos")) ms /\
    mu_wins mu
    = count_matches (fun m => between (str "Orks") (str "Chaos") m
                              && keqb (winner_race m) (str "Orks")) ms /\
    mu_losses mu
    = count_matches (fun m => between (str "Orks") (str "Chaos") m
                              && negb (keqb (winner_race m) (str "Orks"))) ms.
Proof.
  assert (H1 : In (str "Chaos") faction_names) by (left; reflexivity).
  assert (H2 : str "Chaos" <> str "Orks") by discriminate.
  split; [exact H1|]. split; [exact H2|].
  exact (race_matchups_counts (str "Orks") (str "Chaos") None None two_match_store
           H1 H2).
Defined.

(* ------------------------------------------------------------------ *)
(** ** Leaderboard stat processing *)

Lemma dict_set_keys_in {K V} `{KeyLaws K} (d : dict K V) (k x : K) (v : V) :
  In x (dict_keys (dict_set d k v)) -> x = k \/ In x (dict_keys d).
Proof.
  induction d as [|[k' v'] d IH]; simpl.
  - intros [<-|[]]. left; reflexivity.
  - destruct (keqb k' k); simpl.
    + intros Hx. right; exact Hx.
    + intros [<-|Hx]; [right; left; reflexivity|].
      destruct (IH Hx) as [->|Hin]; [left; reflexivity | right; right; exact Hin].
Qed.

Lemma dict_set_nodup {K V} `{KeyLaws K} (d : dict K V) (k : K) (v : V) :
  NoDup (dict_keys d) -> NoDup (dict_keys (dict_set d k v)).
Proof.
  induction d as [|[k' v'] d IH]; simpl; intros Hd.
  - repeat constructor. intros [].
  - destruct (keqb k' k) eqn:E; simpl; [exact Hd|].
    inversion Hd as [|? ? Hk' Hd']; subst. constructor; [|apply IH, Hd'].
    intros Hin. apply dict_set_keys_in in Hin. destruct Hin as [->|Hin].
    + rewrite keqb_refl in E. discriminate.
    + contradiction.
Qed.

Lemma Forall_pairs_dict_set {K V} `{KeyLaws K} (P : K * V -> Prop) (d : dict K V)
    (k : K) (v : V) :
  P (k, v) -> Forall P d -> Forall P (dict_set d k v).
Proof.
  intros Hv Hd. induction Hd as [|[k' v'] d Hkv Hd IH]; simpl.
  - constructor; [exact Hv | constructor].
  - destruct (keqb k' k) eqn:E.
    + apply keqb_eq in E. subst k'. constructor; assumption.
    + constructor; assumption.
Qed.

Lemma factions_domain (id : Z) (name : pystr) :
  dict_get FACTIONS id = Some name -> 1 <= id <= 9.
Proof.
  intros Hn. unfold FACTIONS, dict_get, keqb, Key_Z in Hn.
  repeat match type of Hn with
  | context [Z.eqb ?k id] => destruct (Z.eqb_spec k id); [lia|]
  end.
  discriminate.
Qed.

(** X17: [process_leaderboard_stats] files at most one entry per
    leaderboard id, only under the ids 1 to 9; an entry carries the
    faction's name, was made from a stat of that leaderboard, has games =
    wins + losses with the losses being the reported ones less the drops
    and never negative, and shows a rank only when it is positive. *)
Theorem process_leaderboard_stats_entries (stats : list LbStat) :
  NoDup (dict_keys (process_leaderboard_stats stats)) /\
  Forall (faction_entry_ok stats) (process_leaderboard_stats stats).
Proof.
  unfold process_leaderboard_stats.
  assert (G : forall done todo d,
             NoDup (dict_keys d) /\ Forall (faction_entry_ok (done ++ todo)) d ->
             NoDup (dict_keys (fold_left leaderboard_step todo d)) /\
             Forall (faction_entry_ok (done ++ todo))
                    (fold_left leaderboard_step todo d)).
  { intros done todo. revert done.
    induction todo as [|s todo IH]; intros done d [Hn Hf]; simpl; [auto|].
    replace (done ++ s :: todo) with ((done ++ [s]) ++ todo) in *
      by (rewrite <- app_assoc; reflexivity).
    apply IH. unfold leaderboard_step.
    destruct (stat_leaderboard_id s) as [id|] eqn:Hid; [|auto].
    destruct (dict_get FACTIONS id) as [name|] eqn:Hname; [|auto].
    split; [apply dict_set_nodup, Hn|].
    apply Forall_pairs_dict_set; [|exact Hf].
    unfold faction_entry_ok. simpl.
    split; [eapply factions_domain; eassumption|].
    split; [exact Hname|]. split; [reflexivity|]. split; [lia|].
    split.
    { destruct (Z.ltb 0 (get_or (stat_rank s) (-1))) eqn:E; [|exact I].
      apply Z.ltb_lt in E. exact E. }
    exists s. split; [|auto].
    apply in_or_app. left. apply in_or_app. right. left. reflexivity. }
  apply (G [] stats []). split; constructor.
Qed.

(** Two stats of the Chaos ladder and one of an unknown ladder: the later
    Chaos stat is the one kept; a rank of 0 shows as none. *)
Example process_leaderboard_stats_example :
  map (fun kv => (fst kv, fe_wins (snd kv), fe_losses (snd kv),
                  fe_total_games (snd kv), fe_rank (snd kv)))
      (process_leaderboard_stats
         [ chaos_stat 20 15 5;
           {| stat_leaderboard_id := Some 12; stat_statgroup_id := Some 1;
              stat_rank := Some 1; stat_rating := Some 1; stat_wins := Some 1;
              stat_losses := Some 1; stat_drops := Some 0; stat_streak := None |};
           {| stat_leaderboard_id := Some 1; stat_statgroup_id := Some 1;
              stat_rank := Some 0; stat_rating := Some 1500; stat_wins := Some 3;
              stat_losses := Some 1; stat_drops := Some 4; stat_streak := None |} ])
  = [(1, 3, 0, 3, None)].
Proof. vm_compute. reflexivity. Qed.

(** *** Overall win rate *)

Lemma winrate_fold (lb_ids : Z * Z) (stats : list LbStat) (w l : Z)
    (f : list LbStat) :
  let '(w', l', f') := fold_left (winrate_step lb_ids) stats (w, l, f) in
  f' = f ++ filter (fun s => in_py_range (stat_leaderboard_id s) lb_ids) stats /\
  w' = w + fst (fst (fold_left (winrate_step lb_ids) stats (0, 0, []))) /\
  l' = l + snd (fst (fold_left (winrate_step lb_ids) stats (0, 0, []))) /\
  l <= l' /\
  (Forall (fun s => 0 <= get_or (stat_wins s) 0) stats -> w <= w').
Proof.
  revert w l f. induction stats as [|s stats IH]; intros w l f; cbn [fold_left].
  - simpl. rewrite app_nil_r. repeat split; try lia.
  - unfold winrate_step at 2 4 6. cbn [filter].
    destruct (in_py_range (stat_leaderboard_id s) lb_ids).
    + pose proof (IH (w + get_or (stat_wins s) 0)
                     (l + Z.max (get_or (stat_losses s) 0 - get_or (stat_drops s) 0) 0)
                     (f ++ [s])) as I1.
      pose proof (IH (0 + get_or (stat_wins s) 0)
                     (0 + Z.max (get_or (stat_losses s) 0 - get_or (stat_drops s) 0) 0)
                     ([] ++ [s])) as I2.
      destruct (fold_left (winrate_step lb_ids) stats
                  (w + get_or (stat_wins s) 0, _, f ++ [s])) as [[w1 l1] f1].
      destruct (fold_left (winrate_step lb_ids) stats
                  (0 + get_or (stat_wins s) 0, _, [] ++ [s])) as [[w2 l2] f2].
      destruct I1 as (A1 & A2 & A3 & A4 & A5). destruct I2 as (B1 & B2 & B3 & B4 & B5).
      cbn [fst snd]. split; [rewrite A1, <- app_assoc; reflexivity|].
      repeat split; try lia.
      intros Hw. inversion Hw as [|? ? Hs Hw']; subst. specialize (A5 Hw'). lia.
    + pose proof (IH w l f) as I1.
      destruct (fold_left (winrate_step lb_ids) stats (w, l, f)) as [[w1 l1] f1].
      destruct I1 as (A1 & A2 & A3 & A4 & A5).
      repeat split; try assumption.
      intros Hw. inversion Hw; subst. auto.
Qed.

(** X18: [calculate_winrate_stats] keeps the stats of the asked
    leaderboards, in their order; its games are its wins plus its losses,
    and the losses are never negative; over a list in two parts the wins
    and losses are the sums of those of the parts; the win rate is 0 when
    there are no games; and when no stat reports negative wins the win
    rate lies in [0, 100]. *)
Theorem calculate_winrate_stats_spec (a b : list LbStat) (lb_ids : Z * Z) :
  let r := calculate_winrate_stats (a ++ b) lb_ids in
  ws_stats r
  = filter (fun s => in_py_range (stat_leaderboard_id s) lb_ids) (a ++ b) /\
  ws_games r = ws_wins r + ws_losses r /\
  0 <= ws_losses r /\
  ws_wins r
  = ws_wins (calculate_winrate_stats a lb_ids)
    + ws_wins (calculate_winrate_stats b lb_ids) /\
  ws_losses r
  = ws_losses (calculate_winrate_stats a lb_ids)
    + ws_losses (calculate_winrate_stats b lb_ids) /\
  (ws_games r <= 0 -> ws_winrate r = 0%Q) /\
  (Forall (fun s => 0 <= get_or (stat_wins s) 0) (a ++ b) ->
   winrate_ok (ws_winrate r) (ws_games r)).
Proof.
  cbv zeta. unfold calculate_winrate_stats.
  rewrite fold_left_app.
  pose proof (winrate_fold lb_ids a 0 0 []) as Ha.
  destruct (fold_left (winrate_step lb_ids) a (0, 0, [])) as [[wa la] fa].
  destruct Ha as (A1 & _ & _ & A4 & A5).
  pose proof (winrate_fold lb_ids b wa la fa) as Hb.
  destruct (fold_left (winrate_step lb_ids) b (wa, la, fa)) as [[w l] f].
  destruct (fold_left (winrate_step lb_ids) b (0, 0, [])) as [[wb lb] fb].
  destruct Hb as (B1 & B2 & B3 & B4 & B5). cbn [fst snd] in *.
  cbn [ws_stats ws_games ws_wins ws_losses ws_winrate].
  split; [rewrite B1, A1, filter_app; reflexivity|].
  split; [reflexivity|]. split; [lia|]. split; [lia|]. split; [lia|].
  split.
  - intros Hz. destruct (Z.ltb 0 (w + l)) eqn:E; [|reflexivity].
    apply Z.ltb_lt in E. lia.
  - intros Hw. apply Forall_app in Hw. destruct Hw as [Hwa Hwb].
    specialize (A5 Hwa). specialize (B5 Hwb).
    unfold winrate_ok. destruct (Z.ltb 0 (w + l)) eqn:E.
    + apply Z.ltb_lt in E.
      destruct (percentage_bounds w (w + l)); [lia | assumption|].
      repeat split; auto. lia.
    + repeat split; unfold Qle; simpl; lia.
Qed.

Lemma calculate_winrate_stats_spec_witness :
  Forall (fun s => 0 <= get_or (stat_wins s) 0)
         ([chaos_stat 20 15 5] ++ [chaos_stat 10 5 0]) /\
  let r := calculate_winrate_stats ([chaos_stat 20 15 5] ++ [chaos_stat 10 5 0])
                                   (1, 10) in
  ws_wins r = 30 /\ ws_losses r = 15 /\ ws_games r = 45 /\
  winrate_ok (ws_winrate r) (ws_games r).
Proof.
  assert (H : Forall (fun s => 0 <= get_or (stat_wins s) 0)
                     ([chaos_stat 20 15 5] ++ [chaos_stat 10 5 0])).
  { repeat constructor; simpl; lia. }
  split; [exact H|].
  split; [reflexivity|]. split; [reflexivity|]. split; [reflexivity|].
  exact (proj2 (proj2 (proj2 (proj2 (proj2 (proj2
           (calculate_winrate_stats_spec [chaos_stat 20 15 5] [chaos_stat 10 5 0]
              (1, 10))))))) H).
Defined.

(* ------------------------------------------------------------------ *)
(** ** The leaderboard of one faction *)

Lemma rank_leb_total (a b : option Z) : rank_leb a b = false -> rank_leb b a = true.
Proof.
  destruct a as [x|], b as [y|]; simpl; try congruence.
  rewrite Z.leb_gt, Z.leb_le. lia.
Qed.

Lemma rank_leb_trans (a b c : option Z) :
  rank_leb a b = true -> rank_leb b c = true -> rank_leb a c = true.
Proof.
  destruct a as [x|], b as [y|], c as [z|]; simpl; try congruence.
  rewrite !Z.leb_le. lia.
Qed.

Lemma insert_by_rank_perm {A} (key : A -> option Z) (x : A) (l : list A) :
  Permutation (insert_by_rank key x l) (x :: l).
Proof.
  induction l as [|y l IH]; simpl; [apply Permutation_refl|].
  destruct (rank_leb (key x) (key y)); [apply Permutation_refl|].
  eapply Permutation_trans; [apply perm_skip, IH | apply perm_swap].
Qed.

Lemma sort_by_rank_perm {A} (key : A -> option Z) (l : list A) :
  Permutation (sort_by_rank key l) l.
Proof.
  induction l as [|x l IH]; simpl; [apply Permutation_refl|].
  eapply Permutation_trans; [apply insert_by_rank_perm | apply perm_skip, IH].
Qed.

Lemma insert_by_rank_sorted {A} (key : A -> option Z) (x : A) (l : list A) :
  by_rank key l -> by_rank key (insert_by_rank key x l).
Proof.
  unfold by_rank. intros Hl. induction Hl as [|y l Hl IH Hy]; simpl.
  - constructor; constructor.
  - destruct (rank_leb (key x) (key y)) eqn:E.
    + constructor; [constructor; assumption|].
      constructor; [assumption|].
      rewrite Forall_forall in *. intros z Hz.
      eapply rank_leb_trans; [exact E | apply Hy, Hz].
    + apply rank_leb_total in E. constructor; [assumption|].
      apply (Permutation_Forall (Permutation_sym (insert_by_rank_perm key x l))).
      constructor; assumption.
Qed.

Lemma sort_by_rank_sorted {A} (key : A -> option Z) (l : list A) :
  by_rank key (sort_by_rank key l).
Proof.
  induction l as [|x l IH]; simpl; [constructor|].
  apply insert_by_rank_sorted, IH.
Qed.

Lemma player_lookup_valid (stat_groups : list StatGroup) :
  Forall (fun kv => validate_steamid (pi_steamid (snd kv)) = true)
         (fold_left player_lookup_step stat_groups []).
Proof.
  apply fold_left_preserves; [|constructor].
  intros d sg Hd. unfold player_lookup_step.
  destruct (truthy (sg_id sg)) as [group_id|]; [|assumption].
  destruct (get_or (sg_members sg) []) as [|member rest]; [assumption|].
  destruct (startswith _ _); [|assumption].
  destruct (validate_steamid _) eqn:Hv; [|assumption].
  apply Forall_pairs_dict_set; [exact Hv | assumption].
Qed.

Lemma dict_get_in_pairs {K V} `{KeyLaws K} (d : dict K V) (k : K) (v : V) :
  dict_get d k = Some v -> exists k', In (k', v) d.
Proof.
  induction d as [|[k' v'] d IH]; simpl; [discriminate|].
  destruct (keqb k' k).
  - intros [= ->]. exists k'. left; reflexivity.
  - intros Hg. destruct (IH Hg) as [k0 Hin]. exists k0. right; exact Hin.
Qed.

Lemma dict_set_length {K V} `{KeyLaws K} (d : dict K V) (k : K) (v : V) :
  (List.length (dict_set d k v) <= S (List.length d))%nat.
Proof.
  induction d as [|[k' v'] d IH]; simpl; [lia|].
  destruct (keqb k' k); simpl; lia.
Qed.

Lemma rank_lookup_length (lb_id : Z) (stats : list LbStat) (d : dict Z RankInfo) :
  (List.length (fold_left (rank_lookup_step lb_id) stats d)
   <= List.length d + List.length stats)%nat.
Proof.
  revert d. induction stats as [|s stats IH]; intros d; simpl; [lia|].
  eapply Nat.le_trans; [apply IH|].
  assert (Hs : (List.length (rank_lookup_step lb_id d s) <= S (List.length d))%nat).
  { unfold rank_lookup_step.
    destruct (stat_leaderboard_id s) as [id|]; [|lia].
    destruct (Z.eqb id lb_id); [|lia].
    destruct (truthy (stat_statgroup_id s)); [apply dict_set_length | lia]. }
  lia.
Qed.

(** X19: [get_faction_leaderboard] lists its players by ascending rank,
    those without a rank last; every entry has a valid platform id, games
    = wins + losses with losses that are never negative, and a win rate of
    exactly 0 over no games; there are no more entries than upstream
    stats, and none at all when the upstream answers nothing. *)
Theorem get_faction_leaderboard_spec (up : Upstream) (tick : nat)
    (race_id start_rank count : Z) :
  let result := get_faction_leaderboard up tick race_id start_rank count in
  by_rank fp_rank result /\
  Forall faction_player_ok result /\
  (List.length result
   <= match fetch_leaderboard_data up tick race_id start_rank count with
      | Some lb_data => List.length (get_or (lb_leaderboardStats lb_data) [])
      | None => 0
      end)%nat.
Proof.
  cbv zeta. unfold get_faction_leaderboard.
  destruct (fetch_leaderboard_data up tick race_id start_rank count) as [lb_data|];
    [|repeat split; constructor].
  destruct (get_or (lb_leaderboardStats lb_data) []) as [|s stats] eqn:Hstats;
    [repeat split; constructor|].
  destruct (get_or (lb_statGroups lb_data) []) as [|g groups];
    [repeat split; try constructor; simpl; lia|].
  set (rank_lookup := fold_left (rank_lookup_step race_id) (s :: stats) []).
  set (player_lookup := fold_left player_lookup_step (g :: groups) []).
  set (players := fold_left (faction_leaderboard_step player_lookup) rank_lookup []).
  assert (Hok : Forall faction_player_ok players /\
                (List.length players <= List.length rank_lookup)%nat).
  { unfold players.
    assert (G : forall items acc,
               Forall faction_player_ok acc ->
               Forall faction_player_ok
                 (fold_left (faction_leaderboard_step player_lookup) items acc) /\
               (List.length (fold_left (faction_leaderboard_step player_lookup)
                               items acc)
                <= List.length acc + List.length items)%nat).
    { induction items as [|[gid info] items IH]; intros acc Hacc; simpl;
        [split; [assumption | lia]|].
      destruct (dict_get player_lookup gid) as [pinfo|] eqn:Hg.
      - destruct (IH (acc ++ [ {| fp_steamid := pi_steamid pinfo;
                                 fp_alias := pi_alias pinfo;
                                 fp_rank := ri_rank info;
                                 fp_rating := ri_rating info;
                                 fp_wins := ri_wins info;
                                 fp_losses := Z.max (ri_losses info - ri_drops info) 0;
                                 fp_total_games :=
                                   ri_wins info
                                   + Z.max (ri_losses info - ri_drops info) 0;
                                 fp_winrate :=
                                   if Z.ltb 0 (ri_wins info
                                               + Z.max (ri_losses info - ri_drops info) 0)
                                   then percentage (ri_wins info)
                                          (ri_wins info
                                           + Z.max (ri_losses info - ri_drops info) 0)
                                   else 0%Q;
                                 fp_streak := ri_streak info |} ])) as [I1 I2].
        + apply Forall_app. split; [assumption|]. constructor; [|constructor].
          unfold faction_player_ok. simpl.
          split.
          { destruct (dict_get_in_pairs _ _ _ Hg) as [k' Hin].
            pose proof (player_lookup_valid (g :: groups)) as Hv.
            rewrite Forall_forall in Hv. apply (Hv _ Hin). }
          split; [reflexivity|]. split; [lia|].
          intros Hz. destruct (Z.ltb 0 _) eqn:E; [|reflexivity].
          apply Z.ltb_lt in E. lia.
        + split; [exact I1|]. rewrite length_app in I2. simpl in I2. lia.
      - destruct (IH acc Hacc) as [I1 I2]. split; [exact I1 | lia]. }
    destruct (G rank_lookup [] (Forall_nil _)) as [G1 G2]. split; [exact G1|].
    simpl in G2. exact G2. }
  destruct Hok as [Hok Hlen].
  split; [apply sort_by_rank_sorted|].
  split.
  - apply (Permutation_Forall (Permutation_sym (sort_by_rank_perm fp_rank players))).
    exact Hok.
  - rewrite (Permutation_length (sort_by_rank_perm fp_rank players)).
    eapply Nat.le_trans; [exact Hlen|].
    pose proof (rank_lookup_length race_id (s :: stats) []) as Hr.
    simpl in Hr. exact Hr.
Qed.

(** On the example ladder the player of rank 1 comes first, then rank 7,
    then rank 150; nothing is filtered out. *)
Example get_faction_leaderboard_example :
  map (fun p => (fp_alias p, fp_rank p, fp_total_games p))
      (get_faction_leaderboard example_ladder 0 3 1 50)
  = [ (str "Alpha", Some 1, 30); (str "Gamma", Some 7, 3);
      (str "Beta", Some 150, 500) ].
Proof. vm_compute. reflexivity. Qed.

(* ------------------------------------------------------------------ *)
(** ** Reading a player out of personal stats *)

Lemma first_steam_member_spec (members : list GroupMember) :
  match first_steam_member members with
  | Some (steam_id, alias) =>
      exists member,
        In member members /\
        startswith (get_or (gm_name member) []) steam_prefix = true /\
        steam_id = remove_all steam_prefix (get_or (gm_name member) []) /\
        alias = get_or (gm_alias member) (str "Unknown Player")
  | None =>
      forall member, In member members ->
                     startswith (get_or (gm_name member) []) steam_prefix = false
  end.
Proof.
  induction members as [|m members IH]; simpl; [intros ? []|].
  destruct (startswith (get_or (gm_name m) []) steam_prefix) eqn:E.
  - exists m. auto.
  - destruct (first_steam_member members) as [[sid alias]|].
    + destruct IH as (member & Hin & H1 & H2 & H3). exists member. auto.
    + intros member [<-|Hin]; [exact E | apply IH, Hin].
Qed.

Lemma extract_player_loop_spec (stat_groups : list StatGroup)
    (cur : option pystr * pystr) :
  truthy_str (fst cur) = false ->
  let '(steam_id, alias) := extract_player_loop stat_groups cur in
  (~ has_steam_member stat_groups /\ (steam_id, alias) = cur) \/
  (exists s sg member,
     steam_id = Some s /\
     In sg stat_groups /\ In member (get_or (sg_members sg) []) /\
     startswith (get_or (gm_name member) []) steam_prefix = true /\
     s = remove_all steam_prefix (get_or (gm_name member) []) /\
     alias = get_or (gm_alias member) (str "Unknown Player")).
Proof.
  revert cur. induction stat_groups as [|sg rest IH]; intros cur Hcur; simpl.
  - destruct cur as [sid alias]. left. split; [|reflexivity].
    intros (sg & member & [] & _).
  - pose proof (first_steam_member_spec (get_or (sg_members sg) [])) as Hf.
    destruct (first_steam_member (get_or (sg_members sg) [])) as [[sid alias]|].
    + destruct Hf as (member & Hin & H1 & H2 & H3).
      assert (Hhere : exists s sg' member',
                 Some sid = Some s /\ In sg' (sg :: rest) /\
                 In member' (get_or (sg_members sg') []) /\
                 startswith (get_or (gm_name member') []) steam_prefix = true /\
                 s = remove_all steam_prefix (get_or (gm_name member') []) /\
                 alias = get_or (gm_alias member') (str "Unknown Player")).
      { exists sid, sg, member. repeat split; auto. left; reflexivity. }
      cbn [fst]. destruct (truthy_str (Some sid)) eqn:Ht; [right; exact Hhere|].
      specialize (IH (Some sid, alias) Ht).
      destruct (extract_player_loop rest (Some sid, alias)) as [sid' alias'].
      destruct IH as [[_ E]|(s & sg' & m' & E1 & E2 & E3)].
      * injection E as -> ->. right. exact Hhere.
      * right. exists s, sg', m'. split; [exact E1|].
        split; [right; exact E2 | exact E3].
    + rewrite Hcur. specialize (IH cur Hcur).
      destruct (extract_player_loop rest cur) as [sid' alias'].
      destruct IH as [[Hn E]|(s & sg' & m' & E1 & E2 & E3)].
      * left. split; [|exact E].
        intros (sg0 & m0 & [<-|Hin] & Hm & Hs).
        -- rewrite (Hf m0 Hm) in Hs. discriminate.
        -- apply Hn. exists sg0, m0. auto.
      * right. exists s, sg', m'. split; [exact E1|].
        split; [right; exact E2 | exact E3].
Qed.

(** X20: [extract_player_info_from_personal_stats] answers no platform id
    (and the alias 'Unknown Player') exactly when no member of any stat
    group has a name that starts with '/steam/'; an id it answers is such
    a member's name with the prefix removed, with that member's alias. *)
Theorem extract_player_info_spec (data : option LbData) :
  let stat_groups :=
    match data with Some d => get_or (lb_statGroups d) [] | None => [] end in
  match extract_player_info_from_personal_stats data with
  | (None, alias) =>
      ~ has_steam_member stat_groups /\ alias = str "Unknown Player"
  | (Some steam_id, alias) =>
      exists sg member,
        In sg stat_groups /\ In member (get_or (sg_members sg) []) /\
        startswith (get_or (gm_name member) []) steam_prefix = true /\
        steam_id = remove_all steam_prefix (get_or (gm_name member) []) /\
        alias = get_or (gm_alias member) (str "Unknown Player")
  end.
Proof.
  cbv zeta. unfold extract_player_info_from_personal_stats.
  set (stat_groups :=
         match data with Some d => get_or (lb_statGroups d) [] | None => [] end).
  pose proof (extract_player_loop_spec stat_groups (None, str "Unknown Player")
                eq_refl) as H.
  destruct (extract_player_loop stat_groups (None, str "Unknown Player"))
    as [[sid|] alias].
  - destruct H as [[_ E]|(s & sg & m & E1 & E2 & E3 & E4 & E5 & E6)];
      [discriminate|].
    injection E1 as <-. exists sg, m. auto.
  - destruct H as [[Hn E]|(s & sg & m & E1 & _)]; [|discriminate].
    split; [exact Hn | congruence].
Qed.

(* ------------------------------------------------------------------ *)
(** ** Resolving a player from an id or an alias *)

Lemma startswith_refl (s : pystr) : startswith s s = true.
Proof. induction s as [|c s IH]; simpl; [reflexivity|]. rewrite N.eqb_refl. exact IH. Qed.

Lemma contains_refl (s : pystr) : contains s s = true.
Proof. destruct s; simpl; [reflexivity|]. rewrite N.eqb_refl, startswith_refl. reflexivity. Qed.

Lemma find_exact_alias_find (lower : pystr -> pystr) (alias_lower : pystr)
    (items : list (pystr * pystr)) :
  find_exact_alias lower alias_lower items
  = option_map fst (find (fun kv => pystr_eqb (lower (snd kv)) alias_lower) items).
Proof.
  induction items as [|[k v] items IH]; simpl; [reflexivity|].
  destruct (pystr_eqb (lower v) alias_lower); [reflexivity | exact IH].
Qed.

Lemma find_partial_aliases_filter (lower : pystr -> pystr) (alias_lower : pystr)
    (items : list (pystr * pystr)) (matches : list pystr) :
  (List.length matches < 50)%nat ->
  find_partial_aliases lower alias_lower items matches
  = firstn 50 (matches
               ++ map fst (filter (fun kv => contains alias_lower (lower (snd kv)))
                                  items)).
Proof.
  revert matches. induction items as [|[k v] items IH]; intros matches Hlen.
  - cbn [find_partial_aliases filter map]. rewrite app_nil_r.
    symmetry. apply firstn_all2. lia.
  - cbn [find_partial_aliases filter snd].
    destruct (contains alias_lower (lower v)); [|apply IH, Hlen].
    cbn [map fst].
    replace (matches ++ k :: map fst (filter (fun kv => contains alias_lower (lower (snd kv))) items))
      with ((matches ++ [k]) ++ map fst (filter (fun kv => contains alias_lower (lower (snd kv))) items))
      by (rewrite <- app_assoc; reflexivity).
    destruct (Nat.leb_spec 50 (List.length (matches ++ [k]))) as [Hge|Hlt].
    + rewrite length_app in Hge. simpl in Hge.
      assert (E : List.length (matches ++ [k]) = 50%nat)
        by (rewrite length_app; simpl; lia).
      rewrite firstn_app, E, Nat.sub_diag.
      rewrite <- E at 1. rewrite firstn_all.
      change (firstn 0 _) with (@nil pystr). rewrite app_nil_r. reflexivity.
    + apply IH. exact Hlt.
Qed.

Lemma similar_aliases_filter (lower : pystr -> pystr) (identifier_lower : pystr)
    (aliases : list pystr) (similar_matches : list pystr) :
  (List.length similar_matches < 5)%nat ->
  similar_aliases lower identifier_lower aliases similar_matches
  = firstn 5 (similar_matches
              ++ filter (fun a => contains identifier_lower (lower a)) aliases).
Proof.
  revert similar_matches.
  induction aliases as [|a aliases IH]; intros acc Hlen.
  - cbn [similar_aliases filter]. rewrite app_nil_r.
    symmetry. apply firstn_all2. lia.
  - cbn [similar_aliases filter].
    destruct (contains identifier_lower (lower a)); [|apply IH, Hlen].
    replace (acc ++ a :: filter (fun a0 => contains identifier_lower (lower a0)) aliases)
      with ((acc ++ [a]) ++ filter (fun a0 => contains identifier_lower (lower a0)) aliases)
      by (rewrite <- app_assoc; reflexivity).
    destruct (Nat.leb_spec 5 (List.length (acc ++ [a]))) as [Hge|Hlt].
    + rewrite length_app in Hge. simpl in Hge.
      assert (E : List.length (acc ++ [a]) = 5%nat)
        by (rewrite length_app; simpl; lia).
      rewrite firstn_app, E, Nat.sub_diag.
      rewrite <- E at 1. rewrite firstn_all.
      change (firstn 0 _) with (@nil pystr). rewrite app_nil_r. reflexivity.
    + apply IH. exact Hlt.
Qed.

(** X21: [find_steamid_by_alias] answers the id of the first stored alias
    that equals the wanted one, case aside; without such an alias it
    answers an id exactly when one single stored alias contains the wanted
    one, and nothing when none or several do.  The cap of 50 partial
    matches never changes the answer. *)
Theorem find_steamid_by_alias_spec (lower : pystr -> pystr) (alias : pystr)
    (st : Store) :
  find_steamid_by_alias lower alias st =
  match find (fun kv => pystr_eqb (lower (snd kv)) (lower alias))
             (player_aliases st) with
  | Some kv => Some (fst kv)
  | None =>
      match filter (fun kv => contains (lower alias) (lower (snd kv)))
                   (player_aliases st) with
      | [kv] => Some (fst kv)
      | _ => None
      end
  end.
Proof.
  unfold find_steamid_by_alias. cbv zeta.
  rewrite find_exact_alias_find.
  destruct (find _ (player_aliases st)) as [kv|]; [reflexivity|].
  cbn [option_map].
  rewrite find_partial_aliases_filter by (simpl; lia).
  cbn [app].
  destruct (filter _ (player_aliases st)) as [|a [|b l]]; reflexivity.
Qed.

Lemma find_steamid_by_alias_key (lower : pystr -> pystr) (alias : pystr)
    (st : Store) (steamid : pystr) :
  find_steamid_by_alias lower alias st = Some steamid ->
  In steamid (dict_keys (player_aliases st)).
Proof.
  unfold find_steamid_by_alias, dict_keys. cbv zeta.
  rewrite find_exact_alias_find.
  destruct (find _ (player_aliases st)) as [kv|] eqn:Hf; cbn [option_map].
  - intros [= <-]. apply find_some in Hf. apply in_map, Hf.
  - rewrite find_partial_aliases_filter by (simpl; lia). cbn [app].
    set (l := map fst (filter _ (player_aliases st))).
    assert (Hl : incl l (map fst (player_aliases st))).
    { intros x Hx. unfold l in Hx. apply in_map_iff in Hx.
      destruct Hx as (kv & <- & Hin). apply filter_In in Hin.
      apply in_map, Hin. }
    destruct (firstn 50 l) as [|a [|b r]] eqn:E; try discriminate.
    intros [= <-]. apply Hl. apply (In_firstn_incl 50).
    rewrite E. left; reflexivity.
Qed.

(** X22: [resolve_player_identifier] answers an id that is either the
    identifier itself, being a valid id, or a key of the alias directory,
    together with the alias stored for it ('Unknown Player' if none) and no
    suggestion; when it answers no id it hands the identifier back with at
    most 5 suggestions, each a stored alias that contains the identifier,
    case aside. *)
Theorem resolve_player_identifier_spec (lower : pystr -> pystr)
    (identifier : pystr) (st : Store) :
  match resolve_player_identifier lower identifier st with
  | (Some steamid, alias, similar) =>
      (steamid = identifier /\ validate_steamid identifier = true \/
       validate_steamid identifier = false /\
       In steamid (dict_keys (player_aliases st))) /\
      alias = get_player_alias steamid st /\
      similar = []
  | (None, alias, similar) =>
      validate_steamid identifier = false /\
      alias = identifier /\
      (List.length similar <= 5)%nat /\
      Forall (fun a => In a (dict_values (player_aliases st)) /\
                       contains (lower identifier) (lower a) = true) similar
  end.
Proof.
  unfold resolve_player_identifier.
  destruct (validate_steamid identifier) eqn:Hv.
  - split; [left; split; reflexivity|]. split; reflexivity.
  - assert (Hnone :
      False = False /\
      identifier = identifier /\
      (List.length (similar_aliases lower (lower identifier)
                      (dict_values (player_aliases st)) []) <= 5)%nat /\
      Forall (fun a => In a (dict_values (player_aliases st)) /\
                       contains (lower identifier) (lower a) = true)
             (similar_aliases lower (lower identifier)
                (dict_values (player_aliases st)) [])).
    { split; [reflexivity|]. split; [reflexivity|].
      rewrite similar_aliases_filter by (simpl; lia). cbn [app].
      split; [apply firstn_le_length|].
      rewrite Forall_forall. intros a Ha.
      apply (In_firstn_incl 5) in Ha. apply filter_In in Ha. exact Ha. }
    destruct Hnone as (_ & _ & Hlen & Hall).
    destruct (find_steamid_by_alias lower identifier st) as [[|c s]|] eqn:Hfind.
    + repeat split; assumption.
    + split; [right; split; [reflexivity|]|].
      * eapply find_steamid_by_alias_key. exact Hfind.
      * split; reflexivity.
    + repeat split; assumption.
Qed.

(** Two players whose aliases both contain 'wolf': the exact alias is
    found whatever its case, the ambiguous fragment gives both aliases as
    suggestions, and a valid id needs no entry in the directory. *)
Example resolve_player_identifier_example :
  let st := with_aliases empty_store
              [ (str "76561198000000001", str "SpaceWolf");
                (str "76561198000000002", str "Wolfgang") ] in
  resolve_player_identifier ascii_lower (str "WOLFGANG") st
  = (Some (str "76561198000000002"), str "Wolfgang", []) /\
  resolve_player_identifier ascii_lower (str "wolf") st
  = (None, str "wolf", [str "SpaceWolf"; str "Wolfgang"]) /\
  resolve_player_identifier ascii_lower (str "gang") st
  = (Some (str "76561198000000002"), str "Wolfgang", []) /\
  resolve_player_identifier ascii_lower (str "76561198000000009") st
  = (Some (str "76561198000000009"), str "Unknown Player", []).
Proof. vm_compute. repeat split. Qed.

(* ------------------------------------------------------------------ *)
(** ** Completing a map name *)

Lemma In_dict_get {K V} `{KeyLaws K} (d : dict K V) (k : K) (v : V) :
  NoDup (dict_keys d) -> In (k, v) d -> dict_get d k = Some v.
Proof.
  induction d as [|[k' v'] d IH]; simpl; [intros _ []|].
  intros Hd Hin. inversion Hd as [|? ? Hk' Hd']; subst.
  destruct Hin as [E|Hin].
  - injection E as -> ->. rewrite keqb_refl. reflexivity.
  - destruct (keqb k' k) eqn:E; [|apply IH; assumption].
    apply keqb_eq in E. subst k'. exfalso. apply Hk'.
    unfold dict_keys. change k with (fst (k, v)). apply in_map, Hin.
Qed.

Lemma count_map_get (d : dict pystr Z) (m : MatchData) (k : pystr) :
  get_or (dict_get (count_map d m) k) 0
  = get_or (dict_get d k) 0 + (if on_map k m then 1 else 0).
Proof.
  unfold count_map, on_map.
  destruct (keqb (map_name m) k) eqn:E.
  - apply keqb_eq in E. subst k. rewrite dict_get_set_same. reflexivity.
  - rewrite dict_get_set_other.
    + lia.
    + intros Hk. apply keqb_eq in Hk. congruence.
Qed.

Lemma count_map_fold_get (ms : list MatchData) (d : dict pystr Z) (k : pystr) :
  get_or (dict_get (fold_left count_map ms d) k) 0
  = get_or (dict_get d k) 0 + count_matches (on_map k) ms.
Proof.
  revert d. induction ms as [|m ms IH]; intros d.
  - cbn [fold_left]. unfold count_matches. simpl. lia.
  - cbn [fold_left]. rewrite IH, count_map_get, count_matches_cons. lia.
Qed.

Lemma count_map_fold_nodup (ms : list MatchData) (d : dict pystr Z) :
  NoDup (dict_keys d) -> NoDup (dict_keys (fold_left count_map ms d)).
Proof.
  revert d. induction ms as [|m ms IH]; intros d Hd; [exact Hd|].
  cbn [fold_left]. apply IH. unfold count_map. apply dict_set_nodup, Hd.
Qed.

Lemma map_counts_exact (ms : list MatchData) (mc : pystr * Z) :
  In mc (fold_left count_map ms []) ->
  snd mc = count_matches (on_map (fst mc)) ms.
Proof.
  destruct mc as [k n]. intros Hin. cbn [fst snd].
  pose proof (count_map_fold_get ms [] k) as Hg.
  rewrite (In_dict_get _ k n (count_map_fold_nodup ms [] (NoDup_nil _)) Hin) in Hg.
  simpl in Hg. exact Hg.
Qed.

Lemma dict_keys_filter_nodup {K V} (keep : K * V -> bool) (d : dict K V) :
  NoDup (dict_keys d) -> NoDup (dict_keys (filter keep d)).
Proof.
  unfold dict_keys. intros Hd.
  induction d as [|kv d IH]; [constructor|].
  inversion Hd as [|? ? Hk Hd']; subst. cbn [filter].
  destruct (keep kv); [|exact (IH Hd')].
  cbn [map]. constructor; [|exact (IH Hd')].
  intros Hin. apply Hk. apply in_map_iff in Hin.
  destruct Hin as (kv' & E & Hkv'). apply filter_In in Hkv'.
  rewrite <- E. apply in_map. exact (proj1 Hkv').
Qed.

(** X23: [map_name_autocomplete] offers at most 25 choices, no map twice;
    every offered map has at least 3 stored matches and, when something
    was typed, a name that contains it, case aside; the choices come in
    descending number of stored matches. *)
Theorem map_name_autocomplete_spec (lower : pystr -> pystr) (current : pystr)
    (st : Store) :
  let choices := map_name_autocomplete lower current st in
  (List.length choices <= 25)%nat /\
  NoDup (map choice_value choices) /\
  Forall (choice_ok lower current st) choices /\
  descending (fun c => count_matches (on_map (choice_value c))
                                     (dict_values (stored_matches st)))
             choices.
Proof.
  cbv zeta. unfold map_name_autocomplete.
  set (ms := dict_values (stored_matches st)).
  set (map_counts := fold_left count_map ms []).
  set (valid0 := filter (fun mc => Z.leb 3 (snd mc)) map_counts).
  set (valid1 := match current with
                 | [] => valid0
                 | _ :: _ =>
                     filter (fun mc => contains (lower current) (lower (fst mc)))
                            valid0
                 end).
  set (mk := fun mc : pystr * Z =>
               {| choice_name :=
                    display_name_of (fst mc) ++ str " (" ++ str_of_int (snd mc)
                      ++ str " matches)";
                  choice_value := fst mc |}).
  assert (Hnd0 : NoDup (dict_keys valid0)).
  { apply dict_keys_filter_nodup.
    exact (count_map_fold_nodup ms [] (NoDup_nil _)). }
  assert (Hnd1 : NoDup (dict_keys valid1)).
  { unfold valid1.
    destruct current; [exact Hnd0 | apply dict_keys_filter_nodup, Hnd0]. }
  assert (Hin0 : forall mc, In mc valid0 ->
                            In mc map_counts /\ Z.leb 3 (snd mc) = true).
  { intros mc Hmc. apply filter_In in Hmc. exact Hmc. }
  assert (Hin1 : Forall (fun mc : pystr * Z =>
                   snd mc = count_matches (on_map (fst mc)) ms /\
                   3 <= snd mc /\
                   (current = [] \/
                    contains (lower current) (lower (fst mc)) = true)) valid1).
  { rewrite Forall_forall. intros mc Hmc.
    assert (H0 : In mc valid0 /\
                 (current = [] \/
                  contains (lower current) (lower (fst mc)) = true)).
    { unfold valid1 in Hmc. destruct current as [|c cur].
      - split; [exact Hmc | left; reflexivity].
      - apply filter_In in Hmc. destruct Hmc as [Hmc Hc].
        split; [exact Hmc | right; exact Hc]. }
    destruct H0 as [H0 Hc]. destruct (Hin0 mc H0) as [Hm H3].
    split; [apply map_counts_exact, Hm|].
    split; [apply Z.leb_le, H3 | exact Hc]. }
  assert (Hsorted : Forall (fun mc : pystr * Z =>
                      snd mc = count_matches (on_map (fst mc)) ms /\
                      3 <= snd mc /\
                      (current = [] \/
                       contains (lower current) (lower (fst mc)) = true))
                    (firstn 25 (sort_desc snd valid1))).
  { apply Forall_firstn, Forall_sort_desc, Hin1. }
  split; [rewrite length_map; apply firstn_le_length|].
  split.
  { rewrite map_map. change (fun x => choice_value (mk x)) with (@fst pystr Z).
    rewrite <- firstn_map. apply NoDup_firstn.
    apply (Permutation_NoDup
             (Permutation_sym (Permutation_map fst (sort_desc_perm snd valid1)))).
    exact Hnd1. }
  split.
  { rewrite Forall_map. eapply Forall_impl; [|exact Hsorted].
    intros mc (E & H3 & Hc). unfold choice_ok. cbn [choice_value mk].
    fold ms. split; [rewrite <- E; exact H3 | exact Hc]. }
  apply (descending_map mk snd).
  - eapply Forall_impl; [|exact Hsorted].
    intros mc (E & _). cbn [choice_value mk]. symmetry. exact E.
  - apply descending_firstn, sort_desc_sorted.
Qed.

(** Of three maps the one with a single match is not offered; the other
    two come with the more played first, and typing narrows the list. *)
Example map_name_autocomplete_example :
  map_name_autocomplete ascii_lower [] maps_store
  = [ {| choice_name := str "Outer Reaches (4 matches)";
         choice_value := str "Outer Reaches" |};
      {| choice_name := str "Blood River (3 matches)";
         choice_value := str "Blood River" |} ] /\
  map choice_value (map_name_autocomplete ascii_lower (str "BLOOD") maps_store)
  = [ str "Blood River" ].
Proof. vm_compute. split; reflexivity. Qed.
